(** * NanoClaw supervisor: dispatch and lifecycle subsystem

    A shallow embedding of the TypeScript sources of the supervisor
    (config.ts, db.ts, session-manager.ts, telegram-client.ts,
    container-pool.ts, task-scheduler.ts, index.ts) and the properties
    its specification states about them (Part II), followed by further
    properties read off the sources (Part III).

    Representation choices, used throughout:
    - a JavaScript string is a sequence of code units; the model keeps
      the code units below 256 ([string] / [list ascii]);
    - an instant is the number of milliseconds since the epoch ([Z]).
      The source stores instants as the text produced by
      [Date.prototype.toISOString], which has a fixed width for the years
      0000 to 9999, so for these instants the text order used by the SQL
      comparisons is the order of the instants; the comparisons of the
      model are exact for them and not beyond (a later year is written
      [+0YYYYY-...] and sorts first). The empty text used for "no
      timestamp yet" is [None];
    - a number is an integer ([Z]); templates and [parseInt] are exact
      for the safe integers, up to [2^53 - 1] in absolute value;
    - an SQL table is the list of its rows in insertion order;
    - [Map<K,V>] and objects used as dictionaries are [gmap]s. For a
      [Map] this is exact; a plain object ([sessions],
      [lastAgentTimestamp]) behaves as a finite map for every key but the
      property names it inherits from [Object.prototype]. *)

From Stdlib Require Import ZArith List String Ascii Bool Lia Permutation Sorted.
From stdpp Require Import gmap strings list pretty.

Local Open Scope string_scope.
Local Open Scope list_scope.
Local Open Scope Z_scope.

(* ===================================================================== *)
(** * Part I: the program                                                *)
(* ===================================================================== *)

(** ** Text: code units and the string operations the sources use *)
Module Text.

Definition chars (s : string) : list ascii := list_ascii_of_string s.
Definition text (l : list ascii) : string := string_of_list_ascii l.

Definition code (c : ascii) : nat := nat_of_ascii c.

Definition between (lo hi : nat) (c : ascii) : bool :=
  (Nat.leb lo (code c) && Nat.leb (code c) hi)%bool.

Definition is_upper (c : ascii) : bool := between 65 90 c.
Definition is_lower (c : ascii) : bool := between 97 122 c.
Definition is_digit (c : ascii) : bool := between 48 57 c.
Definition is_underscore (c : ascii) : bool := Nat.eqb (code c) 95.
Definition is_hyphen (c : ascii) : bool := Nat.eqb (code c) 45.

(** [\w] of a JavaScript regular expression: [[A-Za-z0-9_]]. *)
Definition is_word (c : ascii) : bool :=
  (is_upper c || is_lower c || is_digit c || is_underscore c)%bool.

(** [\s] of a JavaScript regular expression, on code units below 256:
    TAB, LF, VT, FF, CR, SPACE and NO-BREAK SPACE. *)
Definition is_space (c : ascii) : bool :=
  (between 9 13 c || Nat.eqb (code c) 32 || Nat.eqb (code c) 160)%bool.

(** [String.prototype.toLowerCase] on one code unit below 256: the ASCII
    capitals and the Latin-1 capitals (all but the multiplication sign). *)
Definition lower_char (c : ascii) : ascii :=
  if (is_upper c
      || (between 192 222 c && negb (Nat.eqb (code c) 215)))%bool
  then ascii_of_nat (code c + 32) else c.

Definition toLowerCase (l : list ascii) : list ascii := map lower_char l.

(** [s.replace(/\s+/g, '-')] and [s.replace(/-+/g, '-')]: every maximal
    run of characters of the class becomes one hyphen.  The hyphen is
    emitted at the last character of the run. *)
Fixpoint collapse_runs (cls : ascii -> bool) (l : list ascii) : list ascii :=
  match l with
  | [] => []
  | c :: r =>
      if cls c then
        match r with
        | [] => ["-"%char]
        | c' :: _ => if cls c' then collapse_runs cls r
                     else "-"%char :: collapse_runs cls r
        end
      else c :: collapse_runs cls r
  end.

(** [s.replace(/^-|-$/g, '')]: one hyphen is removed at the start and one
    at the end. *)
Definition drop_leading_hyphen (l : list ascii) : list ascii :=
  match l with
  | c :: r => if is_hyphen c then r else l
  | [] => []
  end.

Fixpoint drop_trailing_hyphen (l : list ascii) : list ascii :=
  match l with
  | [] => []
  | [c] => if is_hyphen c then [] else [c]
  | c :: r => c :: drop_trailing_hyphen r
  end.

Definition trim_hyphens (l : list ascii) : list ascii :=
  drop_trailing_hyphen (drop_leading_hyphen l).

(** [s.replace(/c/g, rep)] for a single character [c]. *)
Definition replace_char (c : ascii) (rep : list ascii) (l : list ascii)
  : list ascii :=
  flat_map (fun d => if Ascii.eqb d c then rep else [d]) l.

(** [lines.join(sep)]. *)
Fixpoint join (sep : string) (l : list string) : string :=
  match l with
  | [] => EmptyString
  | [x] => x
  | x :: r => x +:+ sep +:+ join sep r
  end.

End Text.

(** ** config.ts *)
Module Config.
Import Text.

Definition MAIN_FOLDER : string := "main".
Definition GLOBAL_FOLDER : string := "global".

(** The character filter [/[^\w\s-]/g]: what is kept. *)
Definition slug_keep (c : ascii) : bool :=
  (is_word c || is_space c || is_hyphen c)%bool.

Definition slug_chars (l : list ascii) : list ascii :=
  firstn 50
    (trim_hyphens
       (collapse_runs is_hyphen
          (collapse_runs is_space
             (List.filter slug_keep (toLowerCase l))))).

Definition slugify (str : string) : string := text (slug_chars (chars str)).

End Config.

(** ** db.ts: the embedded relational store *)
Module Db.
Import Text.

(** Milliseconds since the epoch. *)
Definition instant := Z.

Record TopicRow := {
  topic_chat_id : Z;
  topic_topic_id : Z;
  topic_name : string;
  topic_folder : string;
  topic_trigger_mode : string;
  topic_last_message_time : option instant
}.

Record MessageRow := {
  msg_id : string;
  msg_chat_id : Z;
  msg_topic_id : Z;
  msg_sender_id : Z;
  msg_sender_name : string;
  msg_content : string;
  msg_type : string;
  msg_timestamp : instant;
  msg_is_bot : bool;
  msg_reply_to_message_id : option Z;
  msg_reaction_emoji : option string;
  msg_reaction_action : option string;
  msg_target_message_id : option Z;
  msg_agent_session_id : option string
}.

(** The simplified view returned by [getMessagesSince]. *)
Record NewMessage := {
  nm_id : string;
  nm_chatId : Z;
  nm_topicId : Z;
  nm_senderId : Z;
  nm_senderName : string;
  nm_content : string;
  nm_timestamp : instant
}.

Record ScheduledTask := {
  task_id : string;
  task_chatId : Z;
  task_topicId : Z;
  task_folder : string;
  task_prompt : string;
  task_scheduleType : string;
  task_scheduleValue : string;
  task_contextMode : string;
  task_nextRun : option instant;
  task_lastRun : option instant;
  task_lastResult : option string;
  task_status : string;
  task_createdAt : instant
}.

Record TaskRunLog := {
  log_taskId : string;
  log_runAt : instant;
  log_durationMs : Z;
  log_status : string;
  log_result : option string;
  log_error : option string
}.

Record Database := {
  topics : list TopicRow;
  messages : list MessageRow;
  scheduled_tasks : list ScheduledTask;
  task_run_logs : list TaskRunLog
}.

Definition empty_db : Database :=
  {| topics := []; messages := []; scheduled_tasks := []; task_run_logs := [] |}.

(** *** SQL helpers *)

(** [ORDER BY key]: a stable insertion sort (the engine does not promise
    an order among equal keys; the model keeps the table order). It is
    also [Array.prototype.sort] with the comparator [a.key - b.key],
    which is stable. *)
Fixpoint insert_by {A} (key : A -> Z) (x : A) (l : list A) : list A :=
  match l with
  | [] => [x]
  | y :: r => if key x <=? key y then x :: l else y :: insert_by key x r
  end.

Definition sort_by {A} (key : A -> Z) (l : list A) : list A :=
  fold_right (insert_by key) [] l.

(** The case folding of the engine's [LIKE]: ASCII letters only. *)
Definition like_fold (c : ascii) : ascii :=
  if is_upper c then ascii_of_nat (code c + 32) else c.

(** [s LIKE p] with the wildcards [%] (any run) and [_] (any one
    character), no escape character; letters compare ignoring ASCII case,
    the default of the engine (no [case_sensitive_like] pragma is set by
    [initDatabase]). *)
Fixpoint like (p s : list ascii) : bool :=
  match p with
  | [] => match s with [] => true | _ => false end
  | c :: p' =>
      if Ascii.eqb c "%" then
        (fix star (s : list ascii) : bool :=
           (like p' s || match s with [] => false | _ :: s' => star s' end)%bool) s
      else
        match s with
        | [] => false
        | d :: s' =>
            ((Ascii.eqb c "_" || Ascii.eqb (like_fold c) (like_fold d))
             && like p' s')%bool
        end
  end.

Definition sql_like (s p : string) : bool := like (chars p) (chars s).

(** *** Topic operations *)

Definition topic_has_key (chatId topicId : Z) (r : TopicRow) : bool :=
  ((topic_chat_id r =? chatId) && (topic_topic_id r =? topicId))%bool.

(** [INSERT ... ON CONFLICT(chat_id, topic_id) DO UPDATE SET topic_name,
    folder, trigger_mode]: a conflicting row keeps its place and its
    [last_message_time]. *)
Fixpoint upsert_topic_rows (now : instant) (chatId topicId : Z)
    (topicName folder triggerMode : string) (rows : list TopicRow)
  : list TopicRow :=
  match rows with
  | [] => [ {| topic_chat_id := chatId; topic_topic_id := topicId;
               topic_name := topicName; topic_folder := folder;
               topic_trigger_mode := triggerMode;
               topic_last_message_time := Some now |} ]
  | r :: rest =>
      if topic_has_key chatId topicId r
      then {| topic_chat_id := chatId; topic_topic_id := topicId;
              topic_name := topicName; topic_folder := folder;
              topic_trigger_mode := triggerMode;
              topic_last_message_time := topic_last_message_time r |} :: rest
      else r :: upsert_topic_rows now chatId topicId topicName folder triggerMode rest
  end.

Definition with_topics (db : Database) (t : list TopicRow) : Database :=
  {| topics := t; messages := messages db;
     scheduled_tasks := scheduled_tasks db; task_run_logs := task_run_logs db |}.

Definition with_messages (db : Database) (m : list MessageRow) : Database :=
  {| topics := topics db; messages := m;
     scheduled_tasks := scheduled_tasks db; task_run_logs := task_run_logs db |}.

Definition with_tasks (db : Database) (t : list ScheduledTask) : Database :=
  {| topics := topics db; messages := messages db;
     scheduled_tasks := t; task_run_logs := task_run_logs db |}.

Definition with_logs (db : Database) (l : list TaskRunLog) : Database :=
  {| topics := topics db; messages := messages db;
     scheduled_tasks := scheduled_tasks db; task_run_logs := l |}.

(** [triggerMode] defaults to ['mention'] at the only call site. *)
Definition upsertTopic (now : instant) (chatId topicId : Z)
    (topicName folder : string) (db : Database) : Database :=
  with_topics db
    (upsert_topic_rows now chatId topicId topicName folder "mention" (topics db)).

Definition getTopic (db : Database) (chatId topicId : Z) : option TopicRow :=
  List.find (topic_has_key chatId topicId) (topics db).

Definition getTopicByFolder (db : Database) (folder : string) : option TopicRow :=
  List.find (fun r => String.eqb (topic_folder r) folder) (topics db).

Definition updateTopicTimestamp (now : instant) (chatId topicId : Z)
    (db : Database) : Database :=
  with_topics db
    (map (fun r =>
            if topic_has_key chatId topicId r
            then {| topic_chat_id := topic_chat_id r;
                    topic_topic_id := topic_topic_id r;
                    topic_name := topic_name r;
                    topic_folder := topic_folder r;
                    topic_trigger_mode := topic_trigger_mode r;
                    topic_last_message_time := Some now |}
            else r)
         (topics db)).

(** *** Message operations *)

Definition msg_has_key (chatId topicId : Z) (id : string) (r : MessageRow) : bool :=
  ((msg_chat_id r =? chatId) && (msg_topic_id r =? topicId)
   && String.eqb (msg_id r) id)%bool.

(** [INSERT OR REPLACE INTO messages]: a row with the same primary key
    (chat_id, topic_id, id) is deleted, then the new row is inserted. *)
Definition insert_or_replace_message (row : MessageRow) (rows : list MessageRow)
  : list MessageRow :=
  List.filter (fun r => negb (msg_has_key (msg_chat_id row) (msg_topic_id row) (msg_id row) r))
         rows ++ [row].

(** [storeMessage]: the row is stamped with the clock reading [now] of
    the call; then the topic's [last_message_time] is refreshed. The
    arguments after [content] are optional in the source ([type] defaults
    to ['text'], [isBot] to [false]); the model takes them all. *)
Definition storeMessage (now : instant) (id : string) (chatId topicId senderId : Z)
    (senderName content type : string) (isBot : bool)
    (replyToMessageId : option Z) (reactionEmoji reactionAction : option string)
    (targetMessageId : option Z) (agentSessionId : option string)
    (db : Database) : Database :=
  let row := {| msg_id := id; msg_chat_id := chatId; msg_topic_id := topicId;
                msg_sender_id := senderId; msg_sender_name := senderName;
                msg_content := content; msg_type := type;
                msg_timestamp := now; msg_is_bot := isBot;
                msg_reply_to_message_id := replyToMessageId;
                msg_reaction_emoji := reactionEmoji;
                msg_reaction_action := reactionAction;
                msg_target_message_id := targetMessageId;
                msg_agent_session_id := agentSessionId |} in
  updateTopicTimestamp now chatId topicId
    (with_messages db (insert_or_replace_message row (messages db))).

Definition getMessage (db : Database) (chatId topicId : Z) (messageId : string)
  : option MessageRow :=
  List.find (msg_has_key chatId topicId messageId) (messages db).

(** [timestamp > ?] against the text [sinceTimestamp]; the empty text
    ([None]) is below every stored timestamp. *)
Definition after (since : option instant) (t : instant) : bool :=
  match since with
  | None => true
  | Some s => s <? t
  end.

(** The [WHERE] clause of [getMessagesSince]. *)
Definition since_filter (chatId topicId : Z) (since : option instant)
    (botName : string) (r : MessageRow) : bool :=
  ((msg_chat_id r =? chatId) && (msg_topic_id r =? topicId)
   && after since (msg_timestamp r)
   && String.eqb (msg_type r) "text"
   && negb (sql_like (msg_content r) (botName +:+ ":%")))%bool.

Definition to_new_message (r : MessageRow) : NewMessage :=
  {| nm_id := msg_id r; nm_chatId := msg_chat_id r; nm_topicId := msg_topic_id r;
     nm_senderId := msg_sender_id r; nm_senderName := msg_sender_name r;
     nm_content := msg_content r; nm_timestamp := msg_timestamp r |}.

Definition getMessagesSince (db : Database) (chatId topicId : Z)
    (sinceTimestamp : option instant) (botName : string) : list NewMessage :=
  map to_new_message
    (sort_by msg_timestamp
       (List.filter (since_filter chatId topicId sinceTimestamp botName) (messages db))).

(** *** Task operations *)

Definition createTask (task : ScheduledTask) (db : Database) : Database :=
  with_tasks db (scheduled_tasks db ++ [task]).

Definition getTaskById (db : Database) (id : string) : option ScheduledTask :=
  List.find (fun t => String.eqb (task_id t) id) (scheduled_tasks db).

Definition set_status (s : string) (t : ScheduledTask) : ScheduledTask :=
  {| task_id := task_id t; task_chatId := task_chatId t;
     task_topicId := task_topicId t; task_folder := task_folder t;
     task_prompt := task_prompt t; task_scheduleType := task_scheduleType t;
     task_scheduleValue := task_scheduleValue t;
     task_contextMode := task_contextMode t; task_nextRun := task_nextRun t;
     task_lastRun := task_lastRun t; task_lastResult := task_lastResult t;
     task_status := s; task_createdAt := task_createdAt t |}.

(** [updateTask(id, { status })], the only form the supervisor uses. *)
Definition updateTaskStatus (id status : string) (db : Database) : Database :=
  with_tasks db
    (map (fun t => if String.eqb (task_id t) id then set_status status t else t)
         (scheduled_tasks db)).

Definition deleteTask (id : string) (db : Database) : Database :=
  {| topics := topics db; messages := messages db;
     scheduled_tasks :=
       List.filter (fun t => negb (String.eqb (task_id t) id)) (scheduled_tasks db);
     task_run_logs :=
       List.filter (fun l => negb (String.eqb (log_taskId l) id)) (task_run_logs db) |}.

(** [WHERE status = 'active' AND next_run IS NOT NULL AND next_run <= now],
    a comparison of two ISO texts: the order of the instants when both
    lie in the years 0000 to 9999. *)
Definition is_due (now : instant) (t : ScheduledTask) : bool :=
  (String.eqb (task_status t) "active"
   && match task_nextRun t with
      | Some n => n <=? now
      | None => false
      end)%bool.

Definition next_run_key (t : ScheduledTask) : Z :=
  match task_nextRun t with Some n => n | None => 0 end.

Definition getDueTasks (now : instant) (db : Database) : list ScheduledTask :=
  sort_by next_run_key (List.filter (is_due now) (scheduled_tasks db)).

(** [SET next_run = ?, last_run = now, last_result = ?,
     status = CASE WHEN ? IS NULL THEN 'completed' ELSE status END]. *)
Definition after_run (now : instant) (nextRun : option instant)
    (lastResult : string) (t : ScheduledTask) : ScheduledTask :=
  {| task_id := task_id t; task_chatId := task_chatId t;
     task_topicId := task_topicId t; task_folder := task_folder t;
     task_prompt := task_prompt t; task_scheduleType := task_scheduleType t;
     task_scheduleValue := task_scheduleValue t;
     task_contextMode := task_contextMode t;
     task_nextRun := nextRun;
     task_lastRun := Some now;
     task_lastResult := Some lastResult;
     task_status := match nextRun with
                    | None => "completed"
                    | Some _ => task_status t
                    end;
     task_createdAt := task_createdAt t |}.

Definition updateTaskAfterRun (now : instant) (id : string)
    (nextRun : option instant) (lastResult : string) (db : Database) : Database :=
  with_tasks db
    (map (fun t => if String.eqb (task_id t) id
                   then after_run now nextRun lastResult t else t)
         (scheduled_tasks db)).

(** [logTaskRun]: the row is appended. The table declares [task_id] a
    foreign key into [scheduled_tasks], so the insert throws for a task
    that is gone; the scheduler logs runs of tasks it has read from the
    table, and in the model nothing deletes a task during a run. *)
Definition logTaskRun (log : TaskRunLog) (db : Database) : Database :=
  with_logs db (task_run_logs db ++ [log]).

End Db.

(** ** types.ts *)
Module Types.

Record SessionKey := { chatId : Z; topicId : Z }.

(** [`${key.chatId}_${key.topicId}`]: plain decimal for safe integers. *)
Definition sessionKeyToString (key : SessionKey) : string :=
  pretty (chatId key) +:+ "_" +:+ pretty (topicId key).

Record TriggerConfig := {
  mode : string;
  mentionPattern : option string
}.

Record AdditionalMount := {
  am_hostPath : string;
  am_containerPath : string;
  am_readonly : option bool
}.

Record ContainerConfig := {
  additionalMounts : option (list AdditionalMount);
  timeout : option Z;
  env : list (string * string)
}.

Record RegisteredChat := {
  rc_chatId : Z;
  rc_chatType : string;
  rc_chatTitle : string;
  rc_defaultTrigger : TriggerConfig;
  rc_addedAt : Z;
  rc_addedBy : option Z;
  rc_containerConfig : option ContainerConfig
}.

End Types.

(** ** session-manager.ts *)
Module SessionManager.
Import Text Config Db Types.

(** The cache [registeredChats : Map<number, RegisteredChat>]. *)
Definition getRegisteredChat (registeredChats : gmap Z RegisteredChat) (chat : Z)
  : option RegisteredChat := registeredChats !! chat.

Definition isChatRegistered (registeredChats : gmap Z RegisteredChat) (chat : Z)
  : bool := bool_decide (is_Some (registeredChats !! chat)).

Definition registerChat (chat : RegisteredChat)
    (registeredChats : gmap Z RegisteredChat) : gmap Z RegisteredChat :=
  <[rc_chatId chat := chat]> registeredChats.

Definition unregisterChat (chat : Z) (registeredChats : gmap Z RegisteredChat)
  : gmap Z RegisteredChat := delete chat registeredChats.

Definition isMainFolder (folder : string) : bool := String.eqb folder MAIN_FOLDER.

Definition nonempty (s : string) : bool :=
  match s with EmptyString => false | _ => true end.

(** The template [`${baseName}-${counter}`]. *)
Definition numbered (baseName : string) (counter : nat) : string :=
  baseName +:+ "-" +:+ pretty counter.

(** The loop [while (getTopicByFolder(folder)) { folder =
    `${baseName}-${counter}`; counter++ }], with fuel for the number of
    iterations; [None] when the fuel runs out. *)
Fixpoint free_folder (db : Database) (baseName : string) (fuel : nat)
    (folder : string) (counter : nat) : option string :=
  match fuel with
  | O => None
  | S fuel' =>
      match getTopicByFolder db folder with
      | Some _ => free_folder db baseName fuel' (numbered baseName counter) (S counter)
      | None => Some folder
      end
  end.

Definition baseNameOf (chatTitle topicName : string) (key : SessionKey) : string :=
  let chatSlug := slugify chatTitle in
  let topicSlug := if topicId key =? 0 then EmptyString else slugify topicName in
  let baseName := if nonempty topicSlug then chatSlug +:+ "-" +:+ topicSlug
                  else chatSlug in
  if nonempty baseName then baseName else "chat-" +:+ pretty (chatId key).

(** One more iteration than there are topic rows always suffices
    (see [generateFolderName_total]). *)
Definition generateFolderName (db : Database) (chatTitle topicName : string)
    (key : SessionKey) : option string :=
  let baseName := baseNameOf chatTitle topicName key in
  free_folder db baseName (S (List.length (topics db))) baseName 1.

(** [getSessionFolder]: the store after the call and the folder returned.
    ([ensureFolderExists] only creates directories and is left out.) *)
Definition getSessionFolder (now : instant) (db : Database) (key : SessionKey)
    (chatTitle topicName : string) : option (Database * string) :=
  match getTopic db (chatId key) (topicId key) with
  | Some existing => Some (db, topic_folder existing)
  | None =>
      match generateFolderName db chatTitle topicName key with
      | Some folder =>
          Some (upsertTopic now (chatId key) (topicId key) topicName folder db, folder)
      | None => None
      end
  end.

End SessionManager.

(** ** telegram-client.ts: the debouncer and the trigger check *)
Module Telegram.
Import Text Config Db Types SessionManager.

Definition nl : string := String (ascii_of_nat 10) EmptyString.

Record BufferedMessage := {
  bm_sessionKey : SessionKey;
  bm_folder : string;
  bm_content : string;
  bm_senderName : string;
  bm_messageId : Z;
  bm_replyToMessageId : option Z;
  bm_timestamp : Z
}.

(** The arguments of one call of the registered [MessageHandler]. *)
Record HandlerCall := {
  hc_sessionKey : SessionKey;
  hc_folder : string;
  hc_content : string;
  hc_senderName : string;
  hc_messageId : Z;
  hc_replyToMessageId : option Z
}.

Record Debouncer := {
  messageBuffers : gmap string (list BufferedMessage);
  debounceTimers : gset string
}.

Definition getBufferKey (key : SessionKey) : string := sessionKeyToString key.

(** [bufferMessage]: push and (re)arm the timer of the key. *)
Definition bufferMessage (msg : BufferedMessage) (d : Debouncer) : Debouncer :=
  let bufferKey := getBufferKey (bm_sessionKey msg) in
  let buffer := default [] (messageBuffers d !! bufferKey) in
  {| messageBuffers := <[bufferKey := buffer ++ [msg]]> (messageBuffers d);
     debounceTimers := {[bufferKey]} ∪ debounceTimers d |}.

Definition line_of (count : nat) (m : BufferedMessage) : string :=
  (if Nat.ltb 1 count then "[" +:+ bm_senderName m +:+ "]: " else EmptyString)
  +:+ bm_content m.

(** [flushMessageBuffer]: the debouncer afterwards and the handler call,
    if any. [hasHandler] tells whether [messageHandler] is set. The test
    for an empty buffer is made on the sorted list, which is empty exactly
    when the buffer is; [messages.length] is the length of either. *)
Definition flushMessageBuffer (hasHandler : bool) (bufferKey : string)
    (d : Debouncer) : Debouncer * option HandlerCall :=
  match messageBuffers d !! bufferKey with
  | None => (d, None)
  | Some buffered =>
      match sort_by bm_timestamp buffered with
      | [] => (d, None)
      | first :: rest =>
          if negb hasHandler then (d, None) else
          let sorted := first :: rest in
          let count := List.length sorted in
          let combined := join nl (map (line_of count) sorted) in
          let last := List.last sorted first in
          ({| messageBuffers := delete bufferKey (messageBuffers d);
              debounceTimers := debounceTimers d ∖ {[bufferKey]} |},
           Some {| hc_sessionKey := bm_sessionKey first;
                   hc_folder := bm_folder first;
                   hc_content := combined;
                   hc_senderName := if Nat.eqb count 1 then bm_senderName first
                                    else "Multiple users";
                   hc_messageId := bm_messageId last;
                   hc_replyToMessageId := bm_replyToMessageId first |})
      end
  end.

(** [hay.startsWith(needle)] and [hay.includes(needle)]. *)
Fixpoint starts_with (needle hay : list ascii) : bool :=
  match needle, hay with
  | [], _ => true
  | _ :: _, [] => false
  | a :: n', b :: h' => (Ascii.eqb a b && starts_with n' h')%bool
  end.

Fixpoint includes (needle hay : list ascii) : bool :=
  (starts_with needle hay
   || match hay with
      | [] => false
      | _ :: h' => includes needle h'
      end)%bool.

Section WithAssistant.
Variable ASSISTANT_NAME : string.

(** [checkTrigger]: the [switch] falls through to the mention test for
    every mode other than ['always'] and ['disabled']. *)
Definition checkTrigger (txt : string) (trigger : TriggerConfig) (folder : string)
  : bool :=
  if isMainFolder folder then true
  else if String.eqb (mode trigger) "always" then true
  else if String.eqb (mode trigger) "disabled" then false
  else
    let pattern := match mentionPattern trigger with
                   | Some p => if nonempty p then p else "@" +:+ ASSISTANT_NAME
                   | None => "@" +:+ ASSISTANT_NAME
                   end in
    includes (toLowerCase (chars pattern)) (toLowerCase (chars txt)).

End WithAssistant.

End Telegram.

(** ** The worker protocol as the callers see it *)
Module Worker.
Import Text Types.

(** [ContainerInput], the job written to the worker. *)
Record ContainerInput := {
  ci_prompt : string;
  ci_sessionId : option string;
  ci_folder : string;
  ci_sessionKey : string;
  ci_isMain : bool;
  ci_isScheduledTask : bool;
  ci_chatType : option string
}.

Record ContainerOutput := {
  co_status : string;
  co_result : option string;
  co_newSessionId : option string;
  co_error : option string
}.

(** What [await containerPool.runContainer(...)] yields. *)
Inductive Awaited :=
| Resolved (output : ContainerOutput)
| Thrown (message : string).

(** JavaScript truthiness of [string | null | undefined]. *)
Definition truthy (o : option string) : bool :=
  match o with
  | Some (String _ _) => true
  | _ => false
  end.

(** What reaches the chat platform. *)
Inductive Egress :=
| SendText (chat topic : Z) (body : string) (replyTo : option Z)
| SendReaction (chat message : Z) (emoji : string).

End Worker.

(** ** container-pool.ts: mounts and container arguments *)
Module Mounts.
Import Text Config Types Telegram Worker.

Record VolumeMount := {
  hostPath : string;
  containerPath : string;
  readonly : bool
}.

Record GroupConfig := {
  gc_folder : string;
  gc_name : string;
  gc_containerConfig : option ContainerConfig;
  gc_chatType : option string
}.

(** What [buildVolumeMounts] reads from the host file system:
    [fs.existsSync] and the text of the project's [.env] file. *)
Record HostFs := {
  existsSync : string -> bool;
  envFileContent : string
}.

(** [path.join(a, b)] on paths that need no normalisation. *)
Definition path_join (a b : string) : string := a +:+ "/" +:+ b.

(** [content.split('\n')]. *)
Fixpoint split_lines_from (cur : list ascii) (l : list ascii) : list (list ascii) :=
  match l with
  | [] => [rev cur]
  | c :: r => if Nat.eqb (code c) 10 then rev cur :: split_lines_from [] r
              else split_lines_from (c :: cur) r
  end.

Definition split_lines (s : string) : list (list ascii) :=
  split_lines_from [] (chars s).

Fixpoint drop_spaces (l : list ascii) : list ascii :=
  match l with
  | c :: r => if is_space c then drop_spaces r else l
  | [] => []
  end.

(** [line.trim()]. *)
Definition trim (l : list ascii) : list ascii :=
  rev (drop_spaces (rev (drop_spaces l))).

Definition allowedVars : list string := ["CLAUDE_CODE_OAUTH_TOKEN"; "ANTHROPIC_API_KEY"].

Definition env_line_allowed (line : list ascii) : bool :=
  let trimmed := trim line in
  match trimmed with
  | [] => false
  | _ =>
      if starts_with (chars "#") trimmed then false
      else existsb (fun v => starts_with (chars (v +:+ "=")) trimmed) allowedVars
  end.

Section Host.
Variable PROJECT_ROOT : string.
Variable CONTAINER_IMAGE : string.
Variable CONTAINER_WARM_TIMEOUT : Z.
Variable hostfs : HostFs.
(** [validateAdditionalMounts] of mount-security.ts, which is not among
    the sources at hand: taken as a parameter. *)
Variable validateAdditionalMounts : list AdditionalMount -> string -> bool -> list VolumeMount.

Definition GROUPS_DIR : string := path_join PROJECT_ROOT "groups".
Definition DATA_DIR : string := path_join PROJECT_ROOT "data".

Definition buildVolumeMounts (group : GroupConfig) (isMain : bool)
  : list VolumeMount :=
  let projectRoot := PROJECT_ROOT in
  let sharedFolder := if bool_decide (gc_chatType group = Some "private")
                      then MAIN_FOLDER else GLOBAL_FOLDER in
  let sharedClaudeMd := path_join (path_join GROUPS_DIR sharedFolder) "CLAUDE.md" in
  let groupMount := {| hostPath := path_join GROUPS_DIR (gc_folder group);
                       containerPath := "/workspace/group";
                       readonly := false |} in
  let globalDir := path_join GROUPS_DIR "global" in
  let first :=
    if isMain then
      [ {| hostPath := projectRoot; containerPath := "/workspace/project";
           readonly := false |};
        groupMount ]
    else
      [groupMount]
      ++ (if existsSync hostfs sharedClaudeMd
          then [ {| hostPath := sharedClaudeMd;
                    containerPath := "/workspace/group/CLAUDE.md";
                    readonly := true |} ]
          else [])
      ++ (if existsSync hostfs globalDir
          then [ {| hostPath := globalDir; containerPath := "/workspace/global";
                    readonly := true |} ]
          else []) in
  let groupSessionsDir :=
    path_join (path_join (path_join DATA_DIR "sessions") (gc_folder group)) ".claude" in
  let groupIpcDir := path_join (path_join DATA_DIR "ipc") (gc_folder group) in
  let envDir := path_join DATA_DIR "env" in
  let envFile := path_join projectRoot ".env" in
  let envMounts :=
    if existsSync hostfs envFile then
      match List.filter env_line_allowed (split_lines (envFileContent hostfs)) with
      | [] => []
      | _ :: _ => [ {| hostPath := envDir; containerPath := "/workspace/env-dir";
                       readonly := true |} ]
      end
    else [] in
  let extra :=
    match gc_containerConfig group with
    | Some cfg =>
        match additionalMounts cfg with
        | Some ms => validateAdditionalMounts ms (gc_name group) isMain
        | None => []
        end
    | None => []
    end in
  first
  ++ [ {| hostPath := groupSessionsDir; containerPath := "/home/node/.claude";
          readonly := false |};
       {| hostPath := groupIpcDir; containerPath := "/workspace/ipc";
          readonly := false |} ]
  ++ envMounts ++ extra.

Definition mount_arg (m : VolumeMount) : string :=
  if readonly m then hostPath m +:+ ":" +:+ containerPath m +:+ ":ro"
  else hostPath m +:+ ":" +:+ containerPath m.

(** [buildContainerArgs]: both branches of the [warm] test push [--rm]. *)
Definition buildContainerArgs (mounts : list VolumeMount) (warm : bool)
  : list string :=
  ["run"; "-i"; "--rm"]
  ++ flat_map (fun m => ["-v"; mount_arg m]) mounts
  ++ (if warm
      then ["-e"; "WARM_MODE=true"; "-e";
            "IDLE_TIMEOUT=" +:+ pretty (CONTAINER_WARM_TIMEOUT / 1000)]
      else [])
  ++ [CONTAINER_IMAGE].

(** The arguments [spawnWarmContainer] hands to [spawn('docker', ...)]. *)
Definition warmContainerArgs (folder name : string) (isMain : bool)
    (containerConfig : option ContainerConfig) (chatType : option string)
  : list string :=
  let group := {| gc_folder := folder; gc_name := name;
                  gc_containerConfig := containerConfig;
                  gc_chatType := chatType |} in
  buildContainerArgs (buildVolumeMounts group isMain) true.

(** The arguments [runColdContainer] hands to [spawn('docker', ...)]. *)
Definition coldContainerArgs (folder name : string) (input : ContainerInput)
    (containerConfig : option ContainerConfig) : list string :=
  let group := {| gc_folder := folder; gc_name := name;
                  gc_containerConfig := containerConfig;
                  gc_chatType := ci_chatType input |} in
  buildContainerArgs (buildVolumeMounts group (ci_isMain input)) false.

(** The container a [runContainer] call launches when it spawns one, warm
    ([spawnWarmContainer(folder, name, input.isMain, containerConfig,
    input.chatType)]) or cold. *)
Definition launchArgs (warm : bool) (folder name : string) (input : ContainerInput)
    (containerConfig : option ContainerConfig) : list string :=
  if warm
  then warmContainerArgs folder name (ci_isMain input) containerConfig
         (ci_chatType input)
  else coldContainerArgs folder name input containerConfig.

End Host.

End Mounts.

(** ** container-pool.ts: the warm pool as a transition system

    The supervisor is one event loop: every callback runs to completion.
    A transition is one such callback; the continuation of
    [await this.spawnWarmContainer(...)] runs in the same turn as the
    readiness check that resolves it, so registering a spawned worker and
    sending it the request that spawned it is one transition. *)
Module Pool.
Import Text Config Types.

Definition wid := nat.
Definition rid := nat.

(** The fields of [WarmContainer] that the dispatch logic reads or writes;
    [wc_spawnedFor] is the [runContainer] call still awaiting the spawn,
    [wc_handlers] tells whether the close and error handlers are attached
    (they are, once the worker has signalled readiness), [wc_killed] and
    [wc_exited] describe the process. *)
Record WarmContainer := {
  wc_folder : string;
  wc_isMain : bool;
  wc_lastActive : Z;
  wc_ready : bool;
  wc_processing : bool;
  wc_resolveMessage : option rid;
  wc_spawnedFor : option rid;
  wc_handlers : bool;
  wc_killed : bool;
  wc_exited : bool
}.

Inductive Service := Pending | Warm (w : wid) | Cold.

(** One call of [runContainer]: how it is serviced and whether its promise
    has been resolved. *)
Record Request := {
  rq_folder : string;
  rq_service : Service;
  rq_resolved : bool
}.

(** [containers] is [this.containers]; its values are references into
    [heap], the worker objects created so far. *)
Record PoolState := {
  containers : gmap string wid;
  heap : gmap wid WarmContainer;
  requests : gmap rid Request
}.

Definition initial : PoolState :=
  {| containers := ∅; heap := ∅; requests := ∅ |}.

Definition begin_request (now : Z) (r : rid) (c : WarmContainer) : WarmContainer :=
  {| wc_folder := wc_folder c; wc_isMain := wc_isMain c; wc_lastActive := now;
     wc_ready := wc_ready c; wc_processing := true;
     wc_resolveMessage := Some r; wc_spawnedFor := wc_spawnedFor c;
     wc_handlers := wc_handlers c; wc_killed := wc_killed c;
     wc_exited := wc_exited c |}.

Definition end_request (now : Z) (c : WarmContainer) : WarmContainer :=
  {| wc_folder := wc_folder c; wc_isMain := wc_isMain c; wc_lastActive := now;
     wc_ready := wc_ready c; wc_processing := false;
     wc_resolveMessage := None; wc_spawnedFor := wc_spawnedFor c;
     wc_handlers := wc_handlers c; wc_killed := wc_killed c;
     wc_exited := wc_exited c |}.

Definition mark_ready (c : WarmContainer) : WarmContainer :=
  {| wc_folder := wc_folder c; wc_isMain := wc_isMain c;
     wc_lastActive := wc_lastActive c; wc_ready := true;
     wc_processing := wc_processing c;
     wc_resolveMessage := wc_resolveMessage c; wc_spawnedFor := wc_spawnedFor c;
     wc_handlers := wc_handlers c; wc_killed := wc_killed c;
     wc_exited := wc_exited c |}.

Definition mark_spawned (c : WarmContainer) : WarmContainer :=
  {| wc_folder := wc_folder c; wc_isMain := wc_isMain c;
     wc_lastActive := wc_lastActive c; wc_ready := wc_ready c;
     wc_processing := wc_processing c;
     wc_resolveMessage := wc_resolveMessage c; wc_spawnedFor := None;
     wc_handlers := true; wc_killed := wc_killed c;
     wc_exited := wc_exited c |}.

Definition mark_abandoned (c : WarmContainer) : WarmContainer :=
  {| wc_folder := wc_folder c; wc_isMain := wc_isMain c;
     wc_lastActive := wc_lastActive c; wc_ready := wc_ready c;
     wc_processing := wc_processing c;
     wc_resolveMessage := wc_resolveMessage c; wc_spawnedFor := None;
     wc_handlers := wc_handlers c; wc_killed := true;
     wc_exited := wc_exited c |}.

Definition mark_killed (c : WarmContainer) : WarmContainer :=
  {| wc_folder := wc_folder c; wc_isMain := wc_isMain c;
     wc_lastActive := wc_lastActive c; wc_ready := wc_ready c;
     wc_processing := wc_processing c;
     wc_resolveMessage := wc_resolveMessage c; wc_spawnedFor := wc_spawnedFor c;
     wc_handlers := wc_handlers c; wc_killed := true;
     wc_exited := wc_exited c |}.

Definition mark_exited (c : WarmContainer) : WarmContainer :=
  {| wc_folder := wc_folder c; wc_isMain := wc_isMain c;
     wc_lastActive := wc_lastActive c; wc_ready := wc_ready c;
     wc_processing := wc_processing c;
     wc_resolveMessage := wc_resolveMessage c; wc_spawnedFor := wc_spawnedFor c;
     wc_handlers := wc_handlers c; wc_killed := wc_killed c;
     wc_exited := true |}.

(** A warm worker process that was neither signalled nor has exited. *)
Definition live (c : WarmContainer) : bool :=
  (negb (wc_killed c) && negb (wc_exited c))%bool.

Definition with_heap (p : PoolState) (h : gmap wid WarmContainer) : PoolState :=
  {| containers := containers p; heap := h; requests := requests p |}.

Definition with_containers (p : PoolState) (m : gmap string wid) : PoolState :=
  {| containers := m; heap := heap p; requests := requests p |}.

Definition with_requests (p : PoolState) (q : gmap rid Request) : PoolState :=
  {| containers := containers p; heap := heap p; requests := q |}.

(** [this.containers.get(folder)], dereferenced. *)
Definition existing (p : PoolState) (folder : string) : option (wid * WarmContainer) :=
  match containers p !! folder with
  | Some w => match heap p !! w with
              | Some c => Some (w, c)
              | None => None
              end
  | None => None
  end.

(** [runColdContainer]: the request is serviced by a container of its own. *)
Definition runColdContainer (r : rid) (folder : string) (p : PoolState) : PoolState :=
  with_requests p
    (<[r := {| rq_folder := folder; rq_service := Cold; rq_resolved := false |}]>
       (requests p)).

(** [sendToWarmContainer], up to the write on stdin: the worker is marked
    processing, its resolver is set to the one of this request and the
    request timer is armed. *)
Definition sendToWarmContainer (now : Z) (w : wid) (r : rid) (folder : string)
    (p : PoolState) : PoolState :=
  {| containers := containers p;
     heap := alter (begin_request now r) w (heap p);
     requests := <[r := {| rq_folder := folder; rq_service := Warm w;
                           rq_resolved := false |}]> (requests p) |}.

(** [cleanupAndResolve] of the request [r], guarded by its [resolved] flag. *)
Definition cleanupAndResolve (now : Z) (r : rid) (p : PoolState) : PoolState :=
  match requests p !! r with
  | Some q =>
      if rq_resolved q then p else
      match rq_service q with
      | Warm w =>
          {| containers := containers p;
             heap := alter (end_request now) w (heap p);
             requests := <[r := {| rq_folder := rq_folder q; rq_service := Warm w;
                                   rq_resolved := true |}]> (requests p) |}
      | _ => p
      end
  | None => p
  end.

(** [if (warmContainer.resolveMessage) warmContainer.resolveMessage(out)]. *)
Definition callResolveMessage (now : Z) (w : wid) (p : PoolState) : PoolState :=
  match heap p !! w with
  | Some c => match wc_resolveMessage c with
              | Some r => cleanupAndResolve now r p
              | None => p
              end
  | None => p
  end.

(** The start of [spawnWarmContainer]: a new worker object, not yet in
    [this.containers]. *)
Definition spawnWarmContainer (now : Z) (w : wid) (r : rid) (folder : string)
    (isMain : bool) (p : PoolState) : PoolState :=
  {| containers := containers p;
     heap := <[w := {| wc_folder := folder; wc_isMain := isMain;
                       wc_lastActive := now; wc_ready := false;
                       wc_processing := false; wc_resolveMessage := None;
                       wc_spawnedFor := Some r; wc_handlers := false;
                       wc_killed := false; wc_exited := false |}]> (heap p);
     requests := <[r := {| rq_folder := folder; rq_service := Pending;
                           rq_resolved := false |}]> (requests p) |}.

Inductive Event :=
| RunContainer (r : rid) (folder : string) (isMain : bool) (fresh : wid)
| StderrReady (w : wid)
| CheckReady (w : wid)
| SpawnTimeout (w : wid)
| StdoutComplete (w : wid)
| MessageTimeout (r : rid)
| StdinError (r : rid)
| ProcessClose (w : wid)
| ProcessError (w : wid)
| CleanupTick
| ColdFinished (r : rid)
| Shutdown.

Section WithTimeout.
Variable CONTAINER_WARM_TIMEOUT : Z.

(** [runContainer], up to its first suspension. [fresh] names the worker
    object a spawn would create. *)
Definition runContainer (now : Z) (r : rid) (folder : string) (isMain : bool)
    (fresh : wid) (p : PoolState) : PoolState :=
  if CONTAINER_WARM_TIMEOUT <=? 0 then runColdContainer r folder p
  else
    match existing p folder with
    | Some (w, c) =>
        if (wc_ready c && negb (wc_processing c))%bool
        then sendToWarmContainer now w r folder p
        else if wc_processing c then runColdContainer r folder p
        else spawnWarmContainer now fresh r folder isMain p
    | None => spawnWarmContainer now fresh r folder isMain p
    end.

Definition idle (now : Z) (c : WarmContainer) : bool :=
  (negb (wc_processing c) && (CONTAINER_WARM_TIMEOUT <? now - wc_lastActive c))%bool.

Definition registered (p : PoolState) (w : wid) (c : WarmContainer) : bool :=
  bool_decide (containers p !! wc_folder c = Some w).

Definition doomed (now : Z) (p : PoolState) (w : wid) : bool :=
  match heap p !! w with
  | Some c => idle now c
  | None => false
  end.

(** The cleanup timer: idle registered workers are killed and forgotten. *)
Definition cleanup (now : Z) (p : PoolState) : PoolState :=
  {| containers :=
       filter (fun kv => doomed now p kv.2 = false) (containers p);
     heap := map_imap (fun w c => Some (if (registered p w c && idle now c)%bool
                                        then mark_killed c else c)) (heap p);
     requests := requests p |}.

Definition shutdown (p : PoolState) : PoolState :=
  {| containers := ∅;
     heap := map_imap (fun w c => Some (if registered p w c
                                        then mark_killed c else c)) (heap p);
     requests := requests p |}.

Definition step (now : Z) (e : Event) (p : PoolState) : PoolState :=
  match e with
  | RunContainer r folder isMain fresh =>
      match requests p !! r, heap p !! fresh with
      | None, None => runContainer now r folder isMain fresh p
      | _, _ => p
      end
  | StderrReady w => with_heap p (alter mark_ready w (heap p))
  | CheckReady w =>
      match heap p !! w with
      | Some c =>
          match wc_spawnedFor c with
          | Some r =>
              if wc_ready c then
                sendToWarmContainer now w r (wc_folder c)
                  {| containers := <[wc_folder c := w]> (containers p);
                     heap := alter mark_spawned w (heap p);
                     requests := requests p |}
              else p
          | None => p
          end
      | None => p
      end
  | SpawnTimeout w =>
      match heap p !! w with
      | Some c =>
          match wc_spawnedFor c with
          | Some r =>
              runColdContainer r (wc_folder c)
                (with_heap p (alter mark_abandoned w (heap p)))
          | None => p
          end
      | None => p
      end
  | StdoutComplete w => callResolveMessage now w p
  | MessageTimeout r =>
      match requests p !! r with
      | Some q =>
          match rq_service q with
          | Warm w =>
              if rq_resolved q then p else
              match heap p !! w with
              | Some c =>
                  cleanupAndResolve now r
                    {| containers := delete (wc_folder c) (containers p);
                       heap := alter mark_killed w (heap p);
                       requests := requests p |}
              | None => p
              end
          | _ => p
          end
      | None => p
      end
  | StdinError r => cleanupAndResolve now r p
  | ProcessClose w =>
      match heap p !! w with
      | Some c =>
          if wc_exited c then p
          else if wc_handlers c then
            let p1 := callResolveMessage now w p in
            {| containers := delete (wc_folder c) (containers p1);
               heap := alter mark_exited w (heap p1);
               requests := requests p1 |}
          else with_heap p (alter mark_exited w (heap p))
      | None => p
      end
  | ProcessError w =>
      match heap p !! w with
      | Some c =>
          if wc_handlers c then
            let p1 := callResolveMessage now w p in
            with_containers p1 (delete (wc_folder c) (containers p1))
          else p
      | None => p
      end
  | CleanupTick => cleanup now p
  | ColdFinished r =>
      match requests p !! r with
      | Some q =>
          match rq_service q with
          | Cold => with_requests p
                      (<[r := {| rq_folder := rq_folder q; rq_service := Cold;
                                 rq_resolved := true |}]> (requests p))
          | _ => p
          end
      | None => p
      end
  | Shutdown => shutdown p
  end.

(** The state after a sequence of callbacks, each with its clock reading. *)
Definition run (trace : list (Z * Event)) (p : PoolState) : PoolState :=
  fold_left (fun q te => step te.1 te.2 q) trace p.

End WithTimeout.

(** The request [r] is in flight on the warm worker [w]. *)
Definition in_flight (p : PoolState) (r : rid) (w : wid) : Prop :=
  exists folder, requests p !! r =
    Some {| rq_folder := folder; rq_service := Warm w; rq_resolved := false |}.

(** The live warm workers of a folder. *)
Definition live_workers (p : PoolState) (folder : string) : list wid :=
  map fst (List.filter (fun wc => (String.eqb (wc_folder wc.2) folder && live wc.2)%bool)
                  (map_to_list (heap p))).

End Pool.

(** ** task-scheduler.ts *)
Module Scheduler.
Import Text Config Db Types SessionManager Worker.

(** The clock readings of one [runTask]: on entry, when the run has
    returned ([durationMs]), when the run is logged ([runAt]), when the
    next run is computed, and inside [updateTaskAfterRun]. *)
Record RunClock := {
  t_start : instant;
  t_finished : instant;
  t_logged : instant;
  t_scheduled : instant;
  t_updated : instant
}.

Inductive Completion := Returned | Threw.

Fixpoint digits_value (acc : Z) (l : list ascii) : Z :=
  match l with
  | c :: r => if is_digit c then digits_value (10 * acc + (Z.of_nat (code c) - 48)) r
              else acc
  | [] => acc
  end.

Definition leading_digit (l : list ascii) : bool :=
  match l with
  | c :: _ => is_digit c
  | [] => false
  end.

(** [parseInt(s, 10)]; [None] is [NaN]. The value is exact, as in the
    source for digit texts of safe integers. *)
Definition parseInt (s : string) : option Z :=
  let l := Mounts.drop_spaces (chars s) in
  match l with
  | c :: r =>
      if Nat.eqb (code c) 45 then
        if leading_digit r then Some (- digits_value 0 r) else None
      else if Nat.eqb (code c) 43 then
        if leading_digit r then Some (digits_value 0 r) else None
      else if is_digit c then Some (digits_value 0 l) else None
  | [] => None
  end.

(** The range of a valid [Date]; [toISOString] throws outside of it. *)
Definition valid_date (t : Z) : bool := Z.abs t <=? 8640000000000000.

Record SchedulerDependencies := {
  getRegisteredChat : Z -> option RegisteredChat;
  getSessions : gmap string string
}.

Section WithCron.
Variable TIMEZONE : string.
(** [CronExpressionParser.parse(expr, { tz }).next()] of the cron-parser
    package, evaluated at a clock reading; [None] when [parse] throws. *)
Variable cronNext : string -> string -> instant -> option instant.
(** The worker pool, as an oracle for the outcome of a job. *)
Variable pool : ContainerInput -> Awaited.

Definition computeNextRun (task : ScheduledTask) (now : instant)
  : option (option instant) :=
  if String.eqb (task_scheduleType task) "cron" then
    match cronNext (task_scheduleValue task) TIMEZONE now with
    | Some n => Some (Some n)
    | None => None
    end
  else if String.eqb (task_scheduleType task) "interval" then
    match parseInt (task_scheduleValue task) with
    | Some ms => if valid_date (now + ms) then Some (Some (now + ms)) else None
    | None => None
    end
  else Some None.

(** [runTask]: the store afterwards, and whether the function returned or
    threw. (Writing the task snapshot file is left out.) *)
Definition runTask (clock : RunClock) (task : ScheduledTask)
    (deps : SchedulerDependencies) (db : Database) : Database * Completion :=
  match getRegisteredChat deps (task_chatId task) with
  | None =>
      (logTaskRun {| log_taskId := task_id task; log_runAt := t_logged clock;
                     log_durationMs := t_finished clock - t_start clock;
                     log_status := "error"; log_result := None;
                     log_error := Some ("Chat not registered: "
                                        +:+ pretty (task_chatId task)) |} db,
       Returned)
  | Some registeredChat =>
      let isMain := String.eqb (task_folder task) MAIN_FOLDER in
      let sessionId := if String.eqb (task_contextMode task) "group"
                       then getSessions deps !! task_folder task else None in
      let input := {| ci_prompt := task_prompt task; ci_sessionId := sessionId;
                      ci_folder := task_folder task;
                      ci_sessionKey :=
                        sessionKeyToString {| chatId := task_chatId task;
                                              topicId := task_topicId task |};
                      ci_isMain := isMain; ci_isScheduledTask := true;
                      ci_chatType := Some (rc_chatType registeredChat) |} in
      let '(result, error) :=
        match pool input with
        | Resolved output =>
            if String.eqb (co_status output) "error"
            then (None, Some (if truthy (co_error output)
                              then default EmptyString (co_error output)
                              else "Unknown error"))
            else (co_result output, None)
        | Thrown message => (None, Some message)
        end in
      let db1 :=
        logTaskRun {| log_taskId := task_id task; log_runAt := t_logged clock;
                      log_durationMs := t_finished clock - t_start clock;
                      log_status := if truthy error then "error" else "success";
                      log_result := result; log_error := error |} db in
      match computeNextRun task (t_scheduled clock) with
      | None => (db1, Threw)
      | Some nextRun =>
          let resultSummary :=
            if truthy error then "Error: " +:+ default EmptyString error
            else if truthy result
                 then text (firstn 200 (chars (default EmptyString result)))
                 else "Completed" in
          (updateTaskAfterRun (t_updated clock) (task_id task) nextRun
             resultSummary db1, Returned)
      end
  end.

(** The body of one scheduler tick: the [for] loop over the due tasks,
    inside the [try] of [loop]. [clocks] gives the clock readings of the
    run of each task. *)
Fixpoint runDue (clocks : string -> RunClock) (deps : SchedulerDependencies)
    (dueTasks : list ScheduledTask) (db : Database) : Database :=
  match dueTasks with
  | [] => db
  | task :: rest =>
      match getTaskById db (task_id task) with
      | Some currentTask =>
          if String.eqb (task_status currentTask) "active" then
            match runTask (clocks (task_id task)) currentTask deps db with
            | (db', Returned) => runDue clocks deps rest db'
            | (db', Threw) => db'
            end
          else runDue clocks deps rest db
      | None => runDue clocks deps rest db
      end
  end.

Definition tick (now : instant) (clocks : string -> RunClock)
    (deps : SchedulerDependencies) (db : Database) : Database :=
  runDue clocks deps (getDueTasks now db) db.

End WithCron.

End Scheduler.

(** ** index.ts: dispatch core and mailbox *)
Module Index.
Import Text Config Db Types SessionManager Telegram Worker.

Definition dq : string := String (ascii_of_nat 34) EmptyString.

Definition escapeXml (s : string) : string :=
  text (replace_char (ascii_of_nat 34) (chars "&quot;")
          (replace_char ">"%char (chars "&gt;")
             (replace_char "<"%char (chars "&lt;")
                (replace_char "&"%char (chars "&amp;") (chars s))))).

(** The two plain objects of index.ts, keyed by folder, as finite maps:
    exact for the folders that are no property names of
    [Object.prototype]. *)
Record RouterState := {
  sessions : gmap string string;
  lastAgentTimestamp : gmap string instant
}.

Section WithConfig.
Variable ASSISTANT_NAME : string.
(** [Date.prototype.toISOString], the text of a stored timestamp. *)
Variable toISOString : instant -> string.
Variable pool : ContainerInput -> Awaited.

Definition messageLine (m : NewMessage) : string :=
  "<message sender=" +:+ dq +:+ escapeXml (nm_senderName m) +:+ dq
  +:+ " time=" +:+ dq +:+ toISOString (nm_timestamp m) +:+ dq +:+ ">"
  +:+ escapeXml (nm_content m) +:+ "</message>".

Definition buildPrompt (missedMessages : list NewMessage) : string :=
  "<messages>" +:+ nl +:+ join nl (map messageLine missedMessages)
  +:+ nl +:+ "</messages>".

(** [runAgent]: the job handed to the pool, the sessions map afterwards
    and the text returned. (Snapshot files are left out.) *)
Definition agentInput (st : RouterState) (folder : string)
    (registeredChat : RegisteredChat) (sessionKey : SessionKey) (prompt : string)
  : ContainerInput :=
  {| ci_prompt := prompt; ci_sessionId := sessions st !! folder;
     ci_folder := folder; ci_sessionKey := sessionKeyToString sessionKey;
     ci_isMain := isMainFolder folder; ci_isScheduledTask := false;
     ci_chatType := Some (rc_chatType registeredChat) |}.

Definition runAgent (st : RouterState) (folder : string)
    (registeredChat : RegisteredChat) (sessionKey : SessionKey) (prompt : string)
  : RouterState * option string :=
  match pool (agentInput st folder registeredChat sessionKey prompt) with
  | Resolved output =>
      let st' := if truthy (co_newSessionId output)
                 then {| sessions := <[folder := default EmptyString
                                                    (co_newSessionId output)]>
                                       (sessions st);
                         lastAgentTimestamp := lastAgentTimestamp st |}
                 else st in
      if String.eqb (co_status output) "error" then (st', None)
      else (st', co_result output)
  | Thrown _ => (st, None)
  end.

(** [handleMessage]: the router state afterwards and the egress. [now] is
    the clock reading taken when the worker has answered. *)
Definition handleMessage (now : instant) (registeredChats : gmap Z RegisteredChat)
    (db : Database) (st : RouterState) (sessionKey : SessionKey)
    (folder content senderName : string) (messageId : Z)
    (replyToMessageId : option Z) : RouterState * list Egress :=
  match SessionManager.getRegisteredChat registeredChats (chatId sessionKey) with
  | None => (st, [])
  | Some registeredChat =>
      let prompt :=
        buildPrompt
          (getMessagesSince db (chatId sessionKey) (topicId sessionKey)
             (lastAgentTimestamp st !! folder) ASSISTANT_NAME) in
      match runAgent st folder registeredChat sessionKey prompt with
      | (st', response) =>
          if truthy response then
            ({| sessions := sessions st';
                lastAgentTimestamp := <[folder := now]> (lastAgentTimestamp st') |},
             [SendText (chatId sessionKey) (topicId sessionKey)
                (ASSISTANT_NAME +:+ ": " +:+ default EmptyString response)
                (if messageId =? 0 then None else Some messageId)])
          else (st', [])
      end
  end.

(** *** The mailbox: files of the [messages/] directory *)

(** The JSON document of a mailbox file, by the fields the watcher reads;
    an absent field is [None]. *)
Record IpcData := {
  ipc_type : string;
  ipc_chatId : option Z;
  ipc_topicId : option Z;
  ipc_text : option string;
  ipc_messageId : option Z;
  ipc_emoji : option string
}.

Inductive IpcOutcome :=
| Applied (e : Egress)
| Blocked
| Skipped.

Definition truthy_number (o : option Z) : bool :=
  match o with
  | Some n => negb (n =? 0)
  | None => false
  end.

(** The body of the loop over the message files of [sourceFolder], for a
    parsed file: what happens before the file is unlinked. *)
Definition processIpcMessage (registeredChats : gmap Z RegisteredChat)
    (sourceFolder : string) (data : IpcData) : IpcOutcome :=
  let isMain := isMainFolder sourceFolder in
  match ipc_chatId data with
  | Some chat =>
      let targetChat := SessionManager.getRegisteredChat registeredChats chat in
      if (String.eqb (ipc_type data) "message" && truthy (ipc_text data))%bool then
        if (isMain || (bool_decide (is_Some targetChat)
                       && String.eqb sourceFolder MAIN_FOLDER))%bool
        then Applied (SendText chat (default 0 (ipc_topicId data))
                        (ASSISTANT_NAME +:+ ": "
                         +:+ default EmptyString (ipc_text data)) None)
        else Blocked
      else if (String.eqb (ipc_type data) "reaction"
               && truthy_number (ipc_messageId data)
               && truthy (ipc_emoji data))%bool then
        if (isMain || bool_decide (is_Some targetChat))%bool
        then Applied (SendReaction chat (default 0 (ipc_messageId data))
                        (default EmptyString (ipc_emoji data)))
        else Blocked
      else Skipped
  | None => Skipped
  end.

End WithConfig.

(** The workspace [W] owns a registered chat whose id is [chat]: a topic
    of that chat is bound to the folder [W], and the chat is registered. *)
Definition ownsChat (registeredChats : gmap Z RegisteredChat) (db : Database)
    (W : string) (chat : Z) : Prop :=
  is_Some (registeredChats !! chat) /\
  exists row, In row (topics db) /\ topic_folder row = W /\ topic_chat_id row = chat.

End Index.

(** ** session-manager.ts, agent-runner: session keys as text *)
Module SessionKeys.
Import Text Config Db Types SessionManager Scheduler.

(** [s.split(sep)] for a separator of one character. *)
Fixpoint split_from (sep : ascii) (cur : list ascii) (l : list ascii)
  : list (list ascii) :=
  match l with
  | [] => [rev cur]
  | c :: r => if Ascii.eqb c sep then rev cur :: split_from sep [] r
              else split_from sep (c :: cur) r
  end.

Definition split (sep : ascii) (s : string) : list string :=
  map text (split_from sep [] (chars s)).

(** [const [chatIdStr, topicIdStr] = sessionKey.split('_')] followed by
    [parseInt(chatIdStr, 10)] and [parseInt(topicIdStr || '0', 10)]: the
    two numbers, [None] for [NaN]. The same lines open [parseSessionKey]
    of the worker's tool server and [getFolderFromSessionKey]. *)
Definition parseSessionKey (sessionKey : string) : option Z * option Z :=
  match split "_" sessionKey with
  | chatIdStr :: rest =>
      let topicIdStr := match rest with
                        | t :: _ => if nonempty t then t else "0"
                        | [] => "0"
                        end in
      (parseInt chatIdStr, parseInt topicIdStr)
  | [] => (None, parseInt "0")
  end.

Definition getSessionKeyFromFolder (db : Database) (folder : string)
  : option string :=
  match getTopicByFolder db folder with
  | Some topic => Some (sessionKeyToString {| chatId := topic_chat_id topic;
                                              topicId := topic_topic_id topic |})
  | None => None
  end.

(** A [NaN] bound to the statement of [getTopic] is stored as [NULL],
    which no row equals: the lookup finds nothing. *)
Definition getFolderFromSessionKey (db : Database) (sessionKeyStr : string)
  : option string :=
  match parseSessionKey sessionKeyStr with
  | (Some chat, Some topic) =>
      match getTopic db chat topic with
      | Some row => Some (topic_folder row)
      | None => None
      end
  | _ => None
  end.

End SessionKeys.

(** ** telegram-client.ts: an incoming text message *)
Module Inbound.
Import Text Config Db Types SessionManager Telegram Worker.

Record Sender := {
  first_name : string;
  last_name : option string;
  sender_id : Z;
  is_bot : bool
}.

(** The fields of a text update that [handleTextMessage] reads.
    [forum_topic_name] is
    [reply_to_message?.forum_topic_created?.name]. *)
Record TextUpdate := {
  tu_text : option string;
  tu_chat_id : Z;
  tu_chat_type : string;
  tu_chat_title : option string;
  tu_message_thread_id : option Z;
  tu_from : option Sender;
  tu_message_id : Z;
  tu_date : Z;
  tu_reply_to_message_id : option Z;
  tu_is_topic_message : bool;
  tu_forum_topic_name : option string
}.

(** [x || 0] for an optional number. *)
Definition or_zero (o : option Z) : Z := default 0 o.

Definition senderNameOf (sender : option Sender) : string :=
  match sender with
  | Some s => first_name s +:+ (if truthy (last_name s)
                                then " " +:+ default EmptyString (last_name s)
                                else EmptyString)
  | None => "Unknown"
  end.

Definition chatTitleOf (title : option string) (chat : Z) : string :=
  if truthy title then default EmptyString title else "Private " +:+ pretty chat.

Definition getTopicName (m : TextUpdate) : string :=
  match (if tu_is_topic_message m then tu_forum_topic_name m else None) with
  | Some name => name
  | None =>
      let topicId := or_zero (tu_message_thread_id m) in
      if topicId =? 0 then "General" else "Topic " +:+ pretty topicId
  end.

(** [text.replace(regex, '')] for the escaped pattern with the flags
    [gi]: every match, found from left to right, is removed. Two code
    units below 256 match under the flag [i] exactly when their lower
    case forms agree. [skip] counts the characters of the current match
    that are still to be dropped. (An empty pattern matches the empty
    text only, and nothing is removed.) *)
Fixpoint remove_matches (pattern : list ascii) (skip : nat) (l : list ascii)
  : list ascii :=
  match l with
  | [] => []
  | c :: r =>
      match skip with
      | S k => remove_matches pattern k r
      | O =>
          if (nonempty (text pattern)
              && starts_with (toLowerCase pattern) (toLowerCase l))%bool
          then remove_matches pattern (List.length pattern - 1) r
          else c :: remove_matches pattern 0 r
      end
  end.

Section WithAssistant.
Variable ASSISTANT_NAME : string.

Definition mentionPatternOf (trigger : TriggerConfig) : string :=
  match mentionPattern trigger with
  | Some p => if nonempty p then p else "@" +:+ ASSISTANT_NAME
  | None => "@" +:+ ASSISTANT_NAME
  end.

Definition stripTrigger (txt : string) (trigger : TriggerConfig) : string :=
  if negb (String.eqb (mode trigger) "mention") then txt
  else text (Mounts.trim
               (remove_matches (chars (mentionPatternOf trigger)) 0 (chars txt))).

(** [handleTextMessage]: the store and the debouncer afterwards.
    [nowTopic] and [nowStored] are the clock readings of [upsertTopic]
    and of [storeMessage]; [hasHandler]
    tells whether [messageHandler] is set. (The [chats] table written by
    [upsertChat] is read by nothing in the dispatch path and is left
    out.) [None] only if [getSessionFolder] finds no folder. *)
Definition handleTextMessage (nowTopic nowStored : instant) (hasHandler : bool)
    (registeredChats : gmap Z RegisteredChat) (m : TextUpdate)
    (db : Database) (d : Debouncer) : option (Database * Debouncer) :=
  if negb (truthy (tu_text m)) then Some (db, d) else
  let txt := default EmptyString (tu_text m) in
  let chat := tu_chat_id m in
  let topic := or_zero (tu_message_thread_id m) in
  let sessionKey := {| chatId := chat; topicId := topic |} in
  let senderName := senderNameOf (tu_from m) in
  if negb (isChatRegistered registeredChats chat) then Some (db, d) else
  match SessionManager.getRegisteredChat registeredChats chat with
  | None => Some (db, d)
  | Some registeredChat =>
      let chatTitle := chatTitleOf (tu_chat_title m) chat in
      let topicName := getTopicName m in
      match getSessionFolder nowTopic db sessionKey chatTitle topicName with
      | None => None
      | Some (db1, folder) =>
          let senderId := match tu_from m with
                          | Some s => sender_id s
                          | None => 0
                          end in
          let isBot := match tu_from m with
                       | Some s => is_bot s
                       | None => false
                       end in
          let db2 := storeMessage nowStored (pretty (tu_message_id m)) chat topic
                       senderId senderName txt "text" isBot
                       (tu_reply_to_message_id m) None None None None db1 in
          let shouldTrigger :=
            checkTrigger ASSISTANT_NAME txt (rc_defaultTrigger registeredChat) folder in
          if (shouldTrigger && hasHandler)%bool then
            Some (db2,
                  bufferMessage
                    {| bm_sessionKey := sessionKey; bm_folder := folder;
                       bm_content := stripTrigger txt (rc_defaultTrigger registeredChat);
                       bm_senderName := senderName;
                       bm_messageId := tu_message_id m;
                       bm_replyToMessageId := tu_reply_to_message_id m;
                       bm_timestamp := tu_date m * 1000 |} d)
          else Some (db2, d)
      end
  end.

End WithAssistant.

End Inbound.

(** ** container-pool.ts: the output of a cold container *)
Module ColdOutput.
Import Text.

(** [stdout] and [stdoutTruncated] of [runColdContainer]. *)
Record Capture := {
  stdout : string;
  stdoutTruncated : bool
}.

Definition started : Capture :=
  {| stdout := EmptyString; stdoutTruncated := false |}.

(** [chunk.slice(0, n)]: a negative [n] counts from the end. *)
Definition slice_to (n : Z) (chunk : list ascii) : list ascii :=
  if n <? 0 then firstn (Z.to_nat (Z.of_nat (List.length chunk) + n)) chunk
  else firstn (Z.to_nat n) chunk.

Section WithLimit.
Variable CONTAINER_MAX_OUTPUT_SIZE : Z.

(** The handler of [container.stdout.on('data', ...)]. *)
Definition onStdoutData (chunk : string) (c : Capture) : Capture :=
  if stdoutTruncated c then c else
  let remaining := CONTAINER_MAX_OUTPUT_SIZE - Z.of_nat (String.length (stdout c)) in
  if remaining <? Z.of_nat (String.length chunk) then
    {| stdout := stdout c +:+ text (slice_to remaining (chars chunk));
       stdoutTruncated := true |}
  else
    {| stdout := stdout c +:+ chunk; stdoutTruncated := false |}.

(** The capture after the chunks the container wrote, in order. *)
Definition capture (chunks : list string) : Capture :=
  fold_left (fun c chunk => onStdoutData chunk c) chunks started.

End WithLimit.

End ColdOutput.

(** ** index.ts: the mailbox of task requests *)
Module TaskIpc.
Import Text Config Db Types SessionManager Worker Scheduler.

(** The JSON document of a task file, by the fields [processTaskIpc]
    declares; an absent field is [None]. *)
Record TaskIpcData := {
  td_type : string;
  td_taskId : option string;
  td_prompt : option string;
  td_scheduleType : option string;
  td_scheduleValue : option string;
  td_contextMode : option string;
  td_folder : option string;
  td_chatId : option Z;
  td_topicId : option Z;
  td_chatType : option string;
  td_chatTitle : option string;
  td_triggerMode : option string;
  td_containerConfig : option ContainerConfig;
  td_action : option string
}.

(** What a task request can change: the store, the chat registry and
    the service actions scheduled ([restart], [rebuild]). *)
Record Supervisor := {
  store : Database;
  registeredChats : gmap Z RegisteredChat;
  serviceActions : list string
}.

Definition with_store (s : Supervisor) (db : Database) : Supervisor :=
  {| store := db; registeredChats := registeredChats s;
     serviceActions := serviceActions s |}.

(** The clock readings of one call: when the schedule is evaluated and
    when the row is stamped. *)
Record IpcClock := {
  c_schedule : instant;
  c_created : instant
}.

Section WithCron.
Variable TIMEZONE : string.
Variable cronNext : string -> string -> instant -> option instant.
(** [new Date(s).getTime()]; [None] is [NaN]. *)
Variable parseDate : string -> option instant.

(** [createTask] is a plain [INSERT]: it throws when the id is taken
    (the primary key of [scheduled_tasks]). *)
Definition insertTask (task : ScheduledTask) (s : Supervisor) : option Supervisor :=
  match getTaskById (store s) (task_id task) with
  | Some _ => None
  | None => Some (with_store s (createTask task (store s)))
  end.

(** The task a guarded [pause_task], [resume_task] or [cancel_task]
    request may act on. *)
Definition mayTouch (s : Supervisor) (taskId sourceFolder : string) (isMain : bool)
  : bool :=
  match getTaskById (store s) taskId with
  | Some task => (isMain || String.eqb (task_folder task) sourceFolder)%bool
  | None => false
  end.

(** [processTaskIpc]: the supervisor afterwards; [None] when the call
    throws (the file is then moved to the errors directory). [taskId] is
    the identifier a [schedule_task] request generates. *)
Definition processTaskIpc (clock : IpcClock) (taskId : string)
    (data : TaskIpcData) (sourceFolder : string) (isMain : bool)
    (s : Supervisor) : option Supervisor :=
  if String.eqb (td_type data) "schedule_task" then
    match td_chatId data with
    | Some chat =>
        if (truthy (td_prompt data) && truthy (td_scheduleType data)
            && truthy (td_scheduleValue data) && truthy (td_folder data))%bool
        then
          let targetFolder := default EmptyString (td_folder data) in
          if (negb isMain && negb (String.eqb targetFolder sourceFolder))%bool
          then Some s
          else
            let scheduleType := default EmptyString (td_scheduleType data) in
            let scheduleValue := default EmptyString (td_scheduleValue data) in
            let create (nextRun : option instant) :=
              insertTask
                {| task_id := taskId; task_chatId := chat;
                   task_topicId := default 0 (td_topicId data);
                   task_folder := targetFolder;
                   task_prompt := default EmptyString (td_prompt data);
                   task_scheduleType := scheduleType;
                   task_scheduleValue := scheduleValue;
                   task_contextMode :=
                     if bool_decide (td_contextMode data = Some "group") then "group"
                     else "isolated";
                   task_nextRun := nextRun; task_lastRun := None;
                   task_lastResult := None; task_status := "active";
                   task_createdAt := c_created clock |} s in
            if String.eqb scheduleType "cron" then
              match cronNext scheduleValue TIMEZONE (c_schedule clock) with
              | Some n => create (Some n)
              | None => Some s
              end
            else if String.eqb scheduleType "interval" then
              match parseInt scheduleValue with
              | Some ms =>
                  if ms <=? 0 then Some s
                  else if valid_date (c_schedule clock + ms)
                       then create (Some (c_schedule clock + ms))
                       else None
              | None => Some s
              end
            else if String.eqb scheduleType "once" then
              match parseDate scheduleValue with
              | Some t => create (Some t)
              | None => Some s
              end
            else create None
        else Some s
    | None => Some s
    end
  else if String.eqb (td_type data) "pause_task" then
    if truthy (td_taskId data) then
      let id := default EmptyString (td_taskId data) in
      if mayTouch s id sourceFolder isMain
      then Some (with_store s (updateTaskStatus id "paused" (store s)))
      else Some s
    else Some s
  else if String.eqb (td_type data) "resume_task" then
    if truthy (td_taskId data) then
      let id := default EmptyString (td_taskId data) in
      if mayTouch s id sourceFolder isMain
      then Some (with_store s (updateTaskStatus id "active" (store s)))
      else Some s
    else Some s
  else if String.eqb (td_type data) "cancel_task" then
    if truthy (td_taskId data) then
      let id := default EmptyString (td_taskId data) in
      if mayTouch s id sourceFolder isMain
      then Some (with_store s (deleteTask id (store s)))
      else Some s
    else Some s
  else if String.eqb (td_type data) "register_chat" then
    if negb isMain then Some s
    else
      match td_chatId data with
      | Some chat =>
          if (truthy (td_chatType data) && truthy (td_chatTitle data))%bool then
            Some {| store := store s;
                    registeredChats :=
                      registerChat
                        {| rc_chatId := chat;
                           rc_chatType := default EmptyString (td_chatType data);
                           rc_chatTitle := default EmptyString (td_chatTitle data);
                           rc_defaultTrigger :=
                             {| mode := if truthy (td_triggerMode data)
                                        then default EmptyString (td_triggerMode data)
                                        else "mention";
                                mentionPattern := None |};
                           rc_addedAt := c_created clock;
                           rc_addedBy := None;
                           rc_containerConfig := td_containerConfig data |}
                        (registeredChats s);
                    serviceActions := serviceActions s |}
          else Some s
      | None => Some s
      end
  else if String.eqb (td_type data) "service_control" then
    if negb isMain then Some s
    else if bool_decide (td_action data = Some "restart")
    then Some {| store := store s; registeredChats := registeredChats s;
                 serviceActions := serviceActions s ++ ["restart"] |}
    else if bool_decide (td_action data = Some "rebuild")
    then Some {| store := store s; registeredChats := registeredChats s;
                 serviceActions := serviceActions s ++ ["rebuild"] |}
    else Some s
  else Some s.

(** The call site in [startIpcWatcher]: [isMain] is
    [isMainFolder(sourceFolder)]. *)
Definition processTaskFile (clock : IpcClock) (taskId : string)
    (data : TaskIpcData) (sourceFolder : string) (s : Supervisor)
  : option Supervisor :=
  processTaskIpc clock taskId data sourceFolder (isMainFolder sourceFolder) s.

End WithCron.

End TaskIpc.

(** ** Vocabulary of the properties *)
Module Props.
Import Text Config.

(** The characters a slug is made of: [[a-z0-9_-]]. *)
Definition slug_char (c : ascii) : bool :=
  (is_lower c || is_digit c || is_underscore c || is_hyphen c)%bool.

(** The characters the spec allows in a slug: [[a-z0-9-]]. *)
Definition spec_slug_char (c : ascii) : bool :=
  (is_lower c || is_digit c || is_hyphen c)%bool.

Fixpoint no_double_hyphen (l : list ascii) : bool :=
  match l with
  | c :: r =>
      (match r with
       | d :: _ => negb (is_hyphen c && is_hyphen d)
       | [] => true
       end && no_double_hyphen r)%bool
  | [] => true
  end.

Definition no_leading_hyphen (l : list ascii) : bool :=
  match l with
  | c :: _ => negb (is_hyphen c)
  | [] => true
  end.

Fixpoint ends_with_hyphen (l : list ascii) : bool :=
  match l with
  | [] => false
  | [c] => is_hyphen c
  | _ :: r => ends_with_hyphen r
  end.

(** A title of 49 letters, a space and one more letter. *)
Definition long_title : string :=
  text (repeat "a"%char 49) +:+ " b".

(** The rows of the messages table with a given primary key. *)
Definition rows_with_key (chat topic : Z) (id : string) (db : Db.Database)
  : list Db.MessageRow :=
  List.filter (Db.msg_has_key chat topic id) (Db.messages db).

(** The rows of the messages table with any other primary key. *)
Definition rows_without_key (chat topic : Z) (id : string) (db : Db.Database)
  : list Db.MessageRow :=
  List.filter (fun r => negb (Db.msg_has_key chat topic id r)) (Db.messages db).

(** Ascending order of a key along a list. *)
Definition ascending {A} (key : A -> Z) (l : list A) : Prop :=
  StronglySorted (fun a b => key a <= key b) l.

(** The distinct sender names of a batch. *)
Definition senders (batch : list Telegram.BufferedMessage) : list string :=
  nodup string_dec (map Telegram.bm_senderName batch).

(** The line of a message as the spec words it: prefixed when the batch
    has more than one sender. *)
Definition spec_line (batch : list Telegram.BufferedMessage)
    (m : Telegram.BufferedMessage) : string :=
  (if Nat.ltb 1 (List.length (senders batch))
   then "[" +:+ Telegram.bm_senderName m +:+ "]: " else EmptyString)
  +:+ Telegram.bm_content m.

(** The batch sender name as the spec words it. *)
Definition spec_sender (batch : list Telegram.BufferedMessage) : string :=
  match senders batch with
  | [s] => s
  | _ => "Multiple users"
  end.

(** Two messages of one sender, one second apart. *)
Definition ann_hi : Telegram.BufferedMessage :=
  {| Telegram.bm_sessionKey := {| Types.chatId := 100; Types.topicId := 0 |};
     Telegram.bm_folder := "family-chat"; Telegram.bm_content := "hi";
     Telegram.bm_senderName := "Ann"; Telegram.bm_messageId := 11;
     Telegram.bm_replyToMessageId := None; Telegram.bm_timestamp := 5000 |}.

Definition ann_there : Telegram.BufferedMessage :=
  {| Telegram.bm_sessionKey := {| Types.chatId := 100; Types.topicId := 0 |};
     Telegram.bm_folder := "family-chat"; Telegram.bm_content := "there";
     Telegram.bm_senderName := "Ann"; Telegram.bm_messageId := 12;
     Telegram.bm_replyToMessageId := None; Telegram.bm_timestamp := 6000 |}.

Definition ann_twice : list Telegram.BufferedMessage := [ann_hi; ann_there].

Definition ann_twice_buffered : Telegram.Debouncer :=
  Telegram.bufferMessage ann_there
    (Telegram.bufferMessage ann_hi
       {| Telegram.messageBuffers := ∅; Telegram.debounceTimers := ∅ |}).

(** A registry of two group chats and the topics the router assigned
    to them. *)
Definition group_chat (chat : Z) (title : string) : Types.RegisteredChat :=
  {| Types.rc_chatId := chat; Types.rc_chatType := "group";
     Types.rc_chatTitle := title;
     Types.rc_defaultTrigger := {| Types.mode := "mention";
                                   Types.mentionPattern := None |};
     Types.rc_addedAt := 0; Types.rc_addedBy := None;
     Types.rc_containerConfig := None |}.

Definition two_chats : gmap Z Types.RegisteredChat :=
  SessionManager.registerChat (group_chat 200 "Dev")
    (SessionManager.registerChat (group_chat 100 "Family Chat") ∅).

Definition two_chats_db : Db.Database :=
  Db.upsertTopic 20 200 0 "General" "dev"
    (Db.upsertTopic 10 100 0 "General" "family-chat" Db.empty_db).

(** A message to the sender's own chat and a reaction in another chat. *)
Definition own_chat_message : Index.IpcData :=
  {| Index.ipc_type := "message"; Index.ipc_chatId := Some 100;
     Index.ipc_topicId := Some 0; Index.ipc_text := Some "hello";
     Index.ipc_messageId := None; Index.ipc_emoji := None |}.

Definition foreign_chat_reaction : Index.IpcData :=
  {| Index.ipc_type := "reaction"; Index.ipc_chatId := Some 200;
     Index.ipc_topicId := None; Index.ipc_text := None;
     Index.ipc_messageId := Some 55; Index.ipc_emoji := Some "+1" |}.

(** The primary key of a topic row. *)
Definition topic_key (r : Db.TopicRow) : Z * Z :=
  (Db.topic_chat_id r, Db.topic_topic_id r).

(** No two topic rows share a folder. *)
Definition folders_unique (db : Db.Database) : Prop :=
  List.NoDup (map Db.topic_folder (Db.topics db)).

(** No two topic rows share a primary key (the table constraint). *)
Definition keys_unique (db : Db.Database) : Prop :=
  List.NoDup (map topic_key (Db.topics db)).

(** One sighting of a (chat, topic) pair by the session router. *)
Record Observation := {
  ob_now : Z;
  ob_key : Types.SessionKey;
  ob_chatTitle : string;
  ob_topicName : string
}.

(** The router run over a sequence of sightings: the store afterwards and
    the folder returned at each sighting. *)
Fixpoint observe_all (db : Db.Database) (obs : list Observation)
  : option (Db.Database * list (Types.SessionKey * string)) :=
  match obs with
  | [] => Some (db, [])
  | o :: rest =>
      match SessionManager.getSessionFolder (ob_now o) db (ob_key o)
              (ob_chatTitle o) (ob_topicName o) with
      | None => None
      | Some (db1, folder) =>
          match observe_all db1 rest with
          | None => None
          | Some (db2, assigned) => Some (db2, (ob_key o, folder) :: assigned)
          end
      end
  end.

(** The [n]-th folder name the loop of [generateFolderName] tries. *)
Definition candidate (baseName : string) (n : nat) : string :=
  match n with
  | O => baseName
  | S _ => SessionManager.numbered baseName n
  end.

(** A prefix test that ignores the case of ASCII letters. *)
Fixpoint prefix_nocase (p s : list ascii) : bool :=
  match p, s with
  | [], _ => true
  | _ :: _, [] => false
  | c :: p', d :: s' =>
      (Ascii.eqb (Db.like_fold c) (Db.like_fold d) && prefix_nocase p' s')%bool
  end.

(** A name without the wildcard characters of [LIKE]. *)
Definition no_wildcard (name : string) : Prop :=
  Forall (fun c => Ascii.eqb c "%" = false /\ Ascii.eqb c "_" = false) (chars name).

(** The XML escape of one character. *)
Definition esc (d : ascii) : list ascii :=
  if Ascii.eqb d "&" then chars "&amp;"
  else if Ascii.eqb d "<" then chars "&lt;"
  else if Ascii.eqb d ">" then chars "&gt;"
  else if Ascii.eqb d (ascii_of_nat 34) then chars "&quot;"
  else [d].

(** The selection of messages as the spec words it: the content is not
    prefixed with the assistant name and a colon. *)
Definition spec_since_filter (chat topic : Z) (since : option Z) (botName : string)
    (r : Db.MessageRow) : bool :=
  ((Db.msg_chat_id r =? chat) && (Db.msg_topic_id r =? topic)
   && Db.after since (Db.msg_timestamp r)
   && String.eqb (Db.msg_type r) "text"
   && negb (Telegram.starts_with (chars (botName +:+ ":")) (chars (Db.msg_content r))))%bool.

(** A user message that addresses the assistant in lower case. *)
Definition lowercase_address_db : Db.Database :=
  Db.storeMessage 5000 "77" 100 0 7 "Ann" "nanomi: remind me at 5" "text" false
    None None None None None
    (Db.upsertTopic 10 100 0 "General" "family-chat" Db.empty_db).

Definition fresh_router : Index.RouterState :=
  {| Index.sessions := ∅; Index.lastAgentTimestamp := ∅ |}.

(** A one-shot task of a chat that is not in the registry [two_chats]
    (its registration was removed), due since the instant 1000. *)
Definition orphan_once_task : Db.ScheduledTask :=
  {| Db.task_id := "task-1"; Db.task_chatId := 300; Db.task_topicId := 0;
     Db.task_folder := "old-chat"; Db.task_prompt := "say hello";
     Db.task_scheduleType := "once";
     Db.task_scheduleValue := "1970-01-01T00:00:01";
     Db.task_contextMode := "isolated"; Db.task_nextRun := Some 1000;
     Db.task_lastRun := None; Db.task_lastResult := None;
     Db.task_status := "active"; Db.task_createdAt := 0 |}.

Definition orphan_once_db : Db.Database :=
  Db.createTask orphan_once_task Db.empty_db.

Definition two_chats_deps : Scheduler.SchedulerDependencies :=
  {| Scheduler.getRegisteredChat := fun chat => two_chats !! chat;
     Scheduler.getSessions := ∅ |}.

(** Every clock reading of a run is the same instant. *)
Definition clock_at (t : Z) : Scheduler.RunClock :=
  {| Scheduler.t_start := t; Scheduler.t_finished := t; Scheduler.t_logged := t;
     Scheduler.t_scheduled := t; Scheduler.t_updated := t |}.

(** A worker that answers every job. *)
Definition answering_pool (input : Worker.ContainerInput) : Worker.Awaited :=
  Worker.Resolved {| Worker.co_status := "success";
                     Worker.co_result := Some "done";
                     Worker.co_newSessionId := None;
                     Worker.co_error := None |}.

(** A cron library that knows one schedule, every full minute. *)
Definition minutely (expr tz : string) (now : Z) : option Z :=
  Some ((now / 60000 + 1) * 60000).

Definition on_the_minute (expr tz : string) (t : Z) : Prop := t mod 60000 = 0.

(** A cron task of the registered chat 100, due since the instant 60000. *)
Definition minutely_task : Db.ScheduledTask :=
  {| Db.task_id := "task-2"; Db.task_chatId := 100; Db.task_topicId := 0;
     Db.task_folder := "family-chat"; Db.task_prompt := "check the mail";
     Db.task_scheduleType := "cron"; Db.task_scheduleValue := "* * * * *";
     Db.task_contextMode := "group"; Db.task_nextRun := Some 60000;
     Db.task_lastRun := None; Db.task_lastResult := None;
     Db.task_status := "active"; Db.task_createdAt := 0 |}.

Definition minutely_db : Db.Database :=
  Db.createTask minutely_task two_chats_db.

(** The two workers agree on what the dispatch logic reads, but for a
    spawn that is no longer awaited. *)
Definition core_le (c c' : Pool.WarmContainer) : Prop :=
  Pool.wc_processing c' = Pool.wc_processing c
  /\ Pool.wc_resolveMessage c' = Pool.wc_resolveMessage c
  /\ (Pool.wc_spawnedFor c' = Pool.wc_spawnedFor c \/ Pool.wc_spawnedFor c' = None).

Definition heap_le (h h' : gmap Pool.wid Pool.WarmContainer) : Prop :=
  forall w,
    (forall c, h !! w = Some c -> exists c', h' !! w = Some c' /\ core_le c c')
    /\ (forall c', h' !! w = Some c' -> exists c, h !! w = Some c /\ core_le c c').

(** The invariant of the pool: a request in flight on a worker is the one
    the worker is processing; a worker still being spawned is not
    processing; a registered worker exists and its spawn is over. *)
Record pool_inv (p : Pool.PoolState) : Prop := {
  inv_in_flight :
    forall r w folder,
      Pool.requests p !! r = Some {| Pool.rq_folder := folder;
                                     Pool.rq_service := Pool.Warm w;
                                     Pool.rq_resolved := false |} ->
      exists c, Pool.heap p !! w = Some c
                /\ Pool.wc_processing c = true
                /\ Pool.wc_resolveMessage c = Some r;
  inv_spawning :
    forall w c r, Pool.heap p !! w = Some c -> Pool.wc_spawnedFor c = Some r ->
                  Pool.wc_processing c = false;
  inv_registered :
    forall folder w, Pool.containers p !! folder = Some w ->
                     exists c, Pool.heap p !! w = Some c
                               /\ Pool.wc_spawnedFor c = None
}.

(** Two requests for one workspace arrive before any worker is ready;
    both workers become ready; the second answers; a third request
    arrives while the first worker is still at work. *)
Definition spawn_race : list (Z * Pool.Event) :=
  [ (0, Pool.RunContainer 1%nat "family-chat" false 1%nat);
    (1000, Pool.RunContainer 2%nat "family-chat" false 2%nat);
    (2000, Pool.StderrReady 1%nat);
    (2100, Pool.CheckReady 1%nat);
    (3000, Pool.StderrReady 2%nat);
    (3100, Pool.CheckReady 2%nat);
    (9000, Pool.StdoutComplete 2%nat);
    (9500, Pool.RunContainer 3%nat "family-chat" false 3%nat) ].

End Props.

(** ** Vocabulary of the further properties *)
Module Notions.
Import Text Config.

(** The primary key of a message row. *)
Definition message_key (r : Db.MessageRow) : Z * Z * string :=
  (Db.msg_chat_id r, Db.msg_topic_id r, Db.msg_id r).

(** A cron task of a chat that is not in the registry [two_chats] (its
    registration was removed), due since the instant 60000. *)
Definition orphan_cron_task : Db.ScheduledTask :=
  {| Db.task_id := "task-4"; Db.task_chatId := 300; Db.task_topicId := 0;
     Db.task_folder := "old-chat"; Db.task_prompt := "check the mail";
     Db.task_scheduleType := "cron"; Db.task_scheduleValue := "* * * * *";
     Db.task_contextMode := "isolated"; Db.task_nextRun := Some 60000;
     Db.task_lastRun := None; Db.task_lastResult := None;
     Db.task_status := "active"; Db.task_createdAt := 0 |}.

Definition orphan_cron_db : Db.Database :=
  Db.createTask orphan_cron_task Db.empty_db.

(** No two message rows share a primary key (the table constraint). *)
Definition message_keys_unique (db : Db.Database) : Prop :=
  List.NoDup (map message_key (Db.messages db)).

(** No two tasks share an id (the table constraint). *)
Definition task_ids_unique (db : Db.Database) : Prop :=
  List.NoDup (map Db.task_id (Db.scheduled_tasks db)).

(** A cron library that parses no expression. *)
Definition no_cron (expr tz : string) (now : Z) : option Z := None.

(** The store [minutely_db] with a second task of the chat 100, run every
    five minutes and due since the instant 30000. *)
Definition interval_task : Db.ScheduledTask :=
  {| Db.task_id := "task-3"; Db.task_chatId := 100; Db.task_topicId := 0;
     Db.task_folder := "family-chat"; Db.task_prompt := "water the plants";
     Db.task_scheduleType := "interval"; Db.task_scheduleValue := "300000";
     Db.task_contextMode := "isolated"; Db.task_nextRun := Some 30000;
     Db.task_lastRun := None; Db.task_lastResult := None;
     Db.task_status := "active"; Db.task_createdAt := 0 |}.

Definition two_tasks_db : Db.Database :=
  Db.createTask interval_task Props.minutely_db.

(** A worker that fails but reports the session it opened. *)
Definition failing_output : Worker.ContainerOutput :=
  {| Worker.co_status := "error"; Worker.co_result := None;
     Worker.co_newSessionId := Some "session-9";
     Worker.co_error := Some "out of credit" |}.

Definition failing_pool (input : Worker.ContainerInput) : Worker.Awaited :=
  Worker.Resolved failing_output.

(** A [Date] constructor that parses no text. *)
Definition no_date (s : string) : option Z := None.

(** The supervisor with the registry [two_chats] and a given store. *)
Definition supervisor_of (db : Db.Database) : TaskIpc.Supervisor :=
  {| TaskIpc.store := db; TaskIpc.registeredChats := Props.two_chats;
     TaskIpc.serviceActions := [] |}.

(** A request that names a task: [pause_task], [resume_task],
    [cancel_task]. *)
Definition task_request (type id : string) : TaskIpc.TaskIpcData :=
  {| TaskIpc.td_type := type; TaskIpc.td_taskId := Some id;
     TaskIpc.td_prompt := None; TaskIpc.td_scheduleType := None;
     TaskIpc.td_scheduleValue := None; TaskIpc.td_contextMode := None;
     TaskIpc.td_folder := None; TaskIpc.td_chatId := None;
     TaskIpc.td_topicId := None; TaskIpc.td_chatType := None;
     TaskIpc.td_chatTitle := None; TaskIpc.td_triggerMode := None;
     TaskIpc.td_containerConfig := None; TaskIpc.td_action := None |}.

(** A [schedule_task] request as the worker's tool server writes it. *)
Definition schedule_request (scheduleType scheduleValue prompt folder : string)
    (chat : Z) (topic : option Z) (contextMode : option string)
  : TaskIpc.TaskIpcData :=
  {| TaskIpc.td_type := "schedule_task"; TaskIpc.td_taskId := None;
     TaskIpc.td_prompt := Some prompt;
     TaskIpc.td_scheduleType := Some scheduleType;
     TaskIpc.td_scheduleValue := Some scheduleValue;
     TaskIpc.td_contextMode := contextMode;
     TaskIpc.td_folder := Some folder; TaskIpc.td_chatId := Some chat;
     TaskIpc.td_topicId := topic; TaskIpc.td_chatType := None;
     TaskIpc.td_chatTitle := None; TaskIpc.td_triggerMode := None;
     TaskIpc.td_containerConfig := None; TaskIpc.td_action := None |}.

Definition clock_of_request (t : Z) : TaskIpc.IpcClock :=
  {| TaskIpc.c_schedule := t; TaskIpc.c_created := t |}.

(** The characters of the decimal text of an integer. *)
Definition key_char (c : ascii) : Prop := is_digit c = true \/ is_hyphen c = true.

(** The capture holds the first [limit] characters of what was written
    so far, and knows whether more was written. *)
Definition capture_of (limit : Z) (seen : list ascii) (c : ColdOutput.Capture) : Prop :=
  chars (ColdOutput.stdout c) = firstn (Z.to_nat limit) seen
  /\ ColdOutput.stdoutTruncated c = (limit <? Z.of_nat (List.length seen)).

(** A mount the container may write to. *)
Definition writable (m : Mounts.VolumeMount) : bool := negb (Mounts.readonly m).

(** The first four callbacks of [spawn_race]: the first request is in
    flight on the first worker. *)
Definition first_worker_at_work : list (Z * Pool.Event) := firstn 4 Props.spawn_race.

(** A text message of Ann in the registered chat 100 that mentions the
    assistant. *)
Definition ann_mentions : Inbound.TextUpdate :=
  {| Inbound.tu_text := Some "@Nanomi what is up";
     Inbound.tu_chat_id := 100; Inbound.tu_chat_type := "group";
     Inbound.tu_chat_title := Some "Family Chat";
     Inbound.tu_message_thread_id := None;
     Inbound.tu_from := Some {| Inbound.first_name := "Ann";
                                Inbound.last_name := None;
                                Inbound.sender_id := 7;
                                Inbound.is_bot := false |};
     Inbound.tu_message_id := 41; Inbound.tu_date := 1700000000;
     Inbound.tu_reply_to_message_id := None;
     Inbound.tu_is_topic_message := false;
     Inbound.tu_forum_topic_name := None |}.

(** The characters that delimit markup in the prompt. *)
Definition markup_char (c : ascii) : bool :=
  (Ascii.eqb c "<" || Ascii.eqb c ">" || Ascii.eqb c (ascii_of_nat 34))%bool.

(** The store [lowercase_address_db] after more traffic. *)
Definition talk_db : Db.Database :=
  Db.storeMessage 8000 "81" 100 5 9 "Cy" "elsewhere" "text" false
    None None None None None
    (Db.storeMessage 7500 "80" 100 0 8 "Bob" "+1" "reaction" false
       None (Some "+1") (Some "added") (Some 78) None
       (Db.storeMessage 7000 "79" 100 0 7 "Ann" "see <you> later" "text" false
          None None None None None
          (Db.storeMessage 6500 "b1" 100 0 1 "Nanomi" "Nanomi: done" "text" true
             None None None None None
             (Db.storeMessage 6000 "78" 100 0 8 "Bob" "Tom & Jerry" "text" false
                None None None None None Props.lowercase_address_db)))).

Definition answered_router : Index.RouterState :=
  {| Index.sessions := {[ "family-chat" := "session-1" ]};
     Index.lastAgentTimestamp := {[ "family-chat" := 5500 ]} |}.

(** A worker that answers with the prompt it was given. *)
Definition echo_pool (input : Worker.ContainerInput) : Worker.Awaited :=
  Worker.Resolved {| Worker.co_status := "success";
                     Worker.co_result := Some (Worker.ci_prompt input);
                     Worker.co_newSessionId := None;
                     Worker.co_error := None |}.
(** The topic of a chat is bound to a folder. *)
Definition bound_to (db : Db.Database) (chat topic : Z) (folder : string) : Prop :=
  exists row, Db.getTopic db chat topic = Some row /\ Db.topic_folder row = folder.

(** A text without mention, sent by Ann outside any topic to the group
    [chat], whose title is [title] at that time. *)
Definition good_morning (chat : Z) (title : string) : Inbound.TextUpdate :=
  {| Inbound.tu_text := Some "good morning";
     Inbound.tu_chat_id := chat; Inbound.tu_chat_type := "group";
     Inbound.tu_chat_title := Some title;
     Inbound.tu_message_thread_id := None;
     Inbound.tu_from := Some {| Inbound.first_name := "Ann";
                                Inbound.last_name := None;
                                Inbound.sender_id := 7;
                                Inbound.is_bot := false |};
     Inbound.tu_message_id := 51; Inbound.tu_date := 1700000100;
     Inbound.tu_reply_to_message_id := None;
     Inbound.tu_is_topic_message := false;
     Inbound.tu_forum_topic_name := None |}.

(** The registry [two_chats] and a third group chat, registered under
    the title ['Main']. *)
Definition three_chats : gmap Z Types.RegisteredChat :=
  SessionManager.registerChat (Props.group_chat 555 "Main") Props.two_chats.

Definition no_buffers : Telegram.Debouncer :=
  {| Telegram.messageBuffers := ∅; Telegram.debounceTimers := ∅ |}.
(** The integers a JavaScript number holds exactly, which a template
    prints in plain decimal and [parseInt] reads back without rounding:
    up to [Number.MAX_SAFE_INTEGER] in absolute value. *)
Definition safe_integer (n : Z) : Prop := Z.abs n <= 9007199254740991.

(** The instants [toISOString] writes with a year of four digits, from
    [0000-01-01T00:00:00.000Z] to [9999-12-31T23:59:59.999Z]: on these
    texts of equal length the order of the texts, which the store and
    the queries use, is the order of the instants. Outside of them the
    year is written with a sign and six digits, and the text sorts
    before every text of a four-digit year. *)
Definition four_digit_year (t : Z) : Prop :=
  -62167219200000 <= t <= 253402300799999.

(** The property names every object inherits from [Object.prototype]. A
    plain object used as a map ([sessions], [lastAgentTimestamp]) answers
    a lookup of one of them with the inherited member when it has no own
    entry, and an assignment to [__proto__] stores no entry; for every
    other key it behaves as a finite map. *)
Definition prototype_keys : list string :=
  ["__proto__"; "constructor"; "hasOwnProperty"; "isPrototypeOf";
   "propertyIsEnumerable"; "toLocaleString"; "toString"; "valueOf";
   "__defineGetter__"; "__defineSetter__"; "__lookupGetter__";
   "__lookupSetter__"].

Definition plain_key (k : string) : Prop := ~ In k prototype_keys.

End Notions.

(* ===================================================================== *)
(** * Part II: properties                                                *)
(* ===================================================================== *)

(** ** Slugification (config.ts) *)
Section SlugFacts.
Import Text Config Props.

Ltac ascii_cases c := destruct c as [[] [] [] [] [] [] [] []].

Lemma kept_lower_char c :
  slug_keep (lower_char c) = true ->
  slug_char (lower_char c) = true \/ is_space (lower_char c) = true.
Proof. ascii_cases c; vm_compute; auto. Qed.

Lemma slug_char_lower c : slug_char c = true -> lower_char c = c.
Proof. ascii_cases c; vm_compute; intros H; (reflexivity || discriminate H). Qed.

Lemma slug_char_keep c : slug_char c = true -> slug_keep c = true.
Proof. ascii_cases c; vm_compute; auto. Qed.

Lemma slug_char_not_space c : slug_char c = true -> is_space c = false.
Proof. ascii_cases c; vm_compute; auto; discriminate. Qed.

Lemma hyphen_is_slug_char c : is_hyphen c = true -> slug_char c = true.
Proof. unfold slug_char. intros ->. rewrite !orb_true_r. reflexivity. Qed.

Lemma is_hyphen_eq c : is_hyphen c = true -> c = "-"%char.
Proof. ascii_cases c; vm_compute; intros H; (reflexivity || discriminate H). Qed.

(** Collapsing the runs of a class keeps the other characters and adds
    hyphens only. *)
Lemma collapse_runs_Forall (cls : ascii -> bool) (P : ascii -> Prop) l :
  P "-"%char ->
  Forall (fun c => cls c = false -> P c) l ->
  Forall P (collapse_runs cls l).
Proof.
  intros Hh. induction l as [|c r IH]; intros HF; simpl.
  - constructor.
  - inversion HF as [|? ? Hc Hr]; subst.
    destruct (cls c) eqn:Ec.
    + destruct r as [|c' r'].
      * repeat constructor. exact Hh.
      * destruct (cls c'); [| constructor; [exact Hh|]]; apply IH; exact Hr.
    + constructor; [apply Hc; reflexivity | apply IH; exact Hr].
Qed.

Lemma collapse_runs_id (cls : ascii -> bool) l :
  Forall (fun c => cls c = false) l -> collapse_runs cls l = l.
Proof.
  induction 1 as [|c r Hc _ IH]; simpl; [reflexivity|].
  rewrite Hc, IH. reflexivity.
Qed.

Lemma collapse_hyphens_no_double l :
  no_double_hyphen (collapse_runs is_hyphen l) = true.
Proof.
  induction l as [|c r IH]; simpl; [reflexivity|].
  destruct (is_hyphen c) eqn:Ec.
  - destruct r as [|c' r']; [reflexivity|].
    destruct (is_hyphen c') eqn:Ec'; [exact IH|].
    cbn [collapse_runs] in IH |- *. rewrite Ec' in IH |- *.
    change (no_double_hyphen ("-"%char :: c' :: collapse_runs is_hyphen r'))
      with (negb (is_hyphen "-"%char && is_hyphen c')
            && no_double_hyphen (c' :: collapse_runs is_hyphen r'))%bool.
    rewrite Ec', andb_false_r. exact IH.
  - simpl. rewrite IH, andb_true_r.
    destruct (collapse_runs is_hyphen r); [reflexivity|].
    rewrite Ec. reflexivity.
Qed.

Lemma collapse_hyphens_id l :
  no_double_hyphen l = true -> collapse_runs is_hyphen l = l.
Proof.
  induction l as [|c r IH]; simpl; [reflexivity|].
  intros H. apply andb_prop in H as [H1 H2].
  destruct (is_hyphen c) eqn:Ec.
  - destruct r as [|c' r']; [apply is_hyphen_eq in Ec; subst; reflexivity|].
    simpl in H1. destruct (is_hyphen c'); [discriminate H1|].
    rewrite (IH H2). apply is_hyphen_eq in Ec. subst. reflexivity.
  - rewrite (IH H2). reflexivity.
Qed.

Lemma no_double_tail c l :
  no_double_hyphen (c :: l) = true -> no_double_hyphen l = true.
Proof. simpl. intros H. apply andb_prop in H. tauto. Qed.

Lemma no_double_firstn n l :
  no_double_hyphen l = true -> no_double_hyphen (firstn n l) = true.
Proof.
  revert l. induction n as [|n IH]; intros [|c r] H; simpl; try reflexivity.
  apply andb_prop in H as [H1 H2]. fold no_double_hyphen in H2.
  rewrite (IH r H2), andb_true_r.
  destruct n, r; simpl; try reflexivity. exact H1.
Qed.

Lemma no_double_drop_trailing l :
  no_double_hyphen l = true -> no_double_hyphen (drop_trailing_hyphen l) = true.
Proof.
  induction l as [|c r IH]; [reflexivity|].
  intros H. pose proof (no_double_tail _ _ H) as Hr.
  destruct r as [|d r']; simpl.
  - destruct (is_hyphen c); reflexivity.
  - change (match r' with
            | [] => if is_hyphen d then [] else [d]
            | _ :: _ => d :: drop_trailing_hyphen r'
            end) with (drop_trailing_hyphen (d :: r')).
    rewrite (IH Hr), andb_true_r.
    simpl in H. apply andb_prop in H as [H1 _].
    destruct (drop_trailing_hyphen (d :: r')) as [|e t] eqn:E; [reflexivity|].
    assert (e = d) as ->.
    { simpl in E. destruct r'; [destruct (is_hyphen d); congruence | congruence]. }
    exact H1.
Qed.

Lemma no_double_trim l :
  no_double_hyphen l = true -> no_double_hyphen (trim_hyphens l) = true.
Proof.
  intros H. unfold trim_hyphens. apply no_double_drop_trailing.
  destruct l as [|c r]; [reflexivity|]. simpl.
  destruct (is_hyphen c); [exact (no_double_tail _ _ H) | exact H].
Qed.

Lemma drop_trailing_head c r e t :
  drop_trailing_hyphen (c :: r) = e :: t -> e = c.
Proof.
  simpl. destruct r; [destruct (is_hyphen c)|]; congruence.
Qed.

Lemma no_leading_trim l :
  no_double_hyphen l = true -> no_leading_hyphen (trim_hyphens l) = true.
Proof.
  intros H. unfold trim_hyphens.
  destruct l as [|c r]; [reflexivity|]. simpl drop_leading_hyphen.
  destruct (is_hyphen c) eqn:Ec.
  - destruct r as [|d r']; [reflexivity|].
    simpl in H. rewrite Ec in H. simpl in H.
    apply andb_prop in H as [H1 _].
    destruct (drop_trailing_hyphen (d :: r')) as [|e t] eqn:E; [reflexivity|].
    apply drop_trailing_head in E. subst e. simpl. exact H1.
  - destruct (drop_trailing_hyphen (c :: r)) as [|e t] eqn:E; [reflexivity|].
    apply drop_trailing_head in E. subst e. simpl. rewrite Ec. reflexivity.
Qed.

Lemma no_leading_firstn n l :
  no_leading_hyphen l = true -> no_leading_hyphen (firstn n l) = true.
Proof. destruct n, l; simpl; auto. Qed.

Lemma drop_trailing_Forall (P : ascii -> Prop) l :
  Forall P l -> Forall P (drop_trailing_hyphen l).
Proof.
  induction 1 as [|c r Hc Hr IH]; [constructor|].
  destruct r as [|d r']; simpl.
  - destruct (is_hyphen c); repeat constructor; assumption.
  - constructor; [assumption | exact IH].
Qed.

Lemma trim_Forall (P : ascii -> Prop) l :
  Forall P l -> Forall P (trim_hyphens l).
Proof.
  intros H. unfold trim_hyphens. apply drop_trailing_Forall.
  destruct H as [|c r Hc Hr]; simpl; [constructor|].
  destruct (is_hyphen c); [assumption | constructor; assumption].
Qed.

Lemma firstn_Forall (P : ascii -> Prop) n l :
  Forall P l -> Forall P (firstn n l).
Proof.
  intros H. revert n. induction H; intros [|n]; simpl; constructor; auto.
Qed.

(** What every slug satisfies. *)
Lemma slug_chars_shape l :
  Forall (fun c => slug_char c = true) (slug_chars l)
  /\ no_double_hyphen (slug_chars l) = true
  /\ no_leading_hyphen (slug_chars l) = true
  /\ (List.length (slug_chars l) <= 50)%nat.
Proof.
  unfold slug_chars.
  set (k := List.filter slug_keep (toLowerCase l)).
  assert (Hk : Forall (fun c => is_space c = false -> slug_char c = true) k).
  { subst k. unfold toLowerCase. induction l as [|c r IH]; simpl; [constructor|].
    destruct (slug_keep (lower_char c)) eqn:E; [|exact IH].
    constructor; [|exact IH].
    intros Hs. destruct (kept_lower_char c E) as [H|H]; [exact H | congruence]. }
  set (s := collapse_runs is_space k).
  assert (Hs : Forall (fun c => slug_char c = true) s).
  { subst s. apply collapse_runs_Forall; [reflexivity | exact Hk]. }
  set (h := collapse_runs is_hyphen s).
  assert (Hh : Forall (fun c => slug_char c = true) h).
  { subst h. apply collapse_runs_Forall; [reflexivity|].
    eapply List.Forall_impl; [|exact Hs]. auto. }
  assert (Hd : no_double_hyphen h = true) by apply collapse_hyphens_no_double.
  repeat split.
  - apply firstn_Forall, trim_Forall, Hh.
  - apply no_double_firstn, no_double_trim, Hd.
  - apply no_leading_firstn, no_leading_trim, Hd.
  - rewrite length_firstn. lia.
Qed.

Lemma drop_trailing_id l :
  ends_with_hyphen l = false -> drop_trailing_hyphen l = l.
Proof.
  induction l as [|c r IH]; [reflexivity|].
  destruct r as [|d r'].
  - simpl. intros ->. reflexivity.
  - intros H.
    change (drop_trailing_hyphen (c :: d :: r'))
      with (c :: drop_trailing_hyphen (d :: r')).
    f_equal. apply IH. exact H.
Qed.

(** After trimming, a list without doubled hyphens does not end in one. *)
Lemma drop_trailing_no_hyphen_end l :
  no_double_hyphen l = true -> ends_with_hyphen (drop_trailing_hyphen l) = false.
Proof.
  induction l as [|c r IH]; [reflexivity|].
  intros H. pose proof (no_double_tail _ _ H) as Hr.
  destruct r as [|d r'].
  - simpl. destruct (is_hyphen c) eqn:E; simpl; [reflexivity | exact E].
  - change (drop_trailing_hyphen (c :: d :: r'))
      with (c :: drop_trailing_hyphen (d :: r')).
    specialize (IH Hr).
    destruct (drop_trailing_hyphen (d :: r')) as [|e t] eqn:E.
    + assert (is_hyphen d = true) as Hd.
      { simpl in E. destruct r'; [|discriminate E].
        destruct (is_hyphen d); [reflexivity | discriminate E]. }
      simpl in H. rewrite Hd, andb_true_r in H.
      apply andb_prop in H as [H _]. apply negb_true_iff in H. simpl. exact H.
    + exact IH.
Qed.

Lemma trim_no_hyphen_end l :
  no_double_hyphen l = true -> ends_with_hyphen (trim_hyphens l) = false.
Proof.
  intros H. unfold trim_hyphens. apply drop_trailing_no_hyphen_end.
  destruct l as [|c r]; [reflexivity|]. simpl.
  destruct (is_hyphen c); [exact (no_double_tail _ _ H) | exact H].
Qed.

Lemma firstn_short {A} n (l : list A) :
  (List.length (firstn n l) < n)%nat -> firstn n l = l.
Proof.
  revert l. induction n as [|n IH]; intros l H; [simpl in H; lia|].
  destruct l as [|x r]; [reflexivity|]. simpl in H |- *.
  f_equal. apply IH. lia.
Qed.

(** A slug shorter than 50 characters was not cut, and does not end in a
    hyphen. *)
Lemma short_slug_no_hyphen_end l :
  (List.length (slug_chars l) < 50)%nat -> ends_with_hyphen (slug_chars l) = false.
Proof.
  unfold slug_chars. intros H. rewrite (firstn_short _ _ H).
  apply trim_no_hyphen_end, collapse_hyphens_no_double.
Qed.

Lemma slug_lower_id s :
  Forall (fun c => slug_char c = true) s -> toLowerCase s = s.
Proof.
  unfold toLowerCase. induction 1 as [|c r H _ IH]; simpl; [reflexivity|].
  rewrite (slug_char_lower c H), IH. reflexivity.
Qed.

Lemma slug_filter_id s :
  Forall (fun c => slug_char c = true) s -> List.filter slug_keep s = s.
Proof.
  induction 1 as [|c r H _ IH]; simpl; [reflexivity|].
  rewrite (slug_char_keep c H), IH. reflexivity.
Qed.

(** A slug without a trailing hyphen is a fixed point. *)
Lemma slug_chars_fixed s :
  Forall (fun c => slug_char c = true) s ->
  no_double_hyphen s = true ->
  no_leading_hyphen s = true ->
  (List.length s <= 50)%nat ->
  ends_with_hyphen s = false ->
  slug_chars s = s.
Proof.
  intros Hc Hd Hl Hlen He. unfold slug_chars.
  rewrite (slug_lower_id s Hc), (slug_filter_id s Hc).
  rewrite (collapse_runs_id is_space).
  2:{ eapply List.Forall_impl; [|exact Hc]. apply slug_char_not_space. }
  rewrite (collapse_hyphens_id s Hd).
  unfold trim_hyphens.
  assert (drop_leading_hyphen s = s) as ->.
  { destruct s as [|c r]; [reflexivity|]. simpl in Hl |- *.
    destruct (is_hyphen c); [discriminate Hl | reflexivity]. }
  rewrite (drop_trailing_id s He).
  apply firstn_all2. exact Hlen.
Qed.

Lemma chars_text l : chars (text l) = l.
Proof. apply list_ascii_of_string_of_list_ascii. Qed.

End SlugFacts.

Example slugify_family : Config.slugify "Family Chat" = "family-chat".
Proof. reflexivity. Qed.

Example slugify_odd : Config.slugify "  --Dev  __ Ops!! -- " = "dev-__-ops".
Proof. reflexivity. Qed.

Example slugify_empty : Config.slugify "!!!" = EmptyString.
Proof. reflexivity. Qed.

Example baseName_fallback :
  SessionManager.baseNameOf "!!!" "General"
    {| Types.chatId := -1001; Types.topicId := 0 |} = "chat--1001".
Proof. reflexivity. Qed.

Example baseName_topic :
  SessionManager.baseNameOf "Dev Team" "Release Notes"
    {| Types.chatId := -1001; Types.topicId := 7 |} = "dev-team-release-notes".
Proof. reflexivity. Qed.

Example like_same_case : Db.sql_like "Nanomi: all good" "Nanomi:%" = true.
Proof. reflexivity. Qed.

Example like_other_case : Db.sql_like "NANOMI: all good" "Nanomi:%" = true.
Proof. reflexivity. Qed.

Example like_no_match : Db.sql_like "hey Nanomi: all good" "Nanomi:%" = false.
Proof. reflexivity. Qed.

Example like_underscore : Db.sql_like "my-bot: hi" "my_bot:%" = true.
Proof. reflexivity. Qed.

Example escapeXml_all :
  Index.escapeXml ("a<b & c>" +:+ Index.dq)
  = "a&lt;b &amp; c&gt;&quot;".
Proof. reflexivity. Qed.

Example parseInt_digits : Scheduler.parseInt "300000" = Some 300000.
Proof. reflexivity. Qed.

Example parseInt_prefix : Scheduler.parseInt " -12px" = Some (-12).
Proof. reflexivity. Qed.

Example parseInt_nan : Scheduler.parseInt "soon" = None.
Proof. reflexivity. Qed.

Example checkTrigger_mention :
  Telegram.checkTrigger "Nanomi" "hey @NANOMI what's up"
    {| Types.mode := "mention"; Types.mentionPattern := None |} "family-chat" = true.
Proof. reflexivity. Qed.

Example checkTrigger_no_mention :
  Telegram.checkTrigger "Nanomi" "hey what's up"
    {| Types.mode := "mention"; Types.mentionPattern := None |} "family-chat" = false.
Proof. reflexivity. Qed.

Example flush_ann_twice :
  snd (Telegram.flushMessageBuffer true "100_0" Props.ann_twice_buffered)
  = Some {| Telegram.hc_sessionKey := {| Types.chatId := 100; Types.topicId := 0 |};
            Telegram.hc_folder := "family-chat";
            Telegram.hc_content := "[Ann]: hi" +:+ Telegram.nl +:+ "[Ann]: there";
            Telegram.hc_senderName := "Multiple users";
            Telegram.hc_messageId := 12;
            Telegram.hc_replyToMessageId := None |}.
Proof. vm_compute. reflexivity. Qed.

Example container_args_main :
  Mounts.buildContainerArgs "nanoclaw-agent:latest" 1800000
    [ {| Mounts.hostPath := "/srv/nanoclaw"; Mounts.containerPath := "/workspace/project";
         Mounts.readonly := false |};
      {| Mounts.hostPath := "/srv/nanoclaw/groups/global";
         Mounts.containerPath := "/workspace/global"; Mounts.readonly := true |} ]
    true
  = ["run"; "-i"; "--rm";
     "-v"; "/srv/nanoclaw:/workspace/project";
     "-v"; "/srv/nanoclaw/groups/global:/workspace/global:ro";
     "-e"; "WARM_MODE=true"; "-e"; "IDLE_TIMEOUT=1800";
     "nanoclaw-agent:latest"].
Proof. reflexivity. Qed.

Import Props.

(** C7, as stated, fails: the slug of [long_title] is cut after the
    hyphen, and slugifying it again removes that hyphen; and an underscore
    survives slugification although it is outside [[a-z0-9-]]. *)
Lemma slugify_not_idempotent_nor_hyphen_only :
  Config.slugify (Config.slugify long_title) <> Config.slugify long_title
  /\ ~ Forall (fun c => spec_slug_char c = true) (Text.chars (Config.slugify "a_b")).
Proof.
  split.
  - vm_compute. discriminate.
  - intros H. vm_compute in H.
    inversion H as [|? ? _ H1]; subst.
    inversion H1 as [|? ? H2 _]; subst.
    discriminate H2.
Qed.

(** C7, amended: a slug has only characters of [[a-z0-9_-]] and at most
    50 of them, and slugifying a slug that does not end in a hyphen gives
    it back; a slug of fewer than 50 characters does not end in a hyphen. *)
Theorem slugify_charset_and_fixed_point (x : string) :
  Forall (fun c => slug_char c = true) (Text.chars (Config.slugify x))
  /\ (List.length (Text.chars (Config.slugify x)) <= 50)%nat
  /\ (ends_with_hyphen (Text.chars (Config.slugify x)) = false ->
      Config.slugify (Config.slugify x) = Config.slugify x)
  /\ ((List.length (Text.chars (Config.slugify x)) < 50)%nat ->
      ends_with_hyphen (Text.chars (Config.slugify x)) = false).
Proof.
  unfold Config.slugify. rewrite !chars_text.
  destruct (slug_chars_shape (Text.chars x)) as (Hc & Hd & Hl & Hlen).
  repeat split; try assumption.
  - intros He. f_equal. apply slug_chars_fixed; assumption.
  - apply short_slug_no_hyphen_end.
Qed.

Lemma slugify_charset_and_fixed_point_witness :
  ends_with_hyphen (Text.chars (Config.slugify "Family Chat")) = false
  /\ Config.slugify (Config.slugify "Family Chat") = Config.slugify "Family Chat".
Proof.
  split; [reflexivity|].
  apply (slugify_charset_and_fixed_point "Family Chat"). reflexivity.
Defined.

(** ** The message store (db.ts) *)
Section StoreFacts.
Import Text Db.

Lemma filter_filter_same {A} (f : A -> bool) l :
  List.filter f (List.filter f l) = List.filter f l.
Proof.
  induction l as [|x r IH]; simpl; [reflexivity|].
  destruct (f x) eqn:E; simpl; rewrite ?E, IH; reflexivity.
Qed.

Lemma filter_filter_neg {A} (f : A -> bool) l :
  List.filter f (List.filter (fun x => negb (f x)) l) = [].
Proof.
  induction l as [|x r IH]; simpl; [reflexivity|].
  destruct (f x) eqn:E; simpl; rewrite ?E; exact IH.
Qed.

Lemma database_ext (a b : Database) :
  topics a = topics b -> messages a = messages b ->
  scheduled_tasks a = scheduled_tasks b -> task_run_logs a = task_run_logs b ->
  a = b.
Proof. destruct a, b; simpl; intros; subst; reflexivity. Qed.

Lemma messages_updateTopicTimestamp now chat topic db :
  messages (updateTopicTimestamp now chat topic db) = messages db.
Proof. reflexivity. Qed.

Lemma updateTopicTimestamp_twice now chat topic db :
  updateTopicTimestamp now chat topic (updateTopicTimestamp now chat topic db)
  = updateTopicTimestamp now chat topic db.
Proof.
  unfold updateTopicTimestamp, with_topics. simpl. f_equal.
  rewrite map_map. apply map_ext. intros r.
  destruct (topic_has_key chat topic r) eqn:E; simpl; [|rewrite E; reflexivity].
  unfold topic_has_key in *. simpl. rewrite E. reflexivity.
Qed.

Section TwoCalls.
Variables (now1 now2 : instant) (id : string) (chat topic : Z).
Variables (sender1 sender2 : Z) (name1 name2 content1 content2 type1 type2 : string).
Variables (bot1 bot2 : bool) (reply1 reply2 : option Z).
Variables (emoji1 emoji2 action1 action2 : option string).
Variables (target1 target2 : option Z) (session1 session2 : option string).
Variable db : Database.

Let first_call : Database :=
  storeMessage now1 id chat topic sender1 name1 content1 type1 bot1 reply1
    emoji1 action1 target1 session1 db.

Let second_call : Database :=
  storeMessage now2 id chat topic sender2 name2 content2 type2 bot2 reply2
    emoji2 action2 target2 session2 first_call.

Let second_row : MessageRow :=
  {| msg_id := id; msg_chat_id := chat; msg_topic_id := topic;
     msg_sender_id := sender2; msg_sender_name := name2;
     msg_content := content2; msg_type := type2; msg_timestamp := now2;
     msg_is_bot := bot2; msg_reply_to_message_id := reply2;
     msg_reaction_emoji := emoji2; msg_reaction_action := action2;
     msg_target_message_id := target2; msg_agent_session_id := session2 |}.

Lemma has_own_key sender name content type now bot reply emoji action target session :
  msg_has_key chat topic id
    {| msg_id := id; msg_chat_id := chat; msg_topic_id := topic;
       msg_sender_id := sender; msg_sender_name := name;
       msg_content := content; msg_type := type; msg_timestamp := now;
       msg_is_bot := bot; msg_reply_to_message_id := reply;
       msg_reaction_emoji := emoji; msg_reaction_action := action;
       msg_target_message_id := target; msg_agent_session_id := session |} = true.
Proof.
  unfold msg_has_key. simpl. rewrite !Z.eqb_refl, String.eqb_refl. reflexivity.
Qed.

Lemma messages_second_call :
  messages second_call = rows_without_key chat topic id db ++ [second_row].
Proof.
  unfold second_call, first_call, storeMessage, rows_without_key.
  rewrite !messages_updateTopicTimestamp. simpl.
  unfold insert_or_replace_message. simpl.
  rewrite List.filter_app, filter_filter_same. simpl.
  rewrite has_own_key. simpl. rewrite app_nil_r. reflexivity.
Qed.

Lemma messages_first_call :
  List.length (messages first_call)
  = S (List.length (rows_without_key chat topic id db)).
Proof.
  unfold first_call, storeMessage, rows_without_key.
  rewrite messages_updateTopicTimestamp. simpl.
  unfold insert_or_replace_message. simpl.
  rewrite length_app. simpl. lia.
Qed.

(** C9, amended: a second [storeMessage] on a key already present adds no
    row; the one row of that key then carries the data and the clock
    reading of the second call, and the rows of the other keys are those
    of the store before the calls. *)
Theorem storeMessage_same_key_replaces :
  List.length (messages second_call) = List.length (messages first_call)
  /\ rows_with_key chat topic id second_call = [second_row]
  /\ rows_without_key chat topic id second_call = rows_without_key chat topic id db
  /\ rows_without_key chat topic id second_call
     = rows_without_key chat topic id first_call.
Proof.
  pose proof has_own_key as Hk.
  assert (Hw : forall d, messages d = rows_without_key chat topic id db ++ [second_row] ->
             rows_without_key chat topic id d = rows_without_key chat topic id db).
  { intros d Hd. unfold rows_without_key at 1. rewrite Hd.
    rewrite List.filter_app. unfold rows_without_key. rewrite filter_filter_same.
    simpl. unfold second_row. rewrite Hk. simpl. apply app_nil_r. }
  repeat split.
  - rewrite messages_second_call, messages_first_call, length_app. simpl. lia.
  - unfold rows_with_key. rewrite messages_second_call, List.filter_app.
    unfold rows_without_key. rewrite filter_filter_neg. simpl.
    unfold second_row. rewrite Hk. reflexivity.
  - apply Hw, messages_second_call.
  - rewrite (Hw _ messages_second_call). symmetry.
    unfold first_call, storeMessage, rows_without_key.
    rewrite messages_updateTopicTimestamp. simpl.
    unfold insert_or_replace_message. simpl.
    rewrite List.filter_app, filter_filter_same. simpl.
    rewrite Hk. simpl. apply app_nil_r.
Qed.

End TwoCalls.

(** The same call at the same clock reading leaves the store as it is. *)
Lemma storeMessage_same_call_same_clock now id chat topic sender name content
    type bot reply emoji action target session db :
  let once := storeMessage now id chat topic sender name content type bot reply
                emoji action target session db in
  storeMessage now id chat topic sender name content type bot reply
    emoji action target session once = once.
Proof.
  intros once.
  assert (Hm : messages (storeMessage now id chat topic sender name content type
                           bot reply emoji action target session once)
               = messages once).
  { subst once.
    rewrite (messages_second_call now now id chat topic sender sender name name
               content content type type bot bot reply reply emoji emoji
               action action target target session session db).
    reflexivity. }
  assert (Ht : topics (storeMessage now id chat topic sender name content type
                           bot reply emoji action target session once)
               = topics once).
  { subst once. unfold storeMessage.
    set (d := with_messages db _).
    change (topics (updateTopicTimestamp now chat topic
                      (updateTopicTimestamp now chat topic d)) =
            topics (updateTopicTimestamp now chat topic d)).
    rewrite updateTopicTimestamp_twice. reflexivity. }
  apply database_ext; [exact Ht | exact Hm | reflexivity | reflexivity].
Qed.

End StoreFacts.

(** C9, as stated, fails: storing the very same message again at a later
    clock reading changes the stored row (its timestamp is rewritten). *)
Lemma storeMessage_twice_changes_store :
  let once := Db.storeMessage 1000 "41" 100 0 7 "Ann" "hello" "text" false
                None None None None None Db.empty_db in
  Db.storeMessage 2000 "41" 100 0 7 "Ann" "hello" "text" false
    None None None None None once <> once.
Proof. vm_compute. discriminate. Qed.

(** ** Ordering ([ORDER BY], [Array.prototype.sort]) *)
Section SortFacts.
Import Db Props.
Context {A : Type} (key : A -> Z).

Lemma insert_by_perm x l : Permutation (insert_by key x l) (x :: l).
Proof.
  induction l as [|y r IH]; simpl; [reflexivity|].
  destruct (key x <=? key y); [reflexivity|].
  rewrite IH. apply perm_swap.
Qed.

Lemma sort_by_perm l : Permutation (sort_by key l) l.
Proof.
  induction l as [|x r IH]; simpl; [reflexivity|].
  rewrite insert_by_perm. constructor. exact IH.
Qed.

Lemma sort_by_length l : List.length (sort_by key l) = List.length l.
Proof. apply Permutation_length, sort_by_perm. Qed.

Lemma insert_by_ascending x l :
  ascending key l -> ascending key (insert_by key x l).
Proof.
  unfold ascending. induction 1 as [|y r Hr IH Hy]; simpl.
  - repeat constructor.
  - destruct (key x <=? key y) eqn:E.
    + apply Z.leb_le in E. constructor; [constructor; assumption|].
      constructor; [exact E|].
      eapply List.Forall_impl; [|exact Hy]. simpl. intros; lia.
    + apply Z.leb_gt in E. constructor; [exact IH|].
      assert (Hx : Forall (fun b => key y <= key b) (x :: r))
        by (constructor; [lia | exact Hy]).
      rewrite List.Forall_forall in Hx |- *. intros b Hb. apply Hx.
      apply (Permutation_in b (insert_by_perm x r)). exact Hb.
Qed.

Lemma sort_by_ascending l : ascending key (sort_by key l).
Proof.
  induction l as [|x r IH]; simpl; [constructor|].
  apply insert_by_ascending, IH.
Qed.

(** The last element of an ascending list has the greatest key. *)
Lemma ascending_last_max l d m :
  ascending key l -> In m l -> key m <= key (List.last l d).
Proof.
  unfold ascending. induction 1 as [|y r Hr IH Hy]; intros Hin; [destruct Hin|].
  destruct r as [|z r'].
  - destruct Hin as [->|[]]. simpl. lia.
  - change (List.last (y :: z :: r') d) with (List.last (z :: r') d).
    destruct Hin as [->|Hin]; [|apply IH, Hin].
    rewrite List.Forall_forall in Hy. apply Hy.
    destruct (exists_last (l := z :: r')) as (l' & a & E); [discriminate|].
    rewrite E, last_last. rewrite in_app_iff. right. left. reflexivity.
Qed.

Lemma last_In (l : list A) d : l <> [] -> In (List.last l d) l.
Proof.
  intros H. destruct (exists_last H) as (l' & a & ->).
  rewrite last_last, in_app_iff. right. left. reflexivity.
Qed.

End SortFacts.

(** ** The debouncer (telegram-client.ts) *)
Section DebouncerFacts.
Import Text Db Types Telegram Props.

Lemma sort_by_nonempty {A} (key : A -> Z) (l : list A) :
  l <> [] -> sort_by key l <> [].
Proof.
  intros H E. apply (f_equal (@List.length A)) in E.
  rewrite sort_by_length in E. destruct l; [congruence | discriminate E].
Qed.

(** What a flush does: it merges the buffered messages in timestamp
    order; every line is prefixed with the sender exactly when the buffer
    holds more than one message, whoever sent them; the batch sender name
    is the sender's name for a buffer of one message and the label
    ['Multiple users'] otherwise; the id of a newest message is the reply
    target. *)
Theorem flush_merges_in_timestamp_order (d : Debouncer) (bufferKey : string)
    (buffered : list BufferedMessage) :
  messageBuffers d !! bufferKey = Some buffered ->
  buffered <> [] ->
  exists d' call sorted newest,
    flushMessageBuffer true bufferKey d = (d', Some call)
    /\ messageBuffers d' !! bufferKey = None
    /\ Permutation sorted buffered
    /\ ascending bm_timestamp sorted
    /\ hc_content call =
         join nl (map (fun m => if Nat.ltb 1 (List.length buffered)
                                then ("[" +:+ bm_senderName m +:+ "]: ") +:+ bm_content m
                                else bm_content m) sorted)
    /\ (forall m, buffered = [m] -> hc_senderName call = bm_senderName m)
    /\ ((1 < List.length buffered)%nat -> hc_senderName call = "Multiple users")
    /\ In newest buffered
    /\ (forall m, In m buffered -> bm_timestamp m <= bm_timestamp newest)
    /\ hc_messageId call = bm_messageId newest.
Proof.
  intros Hb Hne. unfold flushMessageBuffer. rewrite Hb.
  pose proof (sort_by_perm bm_timestamp buffered) as Hperm.
  pose proof (sort_by_ascending bm_timestamp buffered) as Hasc.
  pose proof (sort_by_length bm_timestamp buffered) as Hlen.
  pose proof (sort_by_nonempty bm_timestamp buffered Hne) as Hsne.
  destruct (sort_by bm_timestamp buffered) as [|first rest] eqn:E; [congruence|].
  set (sorted := first :: rest) in *.
  simpl negb. cbv iota.
  eexists _, _, sorted, (List.last sorted first).
  split; [reflexivity|].
  cbn [hc_content hc_senderName hc_messageId messageBuffers].
  split; [apply lookup_delete_eq|].
  split; [exact Hperm|].
  split; [exact Hasc|].
  split.
  { rewrite Hlen. f_equal. apply map_ext. intros m. unfold line_of.
    destruct (Nat.ltb 1 (List.length buffered)); reflexivity. }
  split.
  { intros m Hm. rewrite Hlen, Hm. simpl.
    subst buffered. subst sorted. simpl in E. injection E as -> _. reflexivity. }
  split.
  { intros Hgt. rewrite Hlen.
    destruct (Nat.eqb_spec (List.length buffered) 1) as [H1|H1]; [lia | reflexivity]. }
  split.
  { apply (Permutation_in _ Hperm). apply last_In. discriminate. }
  split; [|reflexivity].
  intros m Hm. apply ascending_last_max; [exact Hasc|].
  apply (Permutation_in _ (Permutation_sym Hperm)). exact Hm.
Qed.

End DebouncerFacts.

Lemma flush_merges_in_timestamp_order_witness :
  exists d' call sorted newest,
    Telegram.flushMessageBuffer true "100_0" ann_twice_buffered = (d', Some call)
    /\ Telegram.messageBuffers d' !! "100_0" = None
    /\ Permutation sorted ann_twice
    /\ ascending Telegram.bm_timestamp sorted
    /\ Telegram.hc_content call =
         Text.join Telegram.nl
           (map (fun m => if Nat.ltb 1 (List.length ann_twice)
                          then ("[" +:+ Telegram.bm_senderName m +:+ "]: ")
                               +:+ Telegram.bm_content m
                          else Telegram.bm_content m) sorted)
    /\ (forall m, ann_twice = [m] ->
        Telegram.hc_senderName call = Telegram.bm_senderName m)
    /\ ((1 < List.length ann_twice)%nat ->
        Telegram.hc_senderName call = "Multiple users")
    /\ In newest ann_twice
    /\ (forall m, In m ann_twice ->
        Telegram.bm_timestamp m <= Telegram.bm_timestamp newest)
    /\ Telegram.hc_messageId call = Telegram.bm_messageId newest.
Proof.
  apply (flush_merges_in_timestamp_order ann_twice_buffered "100_0" ann_twice).
  - reflexivity.
  - discriminate.
Defined.

(** C2 fails in the code: [flushMessageBuffer] means to tell batches of
    several senders from batches of one (its comment reads 'Combine
    messages from multiple senders', its label 'Multiple users') but tests
    [messages.length]. For two buffered messages of the one sender Ann the
    flush prefixes both lines with ['[Ann]: '] and names the batch
    ['Multiple users'], where the claim wants no prefix and the name
    ['Ann']. *)
Lemma flush_prefixes_single_sender_batch :
  exists call,
    snd (Telegram.flushMessageBuffer true "100_0" ann_twice_buffered) = Some call
    /\ senders ann_twice = ["Ann"]
    /\ Telegram.hc_content call = "[Ann]: hi" +:+ Telegram.nl +:+ "[Ann]: there"
    /\ Telegram.hc_senderName call = "Multiple users"
    /\ Text.join Telegram.nl
         (map (spec_line ann_twice) (Db.sort_by Telegram.bm_timestamp ann_twice))
       = "hi" +:+ Telegram.nl +:+ "there"
    /\ spec_sender ann_twice = "Ann"
    /\ Telegram.hc_content call
       <> Text.join Telegram.nl
            (map (spec_line ann_twice) (Db.sort_by Telegram.bm_timestamp ann_twice))
    /\ Telegram.hc_senderName call <> spec_sender ann_twice.
Proof.
  eexists. split; [vm_compute; reflexivity|].
  split; [reflexivity|].
  split; [vm_compute; reflexivity|].
  split; [reflexivity|].
  split; [vm_compute; reflexivity|].
  split; [vm_compute; reflexivity|].
  split; vm_compute; discriminate.
Qed.

(** ** Mailbox authorization (index.ts) *)
Section MailboxFacts.
Import Text Config Db Types SessionManager Worker Index Props.
Variable ASSISTANT_NAME : string.

Lemma isMainFolder_spec folder : isMainFolder folder = true <-> folder = MAIN_FOLDER.
Proof. unfold isMainFolder. apply String.eqb_eq. Qed.

(** What the watcher does for a well-formed message file: it is delivered
    exactly when the source workspace is [main]; whether the target chat
    is registered, or whose it is, plays no role. *)
Lemma ipc_message_applied_iff_main registeredChats W chat topic body :
  truthy (Some body) = true ->
  let data := {| ipc_type := "message"; ipc_chatId := Some chat;
                 ipc_topicId := topic; ipc_text := Some body;
                 ipc_messageId := None; ipc_emoji := None |} in
  (W = MAIN_FOLDER ->
   processIpcMessage ASSISTANT_NAME registeredChats W data
   = Applied (SendText chat (default 0 topic) (ASSISTANT_NAME +:+ ": " +:+ body) None))
  /\ (W <> MAIN_FOLDER ->
      processIpcMessage ASSISTANT_NAME registeredChats W data = Blocked).
Proof.
  intros Ht data. destruct body as [|b0 body']; [discriminate Ht|].
  unfold processIpcMessage. simpl.
  split; intros HW.
  - apply isMainFolder_spec in HW. rewrite HW. reflexivity.
  - destruct (isMainFolder W) eqn:E; [apply isMainFolder_spec in E; contradiction|].
    unfold isMainFolder in E. rewrite E, andb_false_r. reflexivity.
Qed.

(** For a well-formed reaction file: it is delivered exactly when the
    source workspace is [main] or the target chat is registered, whoever
    owns it. *)
Lemma ipc_reaction_applied_iff_main_or_registered registeredChats W chat message emoji :
  message <> 0 -> truthy (Some emoji) = true ->
  let data := {| ipc_type := "reaction"; ipc_chatId := Some chat;
                 ipc_topicId := None; ipc_text := None;
                 ipc_messageId := Some message; ipc_emoji := Some emoji |} in
  (W = MAIN_FOLDER \/ is_Some (registeredChats !! chat) ->
   processIpcMessage ASSISTANT_NAME registeredChats W data
   = Applied (SendReaction chat message emoji))
  /\ (W <> MAIN_FOLDER -> registeredChats !! chat = None ->
      processIpcMessage ASSISTANT_NAME registeredChats W data = Blocked).
Proof.
  intros Hm He data. destruct emoji as [|e0 emoji']; [discriminate He|].
  unfold processIpcMessage. simpl.
  assert ((message =? 0) = false) as -> by (apply Z.eqb_neq; exact Hm).
  simpl. unfold SessionManager.getRegisteredChat. split.
  - intros [HW|Hr].
    + apply isMainFolder_spec in HW. rewrite HW. reflexivity.
    + rewrite (bool_decide_eq_true_2 _ Hr), orb_true_r. reflexivity.
  - intros HW Hn.
    destruct (isMainFolder W) eqn:E; [apply isMainFolder_spec in E; contradiction|].
    rewrite Hn. reflexivity.
Qed.

End MailboxFacts.

(** C1 at two mailbox files of the worker of workspace [family-chat],
    which owns the registered chat 100 and not the registered chat 200:
    its message to its own chat is blocked, and its reaction in the other
    chat is delivered. *)
Lemma mailbox_ignores_chat_ownership :
  Index.ownsChat two_chats two_chats_db "family-chat" 100
  /\ Index.processIpcMessage "Nanomi" two_chats "family-chat" own_chat_message
     = Index.Blocked
  /\ "family-chat" <> Config.MAIN_FOLDER
  /\ ~ Index.ownsChat two_chats two_chats_db "family-chat" 200
  /\ Index.processIpcMessage "Nanomi" two_chats "family-chat" foreign_chat_reaction
     = Index.Applied (Worker.SendReaction 200 55 "+1").
Proof.
  split.
  { split; [eexists; reflexivity|].
    eexists. split; [left; reflexivity|]. split; reflexivity. }
  split; [reflexivity|].
  split; [discriminate|].
  split; [|reflexivity].
  intros [_ (row & Hin & Hf & Hc)].
  destruct Hin as [<-|[<-|[]]]; simpl in *; discriminate.
Qed.

(** ** The session router (session-manager.ts) *)
Section RouterFacts.
Import Text Config Db Types SessionManager Props.

Lemma find_app_Some {A} (f : A -> bool) l1 l2 x :
  List.find f l1 = Some x -> List.find f (l1 ++ l2) = Some x.
Proof.
  induction l1 as [|a r IH]; simpl; [discriminate|].
  destruct (f a); [trivial | exact IH].
Qed.

Lemma find_app_None {A} (f : A -> bool) l1 l2 :
  List.find f l1 = None -> List.find f (l1 ++ l2) = List.find f l2.
Proof.
  induction l1 as [|a r IH]; simpl; [reflexivity|].
  destruct (f a); [discriminate | exact IH].
Qed.

Lemma string_length_append a b :
  String.length (a +:+ b) = (String.length a + String.length b)%nat.
Proof. induction a as [|c a IH]; simpl; [reflexivity | rewrite IH; reflexivity]. Qed.

Lemma append_cancel a b c : a +:+ b = a +:+ c -> b = c.
Proof. induction a as [|x a IH]; simpl; intros H; [exact H | injection H; auto]. Qed.

Lemma candidate_inj baseName i j :
  candidate baseName i = candidate baseName j -> i = j.
Proof.
  destruct i as [|i], j as [|j]; simpl; unfold numbered; intros H.
  - reflexivity.
  - apply (f_equal String.length) in H.
    rewrite !string_length_append in H. simpl in H. lia.
  - apply (f_equal String.length) in H.
    rewrite !string_length_append in H. simpl in H. lia.
  - apply append_cancel, append_cancel in H.
    apply (inj pretty) in H. exact H.
Qed.

Lemma candidates_NoDup baseName n :
  List.NoDup (map (candidate baseName) (seq 0 n)).
Proof.
  apply List.NoDup_map_NoDup_ForallPairs; [|apply List.seq_NoDup].
  intros i j _ _. apply candidate_inj.
Qed.

Lemma taken_in_folders db folder row :
  getTopicByFolder db folder = Some row ->
  In folder (map topic_folder (topics db)).
Proof.
  unfold getTopicByFolder. intros H. apply List.find_some in H as [Hin Heq].
  apply String.eqb_eq in Heq. subst folder. apply in_map. exact Hin.
Qed.

(** Among one more candidate than there are topics, one is free. *)
Lemma some_candidate_free db baseName :
  exists j, (j < S (List.length (topics db)))%nat
            /\ getTopicByFolder db (candidate baseName j) = None.
Proof.
  set (n := S (List.length (topics db))).
  assert (Hdec : forall l : list nat,
             (exists j, In j l /\ getTopicByFolder db (candidate baseName j) = None)
             \/ (forall j, In j l -> getTopicByFolder db (candidate baseName j) <> None)).
  { induction l as [|a l IH].
    - right. intros j [].
    - destruct (getTopicByFolder db (candidate baseName a)) eqn:E.
      + destruct IH as [(j & Hj & Hf)|Hall].
        * left. exists j. split; [right; exact Hj | exact Hf].
        * right. intros j [<-|Hj]; [congruence | apply Hall, Hj].
      + left. exists a. split; [left; reflexivity | exact E]. }
  destruct (Hdec (seq 0 n)) as [(j & Hj & Hf)|Hall].
  - exists j. apply in_seq in Hj. split; [lia | exact Hf].
  - exfalso.
    assert (Hincl : incl (map (candidate baseName) (seq 0 n))
                         (map topic_folder (topics db))).
    { intros c Hc. apply in_map_iff in Hc as (j & <- & Hj).
      specialize (Hall j Hj).
      destruct (getTopicByFolder db (candidate baseName j)) as [row|] eqn:E;
        [|congruence].
      eapply taken_in_folders, E. }
    apply List.NoDup_incl_length in Hincl; [|apply candidates_NoDup].
    rewrite !length_map, length_seq in Hincl. subst n. lia.
Qed.

(** The loop stops at the first free candidate within its fuel. *)
Lemma free_folder_finds db baseName fuel k :
  (exists j, (k <= j < k + fuel)%nat
             /\ getTopicByFolder db (candidate baseName j) = None) ->
  exists folder, free_folder db baseName fuel (candidate baseName k) (S k) = Some folder
                 /\ getTopicByFolder db folder = None.
Proof.
  revert k. induction fuel as [|fuel IH]; intros k (j & Hj & Hf); [lia|].
  simpl. destruct (getTopicByFolder db (candidate baseName k)) eqn:E.
  - apply (IH (S k)). exists j. split; [|exact Hf].
    assert (j <> k) by (intros ->; congruence). lia.
  - exists (candidate baseName k). split; [reflexivity | exact E].
Qed.

(** [generateFolderName] always returns, and returns a folder no topic
    owns. *)
Lemma generateFolderName_total db chatTitle topicName key :
  exists folder, generateFolderName db chatTitle topicName key = Some folder
                 /\ getTopicByFolder db folder = None.
Proof.
  unfold generateFolderName.
  apply (free_folder_finds db (baseNameOf chatTitle topicName key) _ 0).
  destruct (some_candidate_free db (baseNameOf chatTitle topicName key)) as (j & Hj & Hf).
  exists j. split; [lia | exact Hf].
Qed.

Lemma upsert_new_row now chat topic name folder mode rows :
  List.find (topic_has_key chat topic) rows = None ->
  upsert_topic_rows now chat topic name folder mode rows
  = rows ++ [ {| topic_chat_id := chat; topic_topic_id := topic;
                 topic_name := name; topic_folder := folder;
                 topic_trigger_mode := mode;
                 topic_last_message_time := Some now |} ].
Proof.
  induction rows as [|r rest IH]; simpl; [reflexivity|].
  destruct (topic_has_key chat topic r); [discriminate|].
  intros H. rewrite (IH H). reflexivity.
Qed.

Lemma topic_has_key_spec chat topic r :
  topic_has_key chat topic r = true <-> topic_key r = (chat, topic).
Proof.
  unfold topic_has_key, topic_key. rewrite andb_true_iff, !Z.eqb_eq.
  split; [intros [-> ->]; reflexivity | intros H; injection H; auto].
Qed.

(** The two outcomes of [getSessionFolder]. *)
Lemma getSessionFolder_cases now db key chatTitle topicName :
  (exists row, getTopic db (chatId key) (topicId key) = Some row
               /\ getSessionFolder now db key chatTitle topicName
                  = Some (db, topic_folder row))
  \/ (getTopic db (chatId key) (topicId key) = None
      /\ exists folder,
          getTopicByFolder db folder = None
          /\ generateFolderName db chatTitle topicName key = Some folder
          /\ getSessionFolder now db key chatTitle topicName
             = Some (with_topics db
                       (topics db ++
                        [ {| topic_chat_id := chatId key; topic_topic_id := topicId key;
                             topic_name := topicName; topic_folder := folder;
                             topic_trigger_mode := "mention";
                             topic_last_message_time := Some now |} ]),
                     folder)).
Proof.
  unfold getSessionFolder.
  destruct (getTopic db (chatId key) (topicId key)) as [row|] eqn:E.
  - left. exists row. split; reflexivity.
  - right. split; [reflexivity|].
    destruct (generateFolderName_total db chatTitle topicName key) as (folder & Hg & Hf).
    exists folder. rewrite Hg. split; [exact Hf|]. split; [reflexivity|].
    unfold upsertTopic. rewrite upsert_new_row; [reflexivity | exact E].
Qed.

Lemma NoDup_map_inj_on {A B} (g : A -> B) l a b :
  List.NoDup (map g l) -> In a l -> In b l -> g a = g b -> a = b.
Proof.
  induction l as [|x r IH]; simpl; [intros _ []|].
  intros Hnd Ha Hb Hg. apply List.NoDup_cons_iff in Hnd as [Hx Hr].
  destruct Ha as [->|Ha], Hb as [->|Hb].
  - reflexivity.
  - exfalso. apply Hx. rewrite Hg. apply in_map, Hb.
  - exfalso. apply Hx. rewrite <- Hg. apply in_map, Ha.
  - apply IH; assumption.
Qed.

(** With unique folders, the folder of a topic leads back to that topic. *)
Lemma folder_leads_back db row :
  folders_unique db -> In row (topics db) ->
  getTopicByFolder db (topic_folder row) = Some row.
Proof.
  intros Hu Hin. unfold getTopicByFolder.
  destruct (List.find (fun r => String.eqb (topic_folder r) (topic_folder row)) (topics db))
    as [r|] eqn:E.
  - apply List.find_some in E as [Hr Heq]. apply String.eqb_eq in Heq.
    f_equal. eapply NoDup_map_inj_on; eauto.
  - eapply List.find_none in E; [|exact Hin].
    rewrite String.eqb_refl in E. discriminate.
Qed.

Lemma getSessionFolder_step now db key chatTitle topicName :
  folders_unique db -> keys_unique db ->
  exists db1 folder row,
    getSessionFolder now db key chatTitle topicName = Some (db1, folder)
    /\ folders_unique db1 /\ keys_unique db1
    /\ getTopic db1 (chatId key) (topicId key) = Some row
    /\ topic_folder row = folder
    /\ (forall chat topic r, getTopic db chat topic = Some r ->
                              getTopic db1 chat topic = Some r).
Proof.
  intros Hf Hk.
  destruct (getSessionFolder_cases now db key chatTitle topicName)
    as [(row & Hrow & Hres)|(Hnone & folder & Hfree & _ & Hres)].
  - exists db, (topic_folder row), row. repeat split; auto.
  - eexists _, folder, _. split; [exact Hres|].
    unfold folders_unique, keys_unique, getTopic in *. simpl.
    rewrite !map_app. simpl.
    split; [|split; [|split; [|split]]].
    + apply List.NoDup_app; [exact Hf | repeat constructor; intros [] |].
      intros f Hin [<-|[]].
      apply in_map_iff in Hin as (r & Hr & Hin).
      unfold getTopicByFolder in Hfree.
      eapply List.find_none in Hfree; [|exact Hin].
      rewrite Hr, String.eqb_refl in Hfree. discriminate.
    + apply List.NoDup_app; [exact Hk | repeat constructor; intros [] |].
      intros k Hin [<-|[]].
      apply in_map_iff in Hin as (r & Hr & Hin).
      eapply List.find_none in Hnone; [|exact Hin].
      change (topic_key r = (chatId key, topicId key)) in Hr.
      apply topic_has_key_spec in Hr. congruence.
    + rewrite (find_app_None _ _ _ Hnone). simpl.
      unfold topic_has_key. simpl. rewrite !Z.eqb_refl. reflexivity.
    + reflexivity.
    + intros chat topic r Hr. apply find_app_Some. exact Hr.
Qed.

Lemma getTopic_In db chat topic row :
  getTopic db chat topic = Some row ->
  In row (topics db) /\ topic_chat_id row = chat /\ topic_topic_id row = topic.
Proof.
  unfold getTopic. intros H. apply List.find_some in H as [Hin Hk].
  apply topic_has_key_spec in Hk. unfold topic_key in Hk.
  injection Hk as -> ->. auto.
Qed.

(** Once a topic has its row, the router keeps answering with its folder
    and leaves the store alone. *)
Lemma getSessionFolder_existing now db key chatTitle topicName row :
  getTopic db (chatId key) (topicId key) = Some row ->
  getSessionFolder now db key chatTitle topicName = Some (db, topic_folder row).
Proof. unfold getSessionFolder. intros ->. reflexivity. Qed.

End RouterFacts.

Section RouterTheorems.
Import Text Config Db Types SessionManager Telegram Worker Mounts Index Props.

Lemma observe_all_spec (obs : list Observation) : forall db,
  folders_unique db -> keys_unique db ->
  exists db' assigned,
    observe_all db obs = Some (db', assigned)
    /\ map fst assigned = map ob_key obs
    /\ folders_unique db' /\ keys_unique db'
    /\ (forall chat topic r, getTopic db chat topic = Some r ->
                             getTopic db' chat topic = Some r)
    /\ (forall key folder, In (key, folder) assigned ->
          exists row, getTopic db' (chatId key) (topicId key) = Some row
                      /\ topic_folder row = folder).
Proof.
  induction obs as [|o rest IH]; intros db Hf Hk.
  - exists db, []. simpl. repeat split; auto. intros ? ? [].
  - destruct (getSessionFolder_step (ob_now o) db (ob_key o) (ob_chatTitle o)
                (ob_topicName o) Hf Hk)
      as (db1 & folder & row & Hres & Hf1 & Hk1 & Hrow & Hfolder & Hpres).
    destruct (IH db1 Hf1 Hk1) as (db2 & assigned & Hrest & Hmap & Hf2 & Hk2 & Hpres2 & Hall).
    exists db2, ((ob_key o, folder) :: assigned). simpl.
    rewrite Hres, Hrest. repeat split; auto.
    + rewrite Hmap. reflexivity.
    + intros key f [Heq|Hin]; [|apply Hall, Hin].
      injection Heq as <- <-. exists row. split; [apply Hpres2, Hrow | exact Hfolder].
Qed.

(** C8: whatever (chat, topic) pairs the router has seen, the folder it
    returned for a pair leads back, through [getTopicByFolder], to the
    topic row of exactly that pair; the folders stay unique, and the
    router keeps returning the same folder for the pair without touching
    the store. *)
Theorem router_folder_leads_back (db : Database) (obs : list Observation) :
  folders_unique db -> keys_unique db ->
  exists db' assigned,
    observe_all db obs = Some (db', assigned)
    /\ map fst assigned = map ob_key obs
    /\ folders_unique db' /\ keys_unique db'
    /\ (forall key folder, In (key, folder) assigned ->
          exists row, getTopicByFolder db' folder = Some row
                      /\ topic_chat_id row = chatId key
                      /\ topic_topic_id row = topicId key
                      /\ forall now chatTitle topicName,
                           getSessionFolder now db' key chatTitle topicName
                           = Some (db', folder))
    /\ (forall row, In row (topics db') ->
          getTopicByFolder db' (topic_folder row) = Some row).
Proof.
  intros Hf Hk.
  destruct (observe_all_spec obs db Hf Hk)
    as (db' & assigned & Hres & Hmap & Hf' & Hk' & _ & Hall).
  exists db', assigned. repeat split; auto.
  - intros key folder Hin. destruct (Hall key folder Hin) as (row & Hrow & <-).
    destruct (getTopic_In _ _ _ _ Hrow) as (Hin' & Hc & Ht).
    exists row. repeat split; auto.
    + apply folder_leads_back; assumption.
    + intros. apply getSessionFolder_existing, Hrow.
  - intros row Hin. apply folder_leads_back; assumption.
Qed.

Lemma checkTrigger_main assistant txt trigger :
  checkTrigger assistant txt trigger MAIN_FOLDER = true.
Proof. reflexivity. Qed.

End RouterTheorems.

Lemma router_folder_leads_back_witness :
  exists db' assigned,
    observe_all Db.empty_db
      [ {| ob_now := 1; ob_key := {| Types.chatId := 100; Types.topicId := 0 |};
           ob_chatTitle := "Dev Team"; ob_topicName := "General" |};
        {| ob_now := 2; ob_key := {| Types.chatId := 200; Types.topicId := 0 |};
           ob_chatTitle := "dev team"; ob_topicName := "General" |};
        {| ob_now := 3; ob_key := {| Types.chatId := 100; Types.topicId := 0 |};
           ob_chatTitle := "Renamed"; ob_topicName := "General" |} ]
    = Some (db', assigned)
    /\ assigned = [ ({| Types.chatId := 100; Types.topicId := 0 |}, "dev-team");
                    ({| Types.chatId := 200; Types.topicId := 0 |}, "dev-team-1");
                    ({| Types.chatId := 100; Types.topicId := 0 |}, "dev-team") ]
    /\ folders_unique db'.
Proof.
  destruct (router_folder_leads_back Db.empty_db
      [ {| ob_now := 1; ob_key := {| Types.chatId := 100; Types.topicId := 0 |};
           ob_chatTitle := "Dev Team"; ob_topicName := "General" |};
        {| ob_now := 2; ob_key := {| Types.chatId := 200; Types.topicId := 0 |};
           ob_chatTitle := "dev team"; ob_topicName := "General" |};
        {| ob_now := 3; ob_key := {| Types.chatId := 100; Types.topicId := 0 |};
           ob_chatTitle := "Renamed"; ob_topicName := "General" |} ])
    as (db' & assigned & Hres & _ & Hf & _).
  - constructor.
  - constructor.
  - exists db', assigned. split; [exact Hres|]. split; [|exact Hf].
    vm_compute in Hres. injection Hres as _ <-. reflexivity.
Defined.

(** ** The folder [main] (session-manager.ts, telegram-client.ts, index.ts,
    container-pool.ts) *)
Section MainFolderFacts.
Import Text Config Db Types SessionManager Telegram Worker Mounts Index Inbound Props Notions.
Variable ASSISTANT_NAME : string.

Lemma truthy_nonempty (x : string) : x <> EmptyString -> truthy (Some x) = true.
Proof. destruct x; [contradiction | reflexivity]. Qed.

Lemma getTopic_after_stamp now chat topic db :
  getTopic (updateTopicTimestamp now chat topic db) chat topic
  = option_map (fun r => {| topic_chat_id := topic_chat_id r;
                            topic_topic_id := topic_topic_id r;
                            topic_name := topic_name r;
                            topic_folder := topic_folder r;
                            topic_trigger_mode := topic_trigger_mode r;
                            topic_last_message_time := Some now |})
      (getTopic db chat topic).
Proof.
  unfold getTopic, updateTopicTimestamp. simpl.
  induction (topics db) as [|r rest IH]; simpl; [reflexivity|].
  destruct (topic_has_key chat topic r) eqn:E; simpl.
  - unfold topic_has_key in *. simpl. rewrite E. reflexivity.
  - rewrite E. exact IH.
Qed.

(** Storing a message keeps the folder a topic is bound to. *)
Lemma bound_to_storeMessage now id chat topic senderId senderName content type isBot
    reply emoji action target session db folder :
  bound_to db chat topic folder ->
  bound_to (storeMessage now id chat topic senderId senderName content type isBot
              reply emoji action target session db) chat topic folder.
Proof.
  intros (row & Hrow & Hfolder). unfold bound_to, storeMessage.
  rewrite getTopic_after_stamp.
  change (getTopic (with_messages db _) chat topic) with (getTopic db chat topic).
  rewrite Hrow. simpl. eexists. split; [reflexivity | exact Hfolder].
Qed.

(** The first sighting of a chat whose title slugifies to ['main'], while
    no topic owns that folder. *)
Lemma getSessionFolder_main now db key chatTitle topicName :
  topicId key = 0 ->
  slugify chatTitle = MAIN_FOLDER ->
  getTopic db (chatId key) (topicId key) = None ->
  getTopicByFolder db MAIN_FOLDER = None ->
  getSessionFolder now db key chatTitle topicName
  = Some (upsertTopic now (chatId key) (topicId key) topicName MAIN_FOLDER db,
          MAIN_FOLDER)
  /\ bound_to (upsertTopic now (chatId key) (topicId key) topicName MAIN_FOLDER db)
       (chatId key) (topicId key) MAIN_FOLDER.
Proof.
  intros Ht Hslug Hnone Hfree.
  assert (Hgen : generateFolderName db chatTitle topicName key = Some MAIN_FOLDER).
  { unfold generateFolderName, baseNameOf. rewrite Ht, Hslug. simpl.
    rewrite Hfree. reflexivity. }
  split.
  - unfold getSessionFolder. rewrite Hnone, Hgen. reflexivity.
  - unfold bound_to, upsertTopic.
    rewrite (upsert_new_row _ _ _ _ _ _ _ Hnone).
    unfold getTopic in *. simpl. rewrite (find_app_None _ _ _ Hnone). simpl.
    unfold topic_has_key. simpl. rewrite !Z.eqb_refl.
    eexists. split; reflexivity.
Qed.

(** What [handleMessage] does for a registered chat: one job for the
    pool, and the answer to it decides the rest. *)
Lemma handleMessage_job toISOString pool now registeredChats db st key folder
    content senderName messageId replyToMessageId registeredChat :
  registeredChats !! chatId key = Some registeredChat ->
  handleMessage ASSISTANT_NAME toISOString pool now registeredChats db st key folder
    content senderName messageId replyToMessageId
  = match
      pool {| ci_prompt :=
                buildPrompt toISOString
                  (getMessagesSince db (chatId key) (topicId key)
                     (lastAgentTimestamp st !! folder) ASSISTANT_NAME);
              ci_sessionId := sessions st !! folder;
              ci_folder := folder;
              ci_sessionKey := sessionKeyToString key;
              ci_isMain := isMainFolder folder;
              ci_isScheduledTask := false;
              ci_chatType := Some (rc_chatType registeredChat) |}
    with
    | Resolved output =>
        let st' :=
          if truthy (co_newSessionId output)
          then {| sessions := <[folder := default EmptyString
                                            (co_newSessionId output)]>
                                (sessions st);
                  lastAgentTimestamp := lastAgentTimestamp st |}
          else st in
        if (negb (String.eqb (co_status output) "error")
            && truthy (co_result output))%bool
        then ({| sessions := sessions st';
                 lastAgentTimestamp := <[folder := now]> (lastAgentTimestamp st') |},
              [SendText (chatId key) (topicId key)
                 (ASSISTANT_NAME +:+ ": " +:+ default EmptyString (co_result output))
                 (if messageId =? 0 then None else Some messageId)])
        else (st', [])
    | Thrown _ => (st, [])
    end.
Proof.
  intros Hreg.
  unfold handleMessage, SessionManager.getRegisteredChat. rewrite Hreg.
  cbv zeta. unfold runAgent, agentInput.
  destruct (pool _) as [output|message]; [|reflexivity].
  destruct (String.eqb (co_status output) "error"); simpl; [reflexivity|].
  destruct (truthy (co_result output)); reflexivity.
Qed.

(** C10, amended: the first text message that a registered chat whose
    title slugifies to ['main'] sends outside any topic, while the chat
    has no topic row yet and no topic owns the folder ['main'], makes the
    router bind the chat to the folder ['main']. That message and, as
    long as the binding is in the table, every later text of the chat
    outside any topic is buffered for dispatch whatever its text and the
    trigger of the chat (a handler being set); the flush of a buffer that
    held nothing else hands the folder ['main'] to [handleMessage], which
    gives the pool a job marked [isMain] for the folder ['main']; and the
    container launched for that job binds the project root, writable, at
    [/workspace/project]. *)
Theorem main_folder_not_reserved nowTopic nowStored registeredChats registeredChat
    m db d txt :
  tu_text m = Some txt -> txt <> EmptyString ->
  or_zero (tu_message_thread_id m) = 0 ->
  registeredChats !! tu_chat_id m = Some registeredChat ->
  slugify (chatTitleOf (tu_chat_title m) (tu_chat_id m)) = MAIN_FOLDER ->
  getTopic db (tu_chat_id m) 0 = None ->
  getTopicByFolder db MAIN_FOLDER = None ->
  let chat := tu_chat_id m in
  let key := {| chatId := chat; topicId := 0 |} in
  let buffered :=
    {| bm_sessionKey := key; bm_folder := MAIN_FOLDER;
       bm_content := stripTrigger ASSISTANT_NAME txt (rc_defaultTrigger registeredChat);
       bm_senderName := senderNameOf (tu_from m);
       bm_messageId := tu_message_id m;
       bm_replyToMessageId := tu_reply_to_message_id m;
       bm_timestamp := tu_date m * 1000 |} in
  exists db1 db',
    getSessionFolder nowTopic db key (chatTitleOf (tu_chat_title m) chat)
      (getTopicName m) = Some (db1, MAIN_FOLDER)
    /\ handleTextMessage ASSISTANT_NAME nowTopic nowStored true registeredChats m db d
       = Some (db', bufferMessage buffered d)
    /\ bound_to db' chat 0 MAIN_FOLDER
    /\ (forall db2, bound_to db2 chat 0 MAIN_FOLDER ->
        forall nowTopic2 nowStored2 registeredChats2 registeredChat2 m2 d2 txt2,
          tu_text m2 = Some txt2 -> txt2 <> EmptyString ->
          tu_chat_id m2 = chat -> or_zero (tu_message_thread_id m2) = 0 ->
          registeredChats2 !! chat = Some registeredChat2 ->
          exists db3,
            handleTextMessage ASSISTANT_NAME nowTopic2 nowStored2 true registeredChats2
              m2 db2 d2
            = Some (db3,
                    bufferMessage
                      {| bm_sessionKey := key; bm_folder := MAIN_FOLDER;
                         bm_content := stripTrigger ASSISTANT_NAME txt2
                                         (rc_defaultTrigger registeredChat2);
                         bm_senderName := senderNameOf (tu_from m2);
                         bm_messageId := tu_message_id m2;
                         bm_replyToMessageId := tu_reply_to_message_id m2;
                         bm_timestamp := tu_date m2 * 1000 |} d2)
            /\ bound_to db3 chat 0 MAIN_FOLDER)
    /\ (messageBuffers d !! getBufferKey key = None ->
        exists d' call,
          flushMessageBuffer true (getBufferKey key) (bufferMessage buffered d)
          = (d', Some call)
          /\ hc_sessionKey call = key /\ hc_folder call = MAIN_FOLDER
          /\ hc_content call = bm_content buffered)
    /\ (forall toISOString pool now registeredChats2 registeredChat2 db2 st
               content senderName messageId replyToMessageId,
          registeredChats2 !! chat = Some registeredChat2 ->
          let job :=
            {| ci_prompt :=
                 buildPrompt toISOString
                   (getMessagesSince db2 chat 0
                      (lastAgentTimestamp st !! MAIN_FOLDER) ASSISTANT_NAME);
               ci_sessionId := sessions st !! MAIN_FOLDER;
               ci_folder := MAIN_FOLDER;
               ci_sessionKey := sessionKeyToString key;
               ci_isMain := true;
               ci_isScheduledTask := false;
               ci_chatType := Some (rc_chatType registeredChat2) |} in
          handleMessage ASSISTANT_NAME toISOString pool now registeredChats2 db2 st
            key MAIN_FOLDER content senderName messageId replyToMessageId
          = match pool job with
            | Resolved output =>
                let st' :=
                  if truthy (co_newSessionId output)
                  then {| sessions := <[MAIN_FOLDER := default EmptyString
                                                         (co_newSessionId output)]>
                                        (sessions st);
                          lastAgentTimestamp := lastAgentTimestamp st |}
                  else st in
                if (negb (String.eqb (co_status output) "error")
                    && truthy (co_result output))%bool
                then ({| sessions := sessions st';
                         lastAgentTimestamp :=
                           <[MAIN_FOLDER := now]> (lastAgentTimestamp st') |},
                      [SendText chat 0
                         (ASSISTANT_NAME +:+ ": "
                          +:+ default EmptyString (co_result output))
                         (if messageId =? 0 then None else Some messageId)])
                else (st', [])
            | Thrown _ => (st, [])
            end
          /\ forall root image warmTimeout hostfs validate warm,
               In {| hostPath := root; containerPath := "/workspace/project";
                     readonly := false |}
                  (buildVolumeMounts root hostfs validate
                     {| gc_folder := ci_folder job;
                        gc_name := rc_chatTitle registeredChat2;
                        gc_containerConfig := rc_containerConfig registeredChat2;
                        gc_chatType := ci_chatType job |}
                     (ci_isMain job))
               /\ exists rest,
                    launchArgs root image warmTimeout hostfs validate warm
                      (ci_folder job) (rc_chatTitle registeredChat2) job
                      (rc_containerConfig registeredChat2)
                    = ["run"; "-i"; "--rm"; "-v"; root +:+ ":/workspace/project"]
                      ++ rest).
Proof.
  intros Htext Hne Hthread Hreg Hslug Hnone Hfree chat key buffered.
  destruct (getSessionFolder_main nowTopic db key (chatTitleOf (tu_chat_title m) chat)
              (getTopicName m) eq_refl Hslug Hnone Hfree) as [Hres Hbound].
  eexists _, _. split; [exact Hres|].
  split.
  { unfold handleTextMessage.
    rewrite Htext, (truthy_nonempty _ Hne). cbn [negb default from_option id].
    unfold isChatRegistered, SessionManager.getRegisteredChat.
    rewrite Hreg. rewrite bool_decide_eq_true_2 by eauto. cbn [negb].
    rewrite Hthread. fold chat. fold key. rewrite Hres.
    change (checkTrigger ASSISTANT_NAME txt (rc_defaultTrigger registeredChat) MAIN_FOLDER)
      with true.
    cbn [andb]. reflexivity. }
  split; [apply bound_to_storeMessage; exact Hbound|].
  split.
  { intros db2 (row & Hrow & Hfolder) nowTopic2 nowStored2 registeredChats2
      registeredChat2 m2 d2 txt2 Htext2 Hne2 Hchat2 Hthread2 Hreg2.
    eexists. split.
    - unfold handleTextMessage.
      rewrite Htext2, (truthy_nonempty _ Hne2). cbn [negb default from_option id].
      unfold isChatRegistered, SessionManager.getRegisteredChat.
      rewrite Hchat2, Hreg2. rewrite bool_decide_eq_true_2 by eauto. cbn [negb].
      rewrite Hthread2.
      rewrite (getSessionFolder_existing _ _ {| chatId := chat; topicId := 0 |} _ _ row Hrow).
      rewrite Hfolder.
      change (checkTrigger ASSISTANT_NAME txt2 (rc_defaultTrigger registeredChat2)
                MAIN_FOLDER) with true.
      cbn [andb]. reflexivity.
    - apply bound_to_storeMessage. exists row. split; assumption. }
  split.
  { intros Hempty. unfold flushMessageBuffer, bufferMessage.
    cbn [messageBuffers bm_sessionKey buffered].
    rewrite lookup_insert_eq, Hempty. simpl.
    eexists _, _. split; [reflexivity|]. simpl. repeat split; reflexivity. }
  intros toISOString pool now registeredChats2 registeredChat2 db2 st content
    senderName messageId replyToMessageId Hreg2 job.
  split.
  { rewrite (handleMessage_job toISOString pool now registeredChats2 db2 st key
               MAIN_FOLDER content senderName messageId replyToMessageId
               registeredChat2 Hreg2).
    reflexivity. }
  intros root image warmTimeout hostfs validate warm. split.
  - simpl. unfold buildVolumeMounts. simpl. left. reflexivity.
  - unfold launchArgs, warmContainerArgs, coldContainerArgs, buildContainerArgs.
    destruct warm; simpl; eexists; reflexivity.
Qed.

End MainFolderFacts.

Lemma main_folder_not_reserved_witness :
  let key := {| Types.chatId := 555; Types.topicId := 0 |} in
  let buffered :=
    {| Telegram.bm_sessionKey := key; Telegram.bm_folder := "main";
       Telegram.bm_content := "good morning"; Telegram.bm_senderName := "Ann";
       Telegram.bm_messageId := 51; Telegram.bm_replyToMessageId := None;
       Telegram.bm_timestamp := 1700000100000 |} in
  let bare := {| Mounts.existsSync := fun _ => false;
                 Mounts.envFileContent := EmptyString |} in
  Telegram.checkTrigger "Nanomi" "good morning"
    (Types.rc_defaultTrigger (group_chat 555 "Main")) "family-chat" = false
  /\ exists db1 db' d' call db3 rest,
       SessionManager.getSessionFolder 30 two_chats_db key "Main" "General"
       = Some (db1, "main")
       /\ Inbound.handleTextMessage "Nanomi" 30 31 true Notions.three_chats
            (Notions.good_morning 555 "Main") two_chats_db Notions.no_buffers
          = Some (db', Telegram.bufferMessage buffered Notions.no_buffers)
       /\ Notions.bound_to db' 555 0 "main"
       /\ Inbound.handleTextMessage "Nanomi" 40 41 true Notions.three_chats
            (Notions.good_morning 555 "Renamed") db' Notions.no_buffers
          = Some (db3, Telegram.bufferMessage buffered Notions.no_buffers)
       /\ Telegram.flushMessageBuffer true "555_0"
            (Telegram.bufferMessage buffered Notions.no_buffers) = (d', Some call)
       /\ Telegram.hc_sessionKey call = key
       /\ Telegram.hc_folder call = "main"
       /\ Telegram.hc_content call = "good morning"
       /\ snd (Index.handleMessage "Nanomi" (fun t => pretty t) Notions.echo_pool 9000
                 Notions.three_chats db' fresh_router (Telegram.hc_sessionKey call)
                 (Telegram.hc_folder call) (Telegram.hc_content call)
                 (Telegram.hc_senderName call) (Telegram.hc_messageId call)
                 (Telegram.hc_replyToMessageId call))
          = [Worker.SendText 555 0
               ("Nanomi: "
                +:+ Index.buildPrompt (fun t => pretty t)
                      (Db.getMessagesSince db' 555 0 None "Nanomi"))
               (Some 51)]
       /\ Mounts.launchArgs "/srv/nanoclaw" "nanoclaw-agent:latest" 1800000 bare
            (fun _ _ _ => []) true "main" "Main"
            {| Worker.ci_prompt :=
                 Index.buildPrompt (fun t => pretty t)
                   (Db.getMessagesSince db' 555 0 None "Nanomi");
               Worker.ci_sessionId := None; Worker.ci_folder := "main";
               Worker.ci_sessionKey := "555_0"; Worker.ci_isMain := true;
               Worker.ci_isScheduledTask := false;
               Worker.ci_chatType := Some "group" |} None
          = ["run"; "-i"; "--rm"; "-v"; "/srv/nanoclaw:/workspace/project"] ++ rest.
Proof.
  intros key buffered bare. split; [reflexivity|].
  destruct (main_folder_not_reserved "Nanomi" 30 31 Notions.three_chats
              (group_chat 555 "Main") (Notions.good_morning 555 "Main") two_chats_db
              Notions.no_buffers "good morning")
    as (db1 & db' & Hfolder & Hmsg & Hbound & Hlater & Hflush & Hjob).
  - reflexivity.
  - discriminate.
  - reflexivity.
  - reflexivity.
  - reflexivity.
  - reflexivity.
  - reflexivity.
  - destruct (Hflush eq_refl) as (d' & call & Hcall & Hkey & Hf & Hc).
    destruct (Hlater db' Hbound 40 41 Notions.three_chats (group_chat 555 "Main")
                (Notions.good_morning 555 "Renamed") Notions.no_buffers
                "good morning" eq_refl ltac:(discriminate) eq_refl eq_refl eq_refl)
      as (db3 & Hmsg3 & _).
    destruct (Hjob (fun t => pretty t) Notions.echo_pool 9000 Notions.three_chats
                (group_chat 555 "Main") db' fresh_router "good morning"
                (Telegram.hc_senderName call) (Telegram.hc_messageId call)
                (Telegram.hc_replyToMessageId call) eq_refl) as [Hrun Hlaunch].
    destruct (Hlaunch "/srv/nanoclaw" "nanoclaw-agent:latest" 1800000 bare
                (fun _ _ _ => []) true) as [_ [rest Hargs]].
    exists db1, db', d', call, db3, rest.
    split; [exact Hfolder|]. split; [exact Hmsg|]. split; [exact Hbound|].
    split; [exact Hmsg3|].
    split; [exact Hcall|]. split; [exact Hkey|]. split; [exact Hf|].
    split; [exact Hc|].
    split; [|exact Hargs].
    clear Hkey Hf Hc Hlaunch Hargs.
    vm_compute in Hcall. injection Hcall as _ <-.
    exact (eq_trans (f_equal snd Hrun) eq_refl).
Defined.

(** C10, as stated, fails: the chat 100 is known to the router under the
    folder ['family-chat'] when its title becomes ['Main']. The title
    slugifies to ['main'], the message has no topic and no topic owns the
    folder ['main'], yet the router returns ['family-chat'] and writes
    nothing, and a text without mention does not pass the trigger check:
    it is stored and not buffered. *)
Lemma known_chat_renamed_main_keeps_its_folder :
  let key := {| Types.chatId := 100; Types.topicId := 0 |} in
  let m := Notions.good_morning 100 "Main" in
  Config.slugify (Inbound.chatTitleOf (Inbound.tu_chat_title m) 100) = Config.MAIN_FOLDER
  /\ Inbound.or_zero (Inbound.tu_message_thread_id m) = 0
  /\ Db.getTopicByFolder two_chats_db Config.MAIN_FOLDER = None
  /\ two_chats !! 100 = Some (group_chat 100 "Family Chat")
  /\ SessionManager.getSessionFolder 30 two_chats_db key "Main" (Inbound.getTopicName m)
     = Some (two_chats_db, "family-chat")
  /\ Telegram.checkTrigger "Nanomi" "good morning"
       (Types.rc_defaultTrigger (group_chat 100 "Family Chat")) "family-chat" = false
  /\ (exists db',
        Inbound.handleTextMessage "Nanomi" 30 31 true two_chats m two_chats_db
          Notions.no_buffers = Some (db', Notions.no_buffers)
        /\ Notions.bound_to db' 100 0 "family-chat"
        /\ Db.getTopicByFolder db' Config.MAIN_FOLDER = None)
  /\ SessionManager.isMainFolder "family-chat" = false.
Proof.
  cbv zeta.
  split; [reflexivity|]. split; [reflexivity|]. split; [reflexivity|].
  split; [reflexivity|]. split; [reflexivity|]. split; [reflexivity|].
  split; [|reflexivity].
  eexists. split; [vm_compute; reflexivity|].
  split; [eexists; split; reflexivity | reflexivity].
Qed.

(** ** Prompt assembly (index.ts, db.ts) *)
Section PromptFacts.
Import Text Config Db Types SessionManager Telegram Worker Index Props.

Ltac ascii_cases c := destruct c as [[] [] [] [] [] [] [] []].

Lemma chars_append a b : chars (a +:+ b) = chars a ++ chars b.
Proof. induction a as [|c a IH]; simpl; [reflexivity | rewrite IH; reflexivity]. Qed.

Lemma like_percent s : like ["%"%char] s = true.
Proof.
  induction s as [|d s IH]; [reflexivity|].
  simpl in IH |- *. exact IH.
Qed.

Lemma like_literal_prefix name s :
  Forall (fun c => Ascii.eqb c "%" = false /\ Ascii.eqb c "_" = false) name ->
  like (name ++ [":"%char; "%"%char]) s = prefix_nocase (name ++ [":"%char]) s.
Proof.
  intros H. revert s. induction H as [|c r [Hp Hu] _ IH]; intros s.
  - destruct s as [|d s']; [reflexivity|].
    change (like ([] ++ [":"%char; "%"%char]) (d :: s'))
      with ((Ascii.eqb (like_fold ":") (like_fold d) && like ["%"%char] s')%bool).
    rewrite like_percent. simpl. destruct s'; reflexivity.
  - destruct s as [|d s']; simpl; rewrite Hp; [reflexivity|].
    rewrite Hu. simpl. rewrite IH. reflexivity.
Qed.

(** Without wildcards in the assistant name, the [LIKE] test of the
    query is a prefix test that ignores the case of ASCII letters. *)
Lemma sql_like_is_prefix_nocase name content :
  no_wildcard name ->
  sql_like content (name +:+ ":%") = prefix_nocase (chars (name +:+ ":")) (chars content).
Proof.
  intros H. unfold sql_like. rewrite !chars_append. apply like_literal_prefix, H.
Qed.

Lemma flat_map_flat_map {A B C} (f : A -> list B) (g : B -> list C) l :
  flat_map g (flat_map f l) = flat_map (fun x => flat_map g (f x)) l.
Proof.
  induction l as [|x r IH]; simpl; [reflexivity|].
  rewrite flat_map_app, IH. reflexivity.
Qed.

(** The four replacements of [escapeXml], done one after the other,
    escape every character once. *)
Lemma escapeXml_chars s : escapeXml s = text (flat_map esc (chars s)).
Proof.
  unfold escapeXml, replace_char. f_equal.
  rewrite !flat_map_flat_map. apply flat_map_ext. intros d.
  ascii_cases d; reflexivity.
Qed.

Lemma since_filter_spec chat topic since botName r :
  since_filter chat topic since botName r = true <->
  msg_chat_id r = chat /\ msg_topic_id r = topic
  /\ match since with Some t => t < msg_timestamp r | None => True end
  /\ msg_type r = "text"
  /\ sql_like (msg_content r) (botName +:+ ":%") = false.
Proof.
  unfold since_filter, after.
  rewrite !andb_true_iff, !Z.eqb_eq, String.eqb_eq, negb_true_iff.
  destruct since as [t|]; [rewrite Z.ltb_lt|]; intuition.
Qed.

(** C5, amended: for a registered chat and a folder whose name is no
    inherited property name of an object, [handleMessage] hands the
    worker pool one job, whose prompt is one [<messages>] element whose
    lines are exactly the stored rows of the (chat, topic) that are of
    type text, later than [lastAgentTimestamp] of the folder and whose
    content does not match [<assistant_name>:%] under [LIKE] (a prefix test
    ignoring ASCII case when the name has no wildcard), once each, in
    ascending timestamp order, sender and content XML-escaped; the job
    carries the session of the folder, and what [handleMessage] does next
    depends on the answer to that job alone. *)
Theorem prompt_holds_messages_since (ASSISTANT_NAME : string)
    (toISOString : instant -> string)
    (registeredChats : gmap Z RegisteredChat) (db : Database) (st : RouterState)
    (key : SessionKey) (folder : string) (registeredChat : RegisteredChat) :
  registeredChats !! chatId key = Some registeredChat ->
  Notions.plain_key folder ->
  exists rows,
    Permutation rows
      (List.filter (since_filter (chatId key) (topicId key)
                      (lastAgentTimestamp st !! folder) ASSISTANT_NAME)
         (messages db))
    /\ ascending msg_timestamp rows
    /\ (forall r, In r rows <->
           In r (messages db)
           /\ msg_chat_id r = chatId key /\ msg_topic_id r = topicId key
           /\ match lastAgentTimestamp st !! folder with
              | Some t => t < msg_timestamp r
              | None => True
              end
           /\ msg_type r = "text"
           /\ sql_like (msg_content r) (ASSISTANT_NAME +:+ ":%") = false)
    /\ (no_wildcard ASSISTANT_NAME ->
        forall content,
          sql_like content (ASSISTANT_NAME +:+ ":%")
          = prefix_nocase (chars (ASSISTANT_NAME +:+ ":")) (chars content))
    /\ forall pool now content senderName messageId replyToMessageId,
         handleMessage ASSISTANT_NAME toISOString pool now registeredChats db st
           key folder content senderName messageId replyToMessageId
         = match
             pool {| ci_prompt :=
                       "<messages>" +:+ nl
                       +:+ join nl
                             (map (fun r =>
                                     "<message sender=" +:+ dq
                                     +:+ text (flat_map esc (chars (msg_sender_name r)))
                                     +:+ dq
                                     +:+ " time=" +:+ dq
                                     +:+ toISOString (msg_timestamp r)
                                     +:+ dq +:+ ">"
                                     +:+ text (flat_map esc (chars (msg_content r)))
                                     +:+ "</message>") rows)
                       +:+ nl +:+ "</messages>";
                     ci_sessionId := sessions st !! folder;
                     ci_folder := folder;
                     ci_sessionKey := sessionKeyToString key;
                     ci_isMain := isMainFolder folder;
                     ci_isScheduledTask := false;
                     ci_chatType := Some (rc_chatType registeredChat) |}
           with
           | Resolved output =>
               let st' :=
                 if truthy (co_newSessionId output)
                 then {| sessions := <[folder := default EmptyString
                                                   (co_newSessionId output)]>
                                       (sessions st);
                         lastAgentTimestamp := lastAgentTimestamp st |}
                 else st in
               if (negb (String.eqb (co_status output) "error")
                   && truthy (co_result output))%bool
               then ({| sessions := sessions st';
                        lastAgentTimestamp :=
                          <[folder := now]> (lastAgentTimestamp st') |},
                     [SendText (chatId key) (topicId key)
                        (ASSISTANT_NAME +:+ ": "
                         +:+ default EmptyString (co_result output))
                        (if messageId =? 0 then None else Some messageId)])
               else (st', [])
           | Thrown _ => (st, [])
           end.
Proof.
  intros Hreg _.
  set (sel := List.filter (since_filter (chatId key) (topicId key)
                             (lastAgentTimestamp st !! folder) ASSISTANT_NAME)
                (messages db)).
  exists (sort_by msg_timestamp sel).
  split; [apply sort_by_perm|].
  split; [apply sort_by_ascending|].
  split.
  { intros r. rewrite <- since_filter_spec. subst sel. rewrite <- filter_In.
    split; intros H.
    - apply (Permutation_in _ (sort_by_perm msg_timestamp _)), H.
    - apply (Permutation_in _ (Permutation_sym (sort_by_perm msg_timestamp _))), H. }
  split; [intros Hn content; apply sql_like_is_prefix_nocase, Hn|].
  intros pool now content senderName messageId replyToMessageId.
  unfold handleMessage, SessionManager.getRegisteredChat. rewrite Hreg.
  cbv zeta.
  assert (Hprompt :
    buildPrompt toISOString
      (getMessagesSince db (chatId key) (topicId key)
         (lastAgentTimestamp st !! folder) ASSISTANT_NAME)
    = "<messages>" +:+ nl
      +:+ join nl
            (map (fun r =>
                    "<message sender=" +:+ dq
                    +:+ text (flat_map esc (chars (msg_sender_name r))) +:+ dq
                    +:+ " time=" +:+ dq +:+ toISOString (msg_timestamp r)
                    +:+ dq +:+ ">"
                    +:+ text (flat_map esc (chars (msg_content r)))
                    +:+ "</message>") (sort_by msg_timestamp sel))
      +:+ nl +:+ "</messages>").
  { unfold buildPrompt, getMessagesSince. fold sel.
    rewrite map_map. do 4 f_equal. apply map_ext. intros r.
    unfold messageLine, to_new_message. simpl.
    rewrite !escapeXml_chars. reflexivity. }
  rewrite Hprompt. unfold runAgent, agentInput.
  destruct (pool _) as [output|message]; [|reflexivity].
  destruct (String.eqb (co_status output) "error"); simpl; [reflexivity|].
  destruct (truthy (co_result output)); reflexivity.
Qed.

End PromptFacts.

Lemma prompt_holds_messages_since_witness :
  let key := {| Types.chatId := 100; Types.topicId := 0 |} in
  exists rows,
    map Db.msg_id rows = ["78"; "79"]
    /\ map Db.msg_content rows = ["Tom & Jerry"; "see <you> later"]
    /\ snd (Index.handleMessage "Nanomi" (fun t => pretty t) Notions.echo_pool 9000
              two_chats Notions.talk_db Notions.answered_router key "family-chat"
              "see <you> later" "Ann" 79 None)
       = [Worker.SendText 100 0
            ("Nanomi: " +:+ "<messages>" +:+ Telegram.nl
             +:+ Text.join Telegram.nl
                   (map (fun r =>
                           "<message sender=" +:+ Index.dq
                           +:+ Text.text (flat_map esc (Text.chars (Db.msg_sender_name r)))
                           +:+ Index.dq
                           +:+ " time=" +:+ Index.dq +:+ pretty (Db.msg_timestamp r)
                           +:+ Index.dq +:+ ">"
                           +:+ Text.text (flat_map esc (Text.chars (Db.msg_content r)))
                           +:+ "</message>") rows)
             +:+ Telegram.nl +:+ "</messages>")
            (Some 79)].
Proof.
  intros key.
  destruct (prompt_holds_messages_since "Nanomi" (fun t => pretty t) two_chats
              Notions.talk_db Notions.answered_router key "family-chat"
              (group_chat 100 "Family Chat"))
    as (rows & Hperm & Hasc & _ & _ & Hjob).
  - reflexivity.
  - unfold Notions.plain_key, Notions.prototype_keys. simpl.
    intros H. repeat (destruct H as [H|H]; [discriminate H|]). exact H.
  - exists rows.
    assert (Hrows : rows = Db.sort_by Db.msg_timestamp
                             (List.filter (Db.since_filter 100 0 (Some 5500) "Nanomi")
                                (Db.messages Notions.talk_db))).
    { apply Permutation_sym, Permutation_length_2_inv in Hperm.
      destruct Hperm as [-> | ->]; [reflexivity|].
      exfalso. inversion Hasc as [|? ? _ Hall]. inversion Hall as [|? ? Hle _].
      simpl in Hle. lia. }
    split; [rewrite Hrows; reflexivity|].
    split; [rewrite Hrows; reflexivity|].
    rewrite Hjob, Hrows. reflexivity.
Defined.

(** C5, as stated, fails: a stored text ["nanomi: remind me at 5"] does
    not start with ["Nanomi:"], and no answer was given yet, so the claim
    wants it in the prompt; yet the job [handleMessage] hands to the pool
    for the assistant [Nanomi] has the empty [<messages>] element for
    prompt, as a worker that answers with its prompt shows. *)
Lemma prompt_drops_lowercase_address :
  let key := {| Types.chatId := 100; Types.topicId := 0 |} in
  let job :=
    {| Worker.ci_prompt := "<messages>" +:+ Telegram.nl +:+ Telegram.nl +:+ "</messages>";
       Worker.ci_sessionId := None; Worker.ci_folder := "family-chat";
       Worker.ci_sessionKey := "100_0"; Worker.ci_isMain := false;
       Worker.ci_isScheduledTask := false; Worker.ci_chatType := Some "group" |} in
  List.filter (spec_since_filter 100 0 None "Nanomi") (Db.messages lowercase_address_db)
  = Db.messages lowercase_address_db
  /\ map Db.msg_content (Db.messages lowercase_address_db) = ["nanomi: remind me at 5"]
  /\ Index.lastAgentTimestamp fresh_router !! "family-chat" = None
  /\ (forall pool,
        Index.handleMessage "Nanomi" (fun t => pretty t) pool 9000 two_chats
          lowercase_address_db fresh_router key "family-chat" "hello" "Ann" 77 None
        = Index.handleMessage "Nanomi" (fun t => pretty t) (fun _ => pool job) 9000
            two_chats lowercase_address_db fresh_router key "family-chat" "hello"
            "Ann" 77 None)
  /\ snd (Index.handleMessage "Nanomi" (fun t => pretty t) Notions.echo_pool 9000 two_chats
            lowercase_address_db fresh_router key "family-chat" "hello" "Ann" 77 None)
     = [Worker.SendText 100 0 ("Nanomi: " +:+ Worker.ci_prompt job) (Some 77)]
  /\ Worker.ci_prompt job
     <> Index.buildPrompt (fun t => pretty t)
          (map Db.to_new_message
             (Db.sort_by Db.msg_timestamp
                (List.filter (spec_since_filter 100 0 None "Nanomi")
                   (Db.messages lowercase_address_db)))).
Proof.
  cbv zeta.
  split; [reflexivity|].
  split; [reflexivity|].
  split; [reflexivity|].
  split; [intros pool; reflexivity|].
  split; [reflexivity|].
  vm_compute. discriminate.
Qed.

(** ** The scheduler (task-scheduler.ts, db.ts) *)
Section SchedulerFacts.
Import Text Config Db Types SessionManager Worker Scheduler Props.
Variable TIMEZONE : string.
Variable cronNext : string -> string -> instant -> option instant.
Variable pool : ContainerInput -> Awaited.

Lemma find_task_after_update id (g : ScheduledTask -> ScheduledTask) l :
  (forall t, task_id (g t) = task_id t) ->
  List.find (fun t => String.eqb (task_id t) id)
    (map (fun t => if String.eqb (task_id t) id then g t else t) l)
  = option_map g (List.find (fun t => String.eqb (task_id t) id) l).
Proof.
  intros Hg. induction l as [|t r IH]; simpl; [reflexivity|].
  destruct (String.eqb (task_id t) id) eqn:E; simpl.
  - rewrite Hg, E. reflexivity.
  - rewrite E. exact IH.
Qed.

Lemma getTaskById_after_run now id nextRun summary db :
  getTaskById (updateTaskAfterRun now id nextRun summary db) id
  = option_map (after_run now nextRun summary) (getTaskById db id).
Proof.
  unfold getTaskById, updateTaskAfterRun. simpl.
  apply find_task_after_update. reflexivity.
Qed.

Lemma getTaskById_logTaskRun log db id :
  getTaskById (logTaskRun log db) id = getTaskById db id.
Proof. reflexivity. Qed.

(** A run that reaches the worker ends with [updateTaskAfterRun], unless
    computing the next run throws. *)
Lemma runTask_registered clock task deps db chat nextRun :
  getRegisteredChat deps (task_chatId task) = Some chat ->
  computeNextRun TIMEZONE cronNext task (t_scheduled clock) = Some nextRun ->
  exists log summary,
    runTask TIMEZONE cronNext pool clock task deps db
    = (updateTaskAfterRun (t_updated clock) (task_id task) nextRun summary
         (logTaskRun log db), Returned)
    /\ log_taskId log = task_id task /\ log_runAt log = t_logged clock.
Proof.
  intros Hreg Hnext. unfold runTask. rewrite Hreg.
  destruct (match pool _ with Resolved _ => _ | Thrown _ => _ end) as [result error].
  rewrite Hnext. eexists _, _. split; [reflexivity|]. split; reflexivity.
Qed.

(** A run for a chat that is not registered is logged as failed and
    leaves the task table as it was. *)
Lemma runTask_unregistered clock task deps db :
  getRegisteredChat deps (task_chatId task) = None ->
  exists log,
    runTask TIMEZONE cronNext pool clock task deps db = (logTaskRun log db, Returned)
    /\ log_taskId log = task_id task /\ log_status log = "error"
    /\ scheduled_tasks (logTaskRun log db) = scheduled_tasks db.
Proof.
  intros Hreg. unfold runTask. rewrite Hreg.
  eexists. split; [reflexivity|]. repeat split; reflexivity.
Qed.

Lemma computeNextRun_once task now :
  task_scheduleType task = "once" ->
  computeNextRun TIMEZONE cronNext task now = Some None.
Proof. unfold computeNextRun. intros ->. reflexivity. Qed.

(** A one-shot task of a registered chat: one run completes it, whatever
    the worker answered. *)
Lemma once_task_completed_by_one_run clock task deps db chat :
  task_scheduleType task = "once" ->
  getRegisteredChat deps (task_chatId task) = Some chat ->
  getTaskById db (task_id task) = Some task ->
  exists db' task',
    runTask TIMEZONE cronNext pool clock task deps db = (db', Returned)
    /\ getTaskById db' (task_id task) = Some task'
    /\ task_status task' = "completed"
    /\ task_nextRun task' = None
    /\ task_lastRun task' = Some (t_updated clock).
Proof.
  intros Honce Hreg Hrow.
  destruct (runTask_registered clock task deps db chat None Hreg
              (computeNextRun_once task _ Honce)) as (log & summary & Hrun & _).
  eexists _, _. split; [exact Hrun|].
  rewrite getTaskById_after_run, getTaskById_logTaskRun, Hrow. simpl.
  repeat split; reflexivity.
Qed.

(** A task without [next_run] is never selected, whatever its status. *)
Lemma no_next_run_never_due now db task :
  In task (getDueTasks now db) -> task_nextRun task <> None.
Proof.
  unfold getDueTasks. intros H.
  apply (Permutation_in _ (sort_by_perm next_run_key _)) in H.
  apply filter_In in H as [_ H]. unfold is_due in H.
  apply andb_prop in H as [_ H]. destruct (task_nextRun task); [discriminate | discriminate H].
Qed.

(** Setting the status back to active does not make it due. *)
Lemma reactivated_without_next_run_not_due now db id task :
  (forall t, In t (scheduled_tasks db) -> task_id t = id -> task_nextRun t = None) ->
  In task (getDueTasks now (updateTaskStatus id "active" db)) ->
  task_id task <> id.
Proof.
  intros Hnone Hdue Hid.
  pose proof (no_next_run_never_due _ _ _ Hdue) as Hn.
  unfold getDueTasks in Hdue.
  apply (Permutation_in _ (sort_by_perm next_run_key _)) in Hdue.
  apply filter_In in Hdue as [Hin _].
  unfold updateTaskStatus in Hin. simpl in Hin.
  apply in_map_iff in Hin as (t & Ht & Hin).
  destruct (String.eqb (task_id t) id) eqn:E.
  - apply String.eqb_eq in E. subst task. simpl in Hn. apply Hn.
    apply (Hnone t Hin E).
  - subst task. apply String.eqb_neq in E. contradiction.
Qed.

Section CronLibrary.
(** The occurrences of a cron expression in a time zone, and the contract
    of the library: [next()] is the first occurrence strictly after the
    current date. *)
Variable occurs : string -> string -> instant -> Prop.
Hypothesis cronNext_first :
  forall expr tz now n,
    cronNext expr tz now = Some n ->
    now < n /\ occurs expr tz n /\ forall m, occurs expr tz m -> now < m -> n <= m.

(** The run of a cron task of a registered chat, with an expression the
    library parses: the [next_run] stored by the run is the first
    occurrence of the task's expression, in the configured time zone,
    strictly after the clock reading at which the supervisor, the run
    over and logged, computes the schedule; the task keeps its status.
    The same holds from any earlier instant, such as the one at which the
    worker answered, with no occurrence in between. *)
Theorem cron_next_run_is_first_occurrence clock task deps db chat n :
  task_scheduleType task = "cron" ->
  getRegisteredChat deps (task_chatId task) = Some chat ->
  getTaskById db (task_id task) = Some task ->
  cronNext (task_scheduleValue task) TIMEZONE (t_scheduled clock) = Some n ->
  exists db' task',
    runTask TIMEZONE cronNext pool clock task deps db = (db', Returned)
    /\ getTaskById db' (task_id task) = Some task'
    /\ task_nextRun task' = Some n
    /\ task_status task' = task_status task
    /\ task_lastRun task' = Some (t_updated clock)
    /\ t_scheduled clock < n
    /\ occurs (task_scheduleValue task) TIMEZONE n
    /\ (forall m, occurs (task_scheduleValue task) TIMEZONE m ->
                   t_scheduled clock < m -> n <= m)
    /\ (forall completed,
          completed <= t_scheduled clock ->
          (forall m, occurs (task_scheduleValue task) TIMEZONE m ->
                     completed < m -> t_scheduled clock < m) ->
          completed < n
          /\ forall m, occurs (task_scheduleValue task) TIMEZONE m ->
                        completed < m -> n <= m).
Proof.
  intros Hcron Hreg Hrow Hnext.
  assert (Hc : computeNextRun TIMEZONE cronNext task (t_scheduled clock) = Some (Some n)).
  { unfold computeNextRun. rewrite Hcron. simpl. rewrite Hnext. reflexivity. }
  destruct (runTask_registered clock task deps db chat (Some n) Hreg Hc)
    as (log & summary & Hrun & _).
  destruct (cronNext_first _ _ _ _ Hnext) as (Hlt & Hocc & Hfirst).
  eexists _, _. split; [exact Hrun|].
  rewrite getTaskById_after_run, getTaskById_logTaskRun, Hrow. simpl.
  repeat split; auto; try lia.
Qed.

End CronLibrary.

End SchedulerFacts.

Lemma minutely_first expr tz now n :
  minutely expr tz now = Some n ->
  now < n /\ on_the_minute expr tz n
  /\ forall m, on_the_minute expr tz m -> now < m -> n <= m.
Proof.
  unfold minutely, on_the_minute. intros H. injection H as <-.
  pose proof (Z.div_mod now 60000 ltac:(lia)) as Hd.
  pose proof (Z.mod_pos_bound now 60000 ltac:(lia)) as Hb.
  split; [lia|]. split.
  - apply Z_mod_mult.
  - intros m Hm Hlt.
    pose proof (Z.div_mod m 60000 ltac:(lia)) as Hdm. rewrite Hm in Hdm.
    assert (now / 60000 < m / 60000) by (apply Z.div_lt_upper_bound; lia).
    lia.
Qed.

Lemma cron_next_run_is_first_occurrence_witness :
  exists db' task',
    Scheduler.runTask "Asia/Singapore" minutely answering_pool (clock_at 61500)
      minutely_task two_chats_deps minutely_db = (db', Scheduler.Returned)
    /\ Db.getTaskById db' "task-2" = Some task'
    /\ Db.task_nextRun task' = Some 120000
    /\ Db.task_status task' = "active".
Proof.
  destruct (cron_next_run_is_first_occurrence "Asia/Singapore" minutely answering_pool
              on_the_minute minutely_first (clock_at 61500) minutely_task
              two_chats_deps minutely_db (group_chat 100 "Family Chat") 120000)
    as (db' & task' & Hrun & Hget & Hnext & Hstatus & _);
    [reflexivity | reflexivity | reflexivity | reflexivity |].
  exists db', task'. repeat split; assumption.
Defined.

(** C4 fails in the code, at the cron task of a chat that is no longer
    registered: the tick at 61500 runs the task, which is due since
    60000, and logs the run as failed, but [runTask] returns before it
    computes the schedule. The [next_run] stored after the run is still
    60000, an instant before the run was over, and not 120000, the first
    occurrence of the expression after the run; the next tick finds the
    task due by that stale instant and logs a second failed run. *)
Lemma cron_task_of_unregistered_chat_keeps_stale_next_run :
  let tick := Scheduler.tick "Asia/Singapore" minutely answering_pool in
  let db1 := tick 61500 (fun _ => clock_at 61500) two_chats_deps
               Notions.orphan_cron_db in
  let db2 := tick 121500 (fun _ => clock_at 121500) two_chats_deps db1 in
  Db.task_scheduleType Notions.orphan_cron_task = "cron"
  /\ two_chats !! Db.task_chatId Notions.orphan_cron_task = None
  /\ Db.getDueTasks 61500 Notions.orphan_cron_db = [Notions.orphan_cron_task]
  /\ Scheduler.runTask "Asia/Singapore" minutely answering_pool (clock_at 61500)
       Notions.orphan_cron_task two_chats_deps Notions.orphan_cron_db
     = (db1, Scheduler.Returned)
  /\ map (fun l => (Db.log_taskId l, Db.log_runAt l, Db.log_status l))
         (Db.task_run_logs db1) = [("task-4", 61500, "error")]
  /\ (exists task',
        Db.getTaskById db1 "task-4" = Some task'
        /\ Db.task_nextRun task' = Some 60000
        /\ Db.task_lastRun task' = None)
  /\ minutely "* * * * *" "Asia/Singapore" 61500 = Some 120000
  /\ (on_the_minute "* * * * *" "Asia/Singapore" 120000
      /\ forall m, on_the_minute "* * * * *" "Asia/Singapore" m ->
                   61500 < m -> 120000 <= m)
  /\ Db.getDueTasks 121500 db1 = [Notions.orphan_cron_task]
  /\ map (fun l => (Db.log_taskId l, Db.log_runAt l, Db.log_status l))
         (Db.task_run_logs db2)
     = [("task-4", 61500, "error"); ("task-4", 121500, "error")].
Proof.
  cbv zeta.
  split; [reflexivity|]. split; [reflexivity|].
  split; [vm_compute; reflexivity|]. split; [vm_compute; reflexivity|].
  split; [vm_compute; reflexivity|].
  split; [eexists; split; [vm_compute; reflexivity|]; split; reflexivity|].
  split; [reflexivity|].
  split.
  { destruct (minutely_first "* * * * *" "Asia/Singapore" 61500 120000 eq_refl)
      as (_ & Hocc & Hfirst). split; [exact Hocc | exact Hfirst]. }
  split; vm_compute; reflexivity.
Qed.

(** C3 at the one-shot task of a chat that is no longer registered: a
    tick logs a failed run and leaves the task active and due, and the
    next tick runs it again. *)
Lemma once_task_of_unregistered_chat_runs_again :
  let tick := Scheduler.tick "Asia/Singapore" minutely answering_pool in
  let db1 := tick 2000 (fun _ => clock_at 2000) two_chats_deps orphan_once_db in
  let db2 := tick 62000 (fun _ => clock_at 62000) two_chats_deps db1 in
  two_chats !! 300 = None
  /\ Db.getDueTasks 2000 orphan_once_db = [orphan_once_task]
  /\ Db.getTaskById db1 "task-1" = Some orphan_once_task
  /\ map Db.log_status (Db.task_run_logs db1) = ["error"]
  /\ Db.getDueTasks 62000 db1 = [orphan_once_task]
  /\ Db.getTaskById db2 "task-1" = Some orphan_once_task
  /\ map Db.log_status (Db.task_run_logs db2) = ["error"; "error"].
Proof. vm_compute. repeat split; reflexivity. Qed.

(** ** The warm pool (container-pool.ts) *)
Section PoolFacts.
Import Pool Props.

Lemma core_le_refl c : core_le c c.
Proof. unfold core_le. auto. Qed.

Lemma heap_le_refl h : heap_le h h.
Proof. intros w. split; intros c Hc; exists c; split; auto using core_le_refl. Qed.

Lemma heap_le_alter (g : WarmContainer -> WarmContainer) w0 h :
  (forall c, core_le c (g c)) -> heap_le h (alter g w0 h).
Proof.
  intros Hg w. destruct (decide (w0 = w)) as [->|Hne].
  - rewrite lookup_alter_eq. split.
    + intros c ->. exists (g c). split; [reflexivity | apply Hg].
    + intros c' Hc'. destruct (h !! w) as [c|]; [|discriminate].
      injection Hc' as <-. exists c. split; [reflexivity | apply Hg].
  - rewrite lookup_alter_ne by exact Hne.
    split; intros c Hc; exists c; split; auto using core_le_refl.
Qed.

Lemma heap_le_imap (f : wid -> WarmContainer -> WarmContainer) h :
  (forall w c, core_le c (f w c)) ->
  heap_le h (map_imap (fun w c => Some (f w c)) h).
Proof.
  intros Hf w. rewrite map_lookup_imap. split.
  - intros c ->. exists (f w c). split; [reflexivity | apply Hf].
  - intros c' Hc'. destruct (h !! w) as [c|]; [|discriminate].
    injection Hc' as <-. exists c. split; [reflexivity | apply Hf].
Qed.

(** Changes that leave the requests alone, forget registrations and touch
    no field the dispatch logic reads keep the invariant. *)
Lemma pool_inv_cosmetic p p' :
  pool_inv p ->
  requests p' = requests p ->
  (forall folder w, containers p' !! folder = Some w ->
                    containers p !! folder = Some w) ->
  heap_le (heap p) (heap p') ->
  pool_inv p'.
Proof.
  intros [Ha Hs Hr] Hq Hc Hh. split.
  - intros r w folder Hreq. rewrite Hq in Hreq.
    destruct (Ha r w folder Hreq) as (c & Hc0 & Hp & Hm).
    destruct (proj1 (Hh w) c Hc0) as (c' & Hc' & Hp' & Hm' & _).
    exists c'. split; [exact Hc'|]. split; congruence.
  - intros w c' r Hc' Hsp.
    destruct (proj2 (Hh w) c' Hc') as (c & Hc0 & Hp' & _ & Hs').
    destruct Hs' as [Hs'|Hs']; [|congruence].
    rewrite Hp'. apply (Hs w c r Hc0). congruence.
  - intros folder w Hreg.
    destruct (Hr folder w (Hc folder w Hreg)) as (c & Hc0 & Hn).
    destruct (proj1 (Hh w) c Hc0) as (c' & Hc' & _ & _ & Hs').
    exists c'. split; [exact Hc'|]. destruct Hs'; congruence.
Qed.

Lemma pool_inv_register p folder w c :
  pool_inv p -> heap p !! w = Some c -> wc_spawnedFor c = None ->
  pool_inv {| containers := <[folder := w]> (containers p);
              heap := heap p; requests := requests p |}.
Proof.
  intros [Ha Hs Hr] Hc Hn. split; simpl; auto.
  intros f w' Hreg. destruct (decide (folder = f)) as [->|Hne].
  - rewrite lookup_insert_eq in Hreg. injection Hreg as <-. eauto.
  - rewrite lookup_insert_ne in Hreg by exact Hne. eauto.
Qed.

(** Recording a request that is not in flight on a warm worker. *)
Lemma pool_inv_request p r q :
  pool_inv p ->
  (forall w, rq_service q = Warm w -> rq_resolved q = true) ->
  pool_inv (with_requests p (<[r := q]> (requests p))).
Proof.
  intros [Ha Hs Hr] Hq. split; simpl; auto.
  intros r' w folder Hreq. destruct (decide (r = r')) as [->|Hne].
  - rewrite lookup_insert_eq in Hreq. injection Hreq as ->.
    specialize (Hq w eq_refl). discriminate Hq.
  - rewrite lookup_insert_ne in Hreq by exact Hne. eauto.
Qed.

Lemma pool_inv_send now w r folder p c :
  pool_inv p -> heap p !! w = Some c ->
  wc_processing c = false -> wc_spawnedFor c = None ->
  pool_inv (sendToWarmContainer now w r folder p).
Proof.
  intros [Ha Hs Hr] Hc Hp Hn. unfold sendToWarmContainer. split; simpl.
  - intros r' w' f Hreq. destruct (decide (r = r')) as [->|Hne].
    + rewrite lookup_insert_eq in Hreq. injection Hreq as _ <-.
      rewrite lookup_alter_eq, Hc. eexists. split; [reflexivity|]. split; reflexivity.
    + rewrite lookup_insert_ne in Hreq by exact Hne.
      destruct (Ha r' w' f Hreq) as (c' & Hc' & Hp' & Hm').
      destruct (decide (w = w')) as [->|Hw]; [congruence|].
      rewrite lookup_alter_ne by exact Hw. eauto.
  - intros w' c' r' Hc' Hsp. destruct (decide (w = w')) as [->|Hw].
    + rewrite lookup_alter_eq, Hc in Hc'. injection Hc' as <-.
      simpl in Hsp. congruence.
    + rewrite lookup_alter_ne in Hc' by exact Hw. eauto.
  - intros f w' Hreg. destruct (Hr f w' Hreg) as (c' & Hc' & Hn').
    destruct (decide (w = w')) as [->|Hw].
    + rewrite lookup_alter_eq, Hc'. eexists. split; [reflexivity|]. exact Hn'.
    + rewrite lookup_alter_ne by exact Hw. eauto.
Qed.

Lemma pool_inv_cleanupAndResolve now r p :
  pool_inv p -> pool_inv (cleanupAndResolve now r p).
Proof.
  intros Hinv. unfold cleanupAndResolve.
  destruct (requests p !! r) as [q|] eqn:Hq; [|exact Hinv].
  destruct (rq_resolved q) eqn:Hres; [exact Hinv|].
  destruct (rq_service q) as [|w0|] eqn:Hsv; try exact Hinv.
  assert (Hq' : requests p !! r = Some {| rq_folder := rq_folder q;
                                          rq_service := Warm w0;
                                          rq_resolved := false |}).
  { rewrite Hq. destruct q; simpl in *; subst; reflexivity. }
  destruct Hinv as [Ha Hs Hr].
  destruct (Ha r w0 _ Hq') as (c0 & Hc0 & Hp0 & Hm0).
  split; simpl.
  - intros r' w' f Hreq. destruct (decide (r = r')) as [->|Hne].
    + rewrite lookup_insert_eq in Hreq. discriminate Hreq.
    + rewrite lookup_insert_ne in Hreq by exact Hne.
      destruct (Ha r' w' f Hreq) as (c' & Hc' & Hp' & Hm').
      destruct (decide (w0 = w')) as [->|Hw]; [congruence|].
      rewrite lookup_alter_ne by exact Hw. eauto.
  - intros w' c' r' Hc' Hsp. destruct (decide (w0 = w')) as [->|Hw].
    + rewrite lookup_alter_eq, Hc0 in Hc'. injection Hc' as <-. reflexivity.
    + rewrite lookup_alter_ne in Hc' by exact Hw. eauto.
  - intros f w' Hreg. destruct (Hr f w' Hreg) as (c' & Hc' & Hn').
    destruct (decide (w0 = w')) as [->|Hw].
    + rewrite lookup_alter_eq, Hc'. eexists. split; [reflexivity|]. exact Hn'.
    + rewrite lookup_alter_ne by exact Hw. eauto.
Qed.

Lemma pool_inv_callResolveMessage now w p :
  pool_inv p -> pool_inv (callResolveMessage now w p).
Proof.
  intros Hinv. unfold callResolveMessage.
  destruct (heap p !! w) as [c|]; [|exact Hinv].
  destruct (wc_resolveMessage c); [|exact Hinv].
  apply pool_inv_cleanupAndResolve, Hinv.
Qed.

Lemma pool_inv_spawn now fresh r folder isMain p :
  pool_inv p -> heap p !! fresh = None ->
  pool_inv (spawnWarmContainer now fresh r folder isMain p).
Proof.
  intros [Ha Hs Hr] Hfresh. unfold spawnWarmContainer. split; simpl.
  - intros r' w' f Hreq. destruct (decide (r = r')) as [->|Hne].
    + rewrite lookup_insert_eq in Hreq. discriminate Hreq.
    + rewrite lookup_insert_ne in Hreq by exact Hne.
      destruct (Ha r' w' f Hreq) as (c' & Hc' & Hp' & Hm').
      destruct (decide (fresh = w')) as [->|Hw]; [congruence|].
      rewrite lookup_insert_ne by exact Hw. eauto.
  - intros w' c' r' Hc' Hsp. destruct (decide (fresh = w')) as [->|Hw].
    + rewrite lookup_insert_eq in Hc'. injection Hc' as <-. reflexivity.
    + rewrite lookup_insert_ne in Hc' by exact Hw. eauto.
  - intros f w' Hreg. destruct (Hr f w' Hreg) as (c' & Hc' & Hn').
    destruct (decide (fresh = w')) as [->|Hw]; [congruence|].
    rewrite lookup_insert_ne by exact Hw. eauto.
Qed.

Lemma existing_Some p folder w c :
  existing p folder = Some (w, c) ->
  containers p !! folder = Some w /\ heap p !! w = Some c.
Proof.
  unfold existing. destruct (containers p !! folder) as [w'|]; [|discriminate].
  destruct (heap p !! w') as [c'|] eqn:E; [|discriminate].
  intros H. injection H as <- <-. auto.
Qed.

Lemma pool_inv_initial : pool_inv initial.
Proof.
  split; simpl; intros *; rewrite lookup_empty; discriminate.
Qed.

Section WithTimeout.
Variable CONTAINER_WARM_TIMEOUT : Z.

Lemma pool_inv_runContainer now r folder isMain fresh p :
  pool_inv p -> heap p !! fresh = None ->
  pool_inv (runContainer CONTAINER_WARM_TIMEOUT now r folder isMain fresh p).
Proof.
  intros Hinv Hfresh. unfold runContainer.
  destruct (CONTAINER_WARM_TIMEOUT <=? 0).
  { apply pool_inv_request; [exact Hinv | discriminate]. }
  destruct (existing p folder) as [[w c]|] eqn:Hex.
  - apply existing_Some in Hex as [Hreg Hc].
    destruct (wc_ready c && negb (wc_processing c))%bool eqn:Hidle.
    + apply andb_prop in Hidle as [_ Hp]. apply negb_true_iff in Hp.
      destruct (inv_registered p Hinv folder w Hreg) as (c' & Hc' & Hn).
      assert (c' = c) as -> by congruence.
      eapply pool_inv_send; eauto.
    + destruct (wc_processing c).
      * apply pool_inv_request; [exact Hinv | discriminate].
      * apply pool_inv_spawn; assumption.
  - apply pool_inv_spawn; assumption.
Qed.

Lemma pool_inv_step now e p :
  pool_inv p -> pool_inv (step CONTAINER_WARM_TIMEOUT now e p).
Proof.
  intros Hinv. destruct e as [r folder isMain fresh|w|w|w|w|r|r|w|w| |r| ]; simpl.
  - destruct (requests p !! r); [exact Hinv|].
    destruct (heap p !! fresh) eqn:Hfresh; [exact Hinv|].
    apply pool_inv_runContainer; assumption.
  - apply (pool_inv_cosmetic p); auto.
    apply heap_le_alter. intros c. unfold core_le. simpl. auto.
  - destruct (heap p !! w) as [c|] eqn:Hc; [|exact Hinv].
    destruct (wc_spawnedFor c) as [r|] eqn:Hsp; [|exact Hinv].
    destruct (wc_ready c); [|exact Hinv].
    assert (Hp : wc_processing c = false) by (eapply inv_spawning; eauto).
    eapply (pool_inv_send now w r (wc_folder c) _ (mark_spawned c)).
    + refine (pool_inv_register (with_heap p (alter mark_spawned w (heap p)))
                (wc_folder c) w (mark_spawned c) _ _ _).
      * apply (pool_inv_cosmetic p); auto.
        apply heap_le_alter. intros c0. unfold core_le. simpl. auto.
      * simpl. rewrite lookup_alter_eq, Hc. reflexivity.
      * reflexivity.
    + simpl. rewrite lookup_alter_eq, Hc. reflexivity.
    + exact Hp.
    + reflexivity.
  - destruct (heap p !! w) as [c|] eqn:Hc; [|exact Hinv].
    destruct (wc_spawnedFor c) as [r|] eqn:Hsp; [|exact Hinv].
    apply (pool_inv_request (with_heap p (alter mark_abandoned w (heap p)))).
    + apply (pool_inv_cosmetic p); auto.
      apply heap_le_alter. intros c0. unfold core_le. simpl. auto.
    + discriminate.
  - apply pool_inv_callResolveMessage, Hinv.
  - destruct (requests p !! r) as [q|]; [|exact Hinv].
    destruct (rq_service q) as [|w|]; try exact Hinv.
    destruct (rq_resolved q); [exact Hinv|].
    destruct (heap p !! w) as [c|]; [|exact Hinv].
    apply pool_inv_cleanupAndResolve.
    apply (pool_inv_cosmetic p); simpl; auto.
    + intros f w' Hreg. destruct (decide (wc_folder c = f)) as [<-|Hne].
      * rewrite lookup_delete_eq in Hreg. discriminate.
      * rewrite lookup_delete_ne in Hreg by exact Hne. exact Hreg.
    + apply heap_le_alter. intros c0. unfold core_le. simpl. auto.
  - apply pool_inv_cleanupAndResolve, Hinv.
  - destruct (heap p !! w) as [c|]; [|exact Hinv].
    destruct (wc_exited c); [exact Hinv|].
    destruct (wc_handlers c).
    + apply (pool_inv_cosmetic (callResolveMessage now w p)); simpl; auto.
      * apply pool_inv_callResolveMessage, Hinv.
      * intros f w' Hreg. destruct (decide (wc_folder c = f)) as [<-|Hne].
        -- rewrite lookup_delete_eq in Hreg. discriminate.
        -- rewrite lookup_delete_ne in Hreg by exact Hne. exact Hreg.
      * apply heap_le_alter. intros c0. unfold core_le. simpl. auto.
    + apply (pool_inv_cosmetic p); auto.
      apply heap_le_alter. intros c0. unfold core_le. simpl. auto.
  - destruct (heap p !! w) as [c|]; [|exact Hinv].
    destruct (wc_handlers c); [|exact Hinv].
    apply (pool_inv_cosmetic (callResolveMessage now w p)); simpl; auto.
    + apply pool_inv_callResolveMessage, Hinv.
    + intros f w' Hreg. destruct (decide (wc_folder c = f)) as [<-|Hne].
      * rewrite lookup_delete_eq in Hreg. discriminate.
      * rewrite lookup_delete_ne in Hreg by exact Hne. exact Hreg.
    + apply heap_le_refl.
  - apply (pool_inv_cosmetic p); simpl; auto.
    + intros f w Hreg. apply map_lookup_filter_Some in Hreg as [Hreg _]. exact Hreg.
    + apply (heap_le_imap
               (fun w c => if (registered p w c
                               && idle CONTAINER_WARM_TIMEOUT now c)%bool
                           then mark_killed c else c)).
      intros w c. destruct (_ && _)%bool; unfold core_le; simpl; auto.
  - destruct (requests p !! r) as [q|]; [|exact Hinv].
    destruct (rq_service q); try exact Hinv.
    apply pool_inv_request; [exact Hinv | discriminate].
  - apply (pool_inv_cosmetic p); simpl; auto.
    + intros f w Hreg. rewrite lookup_empty in Hreg. discriminate.
    + apply (heap_le_imap (fun w c => if registered p w c then mark_killed c else c)).
      intros w c. destruct (registered p w c); unfold core_le; simpl; auto.
Qed.

Lemma pool_inv_run trace : forall p,
  pool_inv p -> pool_inv (run CONTAINER_WARM_TIMEOUT trace p).
Proof.
  induction trace as [|[now e] rest IH]; intros p Hinv; [exact Hinv|].
  simpl. apply IH, pool_inv_step, Hinv.
Qed.

(** X28. In every state the pool can reach, a warm worker has at most one
    request in flight. *)
Lemma one_request_in_flight_per_worker trace r1 r2 w :
  in_flight (run CONTAINER_WARM_TIMEOUT trace initial) r1 w ->
  in_flight (run CONTAINER_WARM_TIMEOUT trace initial) r2 w ->
  r1 = r2.
Proof.
  pose proof (pool_inv_run trace initial pool_inv_initial) as Hinv.
  intros [f1 H1] [f2 H2].
  destruct (inv_in_flight _ Hinv r1 w f1 H1) as (c1 & Hc1 & _ & Hm1).
  destruct (inv_in_flight _ Hinv r2 w f2 H2) as (c2 & Hc2 & _ & Hm2).
  congruence.
Qed.

(** A new request goes to a warm worker at once only if that worker is
    the registered one, ready and not processing. *)
Lemma warm_dispatch_needs_idle_worker now r folder isMain fresh p w :
  requests p !! r = None -> heap p !! fresh = None ->
  in_flight (step CONTAINER_WARM_TIMEOUT now (RunContainer r folder isMain fresh) p) r w ->
  exists c, existing p folder = Some (w, c)
            /\ wc_ready c = true /\ wc_processing c = false.
Proof.
  intros Hr Hfresh [f Hfl]. simpl in Hfl. rewrite Hr, Hfresh in Hfl.
  unfold runContainer in Hfl.
  destruct (CONTAINER_WARM_TIMEOUT <=? 0).
  { simpl in Hfl. rewrite lookup_insert_eq in Hfl. discriminate. }
  destruct (existing p folder) as [[w' c]|] eqn:Hex.
  - destruct (wc_ready c && negb (wc_processing c))%bool eqn:Hidle.
    + simpl in Hfl. rewrite lookup_insert_eq in Hfl. injection Hfl as _ <-.
      apply andb_prop in Hidle as [Hrdy Hp]. apply negb_true_iff in Hp.
      exists c. auto.
    + destruct (wc_processing c); simpl in Hfl;
        rewrite lookup_insert_eq in Hfl; discriminate.
  - simpl in Hfl. rewrite lookup_insert_eq in Hfl. discriminate.
Qed.

(** The request that spawned a worker is sent to it when the worker has
    signalled readiness, and the worker is then not processing. *)
Lemma spawned_worker_is_idle_when_sent now trace w c r :
  let p := run CONTAINER_WARM_TIMEOUT trace initial in
  heap p !! w = Some c -> wc_spawnedFor c = Some r -> wc_ready c = true ->
  wc_processing c = false
  /\ in_flight (step CONTAINER_WARM_TIMEOUT now (CheckReady w) p) r w.
Proof.
  intros p Hc Hsp Hrdy.
  pose proof (pool_inv_run trace initial pool_inv_initial) as Hinv. fold p in Hinv.
  split; [eapply inv_spawning; eauto|].
  exists (wc_folder c). simpl. rewrite Hc, Hsp, Hrdy. simpl.
  apply lookup_insert_eq.
Qed.

(** While the registered worker of a folder is processing, a new request
    for the folder is serviced cold. *)
Lemma busy_registered_worker_goes_cold now r folder isMain fresh p w c :
  requests p !! r = None -> heap p !! fresh = None ->
  existing p folder = Some (w, c) -> wc_processing c = true ->
  requests (step CONTAINER_WARM_TIMEOUT now (RunContainer r folder isMain fresh) p) !! r
  = Some {| rq_folder := folder; rq_service := Cold; rq_resolved := false |}.
Proof.
  intros Hr Hfresh Hex Hp. simpl. rewrite Hr, Hfresh. unfold runContainer.
  destruct (CONTAINER_WARM_TIMEOUT <=? 0).
  { simpl. apply lookup_insert_eq. }
  rewrite Hex, Hp, andb_false_r. simpl. apply lookup_insert_eq.
Qed.

End WithTimeout.

End PoolFacts.

(** C6 at the trace [spawn_race]: two requests for the workspace that
    arrive before a worker is registered each spawn a warm worker; both
    workers are then alive at once, each with a request in flight, and a
    third request is sent to the registered worker while the other one is
    still processing. *)
Lemma concurrent_requests_spawn_two_warm_workers :
  let p6 := Pool.run 1800000 (firstn 6 spawn_race) Pool.initial in
  let p8 := Pool.run 1800000 spawn_race Pool.initial in
  Pool.live_workers p6 "family-chat" = [2%nat; 1%nat]
  /\ Pool.in_flight p6 1%nat 1%nat /\ Pool.in_flight p6 2%nat 2%nat
  /\ Pool.containers p6 !! "family-chat" = Some 2%nat
  /\ Pool.live_workers p8 "family-chat" = [2%nat; 1%nat]
  /\ Pool.in_flight p8 1%nat 1%nat /\ Pool.in_flight p8 3%nat 2%nat.
Proof.
  repeat split; try (vm_compute; reflexivity); eexists; vm_compute; reflexivity.
Qed.

(* ===================================================================== *)
(** * Part III: further properties of the program                        *)
(* ===================================================================== *)

(** ** The message store: lookups and the primary key (db.ts) *)
Section MessageStoreFacts.
Import Text Db Props Notions.

Lemma msg_has_key_spec chat topic id r :
  msg_has_key chat topic id r = true <-> message_key r = (chat, topic, id).
Proof.
  unfold msg_has_key, message_key.
  rewrite !andb_true_iff, !Z.eqb_eq, String.eqb_eq.
  split; [intros [[-> ->] ->]; reflexivity | intros H; injection H; auto].
Qed.

Lemma find_none_filter_neg {A} (f : A -> bool) l :
  List.find f l = None -> List.filter (fun x => negb (f x)) l = l.
Proof.
  induction l as [|x r IH]; simpl; [reflexivity|].
  destruct (f x); [discriminate|]. simpl. intros H. rewrite (IH H). reflexivity.
Qed.

Lemma find_filter_neg {A} (f : A -> bool) l :
  List.find f (List.filter (fun x => negb (f x)) l) = None.
Proof.
  induction l as [|x r IH]; simpl; [reflexivity|].
  destruct (f x) eqn:E; simpl; rewrite ?E; exact IH.
Qed.

Lemma find_filter_other {A} (f g : A -> bool) l :
  (forall x, f x = true -> g x = true) ->
  List.find f (List.filter g l) = List.find f l.
Proof.
  intros Hfg. induction l as [|x r IH]; simpl; [reflexivity|].
  destruct (g x) eqn:Eg; simpl.
  - destruct (f x); [reflexivity | exact IH].
  - destruct (f x) eqn:Ef; [rewrite (Hfg x Ef) in Eg; discriminate | exact IH].
Qed.

Lemma messages_storeMessage now id chat topic sender name content type bot reply
    emoji action target session db :
  messages (storeMessage now id chat topic sender name content type bot reply
              emoji action target session db)
  = List.filter (fun r => negb (msg_has_key chat topic id r)) (messages db)
    ++ [ {| msg_id := id; msg_chat_id := chat; msg_topic_id := topic;
            msg_sender_id := sender; msg_sender_name := name;
            msg_content := content; msg_type := type;
            msg_timestamp := now; msg_is_bot := bot;
            msg_reply_to_message_id := reply;
            msg_reaction_emoji := emoji; msg_reaction_action := action;
            msg_target_message_id := target;
            msg_agent_session_id := session |} ].
Proof. reflexivity. Qed.

Lemma getMessage_storeMessage now id chat topic sender name content type bot
    reply emoji action target session db :
  let db' := storeMessage now id chat topic sender name content type bot reply
               emoji action target session db in
  getMessage db' chat topic id
  = Some {| msg_id := id; msg_chat_id := chat; msg_topic_id := topic;
            msg_sender_id := sender; msg_sender_name := name;
            msg_content := content; msg_type := type;
            msg_timestamp := now; msg_is_bot := bot;
            msg_reply_to_message_id := reply;
            msg_reaction_emoji := emoji; msg_reaction_action := action;
            msg_target_message_id := target;
            msg_agent_session_id := session |}
  /\ forall chat' topic' id',
       (chat', topic', id') <> (chat, topic, id) ->
       getMessage db' chat' topic' id' = getMessage db chat' topic' id'.
Proof.
  intros db'. subst db'. unfold getMessage. rewrite messages_storeMessage. split.
  - rewrite find_app_None by apply find_filter_neg.
    simpl. unfold msg_has_key. simpl. rewrite !Z.eqb_refl, String.eqb_refl.
    reflexivity.
  - intros chat' topic' id' Hne.
    assert (Hrow : forall r, msg_has_key chat' topic' id' r = true ->
                             negb (msg_has_key chat topic id r) = true).
    { intros r Hr. apply negb_true_iff. destruct (msg_has_key chat topic id r) eqn:E;
        [|reflexivity].
      apply msg_has_key_spec in Hr, E. congruence. }
    destruct (List.find (msg_has_key chat' topic' id') (messages db)) as [r|] eqn:F.
    + apply find_app_Some. rewrite find_filter_other by exact Hrow. exact F.
    + rewrite find_app_None by (rewrite find_filter_other by exact Hrow; exact F).
      simpl. destruct (msg_has_key chat' topic' id' _) eqn:E; [|reflexivity].
      apply msg_has_key_spec in E. unfold message_key in E. simpl in E. congruence.
Qed.

(** X1. A stored message is found again under its key, stamped with the
    clock reading of the call, and the lookup of every other key gives
    what it gave before. *)
Theorem stored_message_is_found now id chat topic sender name content type bot
    reply emoji action target session db :
  let db' := storeMessage now id chat topic sender name content type bot reply
               emoji action target session db in
  getMessage db' chat topic id
  = Some {| msg_id := id; msg_chat_id := chat; msg_topic_id := topic;
            msg_sender_id := sender; msg_sender_name := name;
            msg_content := content; msg_type := type;
            msg_timestamp := now; msg_is_bot := bot;
            msg_reply_to_message_id := reply;
            msg_reaction_emoji := emoji; msg_reaction_action := action;
            msg_target_message_id := target;
            msg_agent_session_id := session |}
  /\ forall chat' topic' id',
       (chat', topic', id') <> (chat, topic, id) ->
       getMessage db' chat' topic' id' = getMessage db chat' topic' id'.
Proof. apply getMessage_storeMessage. Qed.

Lemma NoDup_map_filter {A B} (g : A -> B) (f : A -> bool) l :
  List.NoDup (map g l) -> List.NoDup (map g (List.filter f l)).
Proof.
  induction l as [|x r IH]; simpl; [trivial|].
  intros H. inversion H as [|? ? Hx Hr]; subst.
  destruct (f x); [|apply IH, Hr].
  simpl. constructor; [|apply IH, Hr].
  intros Hin. apply Hx. apply in_map_iff in Hin as (y & Hy & Hin).
  apply in_map_iff. exists y. split; [exact Hy|].
  apply filter_In in Hin. tauto.
Qed.

Lemma filter_out_one {A B} (g : A -> B) (f : A -> bool) (k : B) l x :
  (forall y, f y = true <-> g y = k) ->
  List.NoDup (map g l) -> List.find f l = Some x ->
  S (List.length (List.filter (fun y => negb (f y)) l)) = List.length l.
Proof.
  intros Hf. induction l as [|y r IH]; simpl; [discriminate|].
  intros Hnd Hfind. inversion Hnd as [|? ? Hy Hr]; subst.
  destruct (f y) eqn:E; simpl.
  - f_equal. f_equal. apply find_none_filter_neg.
    destruct (List.find f r) as [z|] eqn:F; [|reflexivity].
    exfalso. apply Hy. apply find_some in F as [Hin Hz].
    apply Hf in E, Hz. apply in_map_iff. exists z. split; [congruence | exact Hin].
  - f_equal. apply IH; assumption.
Qed.

(** X2. Storing a message keeps the primary key of the table: no two rows
    share (chat, topic, id) afterwards; the table grows by one row when
    the key is new and keeps its size when the key was there. *)
Theorem storeMessage_keeps_keys_unique now id chat topic sender name content type
    bot reply emoji action target session db :
  message_keys_unique db ->
  let db' := storeMessage now id chat topic sender name content type bot reply
               emoji action target session db in
  message_keys_unique db'
  /\ List.length (messages db')
     = match getMessage db chat topic id with
       | Some _ => List.length (messages db)
       | None => S (List.length (messages db))
       end.
Proof.
  intros Hnd db'. subst db'. unfold message_keys_unique.
  rewrite messages_storeMessage. split.
  - rewrite map_app. apply List.NoDup_app.
    + apply NoDup_map_filter, Hnd.
    + repeat constructor. simpl. tauto.
    + intros k Hin [Hk|[]]. subst k.
      apply in_map_iff in Hin as (r & Hr & Hin).
      apply filter_In in Hin as [_ Hneg]. apply negb_true_iff in Hneg.
      unfold message_key in Hr at 2. simpl in Hr.
      apply msg_has_key_spec in Hr. congruence.
  - rewrite length_app. simpl. unfold getMessage.
    destruct (List.find (msg_has_key chat topic id) (messages db)) as [r|] eqn:F.
    + rewrite <- (filter_out_one message_key (msg_has_key chat topic id)
                    (chat, topic, id) (messages db) r); [lia | | exact Hnd | exact F].
      intros y. apply msg_has_key_spec.
    + rewrite find_none_filter_neg by exact F. lia.
Qed.

Lemma storeMessage_keeps_keys_unique_witness :
  message_keys_unique lowercase_address_db
  /\ message_keys_unique
       (storeMessage 6000 "77" 100 0 7 "Ann" "edited" "text" false
          None None None None None lowercase_address_db)
  /\ List.length (messages (storeMessage 6000 "77" 100 0 7 "Ann" "edited" "text" false
                              None None None None None lowercase_address_db))
     = 1%nat.
Proof.
  assert (H : message_keys_unique lowercase_address_db).
  { unfold message_keys_unique. simpl. repeat constructor. simpl. tauto. }
  split; [exact H|].
  exact (storeMessage_keeps_keys_unique 6000 "77" 100 0 7 "Ann" "edited" "text" false
           None None None None None lowercase_address_db H).
Defined.

End MessageStoreFacts.
(** ** The prompt window and the store (db.ts) *)
Section WindowFacts.
Import Text Db Props Notions.

Lemma insert_by_last {A} (key : A -> Z) a x s :
  key a <= key x -> insert_by key a (s ++ [x]) = insert_by key a s ++ [x].
Proof.
  intros Hle. induction s as [|y s IH]; simpl.
  - assert ((key a <=? key x) = true) as -> by (apply Z.leb_le; exact Hle). reflexivity.
  - destruct (key a <=? key y); [reflexivity|]. rewrite IH. reflexivity.
Qed.

Lemma sort_by_last {A} (key : A -> Z) l x :
  (forall y, In y l -> key y <= key x) ->
  sort_by key (l ++ [x]) = sort_by key l ++ [x].
Proof.
  induction l as [|a l IH]; intros Hmax; simpl; [reflexivity|].
  change (fold_right (insert_by key) [] (l ++ [x])) with (sort_by key (l ++ [x])).
  rewrite IH by (intros y Hy; apply Hmax; right; exact Hy).
  apply insert_by_last. apply Hmax. left. reflexivity.
Qed.

(** X3. A text message stored under a new id, at a clock reading no
    earlier than every stored timestamp, is the last message of the next
    prompt window of its topic; the messages before it are those the
    window held already. *)
Theorem new_text_message_comes_last now id chat topic sender name content bot
    reply db since botName :
  getMessage db chat topic id = None ->
  (forall r, In r (messages db) -> msg_timestamp r <= now) ->
  after since now = true ->
  sql_like content (botName +:+ ":%") = false ->
  getMessagesSince
    (storeMessage now id chat topic sender name content "text" bot reply
       None None None None db) chat topic since botName
  = getMessagesSince db chat topic since botName
    ++ [ {| nm_id := id; nm_chatId := chat; nm_topicId := topic;
            nm_senderId := sender; nm_senderName := name;
            nm_content := content; nm_timestamp := now |} ].
Proof.
  intros Hnew Hmax Hafter Hlike. unfold getMessagesSince.
  rewrite messages_storeMessage.
  rewrite (find_none_filter_neg _ _ Hnew).
  rewrite List.filter_app. simpl.
  unfold since_filter at 2. simpl.
  rewrite !Z.eqb_refl, Hafter, Hlike. simpl.
  rewrite sort_by_last.
  - rewrite map_app. reflexivity.
  - intros y Hy. apply filter_In in Hy as [Hy _]. simpl. apply Hmax, Hy.
Qed.

Lemma new_text_message_comes_last_witness :
  getMessagesSince
    (storeMessage 7000 "78" 100 0 8 "Bob" "and me" "text" false None
       None None None None lowercase_address_db) 100 0 (Some 10) "Robot"
  = getMessagesSince lowercase_address_db 100 0 (Some 10) "Robot"
    ++ [ {| nm_id := "78"; nm_chatId := 100; nm_topicId := 0;
            nm_senderId := 8; nm_senderName := "Bob";
            nm_content := "and me"; nm_timestamp := 7000 |} ].
Proof.
  apply (new_text_message_comes_last 7000 "78" 100 0 8 "Bob" "and me" false None
           lowercase_address_db (Some 10) "Robot").
  - reflexivity.
  - intros r [<-|[]]. simpl. lia.
  - reflexivity.
  - reflexivity.
Defined.

(** X4. A row that is not a text message (a reaction, an answer of the
    assistant), stored under a new id, changes no prompt window of any
    topic. *)
Theorem non_text_rows_stay_out_of_prompts now id chat topic sender name content
    type bot reply emoji action target session db :
  type <> "text" ->
  getMessage db chat topic id = None ->
  forall chat' topic' since botName,
    getMessagesSince
      (storeMessage now id chat topic sender name content type bot reply
         emoji action target session db) chat' topic' since botName
    = getMessagesSince db chat' topic' since botName.
Proof.
  intros Htype Hnew chat' topic' since botName. unfold getMessagesSince.
  rewrite messages_storeMessage.
  rewrite (find_none_filter_neg _ _ Hnew).
  rewrite List.filter_app. simpl.
  unfold since_filter at 2. simpl.
  assert (String.eqb type "text" = false) as -> by (apply String.eqb_neq; exact Htype).
  rewrite !andb_false_r. simpl. rewrite app_nil_r. reflexivity.
Qed.

Lemma non_text_rows_stay_out_of_prompts_witness :
  getMessagesSince
    (storeMessage 7000 "79" 100 0 1 "Nanomi" "Nanomi: done" "agent_response" true
       None None None None None lowercase_address_db) 100 0 (Some 10) "Robot"
  = getMessagesSince lowercase_address_db 100 0 (Some 10) "Robot".
Proof.
  apply (non_text_rows_stay_out_of_prompts 7000 "79" 100 0 1 "Nanomi" "Nanomi: done"
           "agent_response" true None None None None None lowercase_address_db).
  - discriminate.
  - reflexivity.
Defined.

End WindowFacts.

(** ** The task table (db.ts) *)
Section TaskTableFacts.
Import Text Db Props Notions.

Lemma find_id_filter_other id id' (l : list ScheduledTask) :
  id' <> id ->
  List.find (fun t => String.eqb (task_id t) id')
    (List.filter (fun t => negb (String.eqb (task_id t) id)) l)
  = List.find (fun t => String.eqb (task_id t) id') l.
Proof.
  intros Hne. apply find_filter_other. intros t Ht.
  apply String.eqb_eq in Ht. apply negb_true_iff, String.eqb_neq. congruence.
Qed.

Lemma filter_filter_other {A} (f g : A -> bool) l :
  (forall x, f x = true -> g x = true) ->
  List.filter f (List.filter g l) = List.filter f l.
Proof.
  intros Hfg. induction l as [|x r IH]; simpl; [reflexivity|].
  destruct (g x) eqn:Eg; simpl.
  - destruct (f x); rewrite IH; reflexivity.
  - destruct (f x) eqn:Ef; [rewrite (Hfg x Ef) in Eg; discriminate | exact IH].
Qed.

(** X6. Deleting a task removes the task and every log of its runs, and
    nothing else: the other tasks are found as before, the logs of the
    other tasks are kept in their order, topics and messages are
    untouched. *)
Theorem deleteTask_removes_task_and_its_logs id db :
  let db' := deleteTask id db in
  getTaskById db' id = None
  /\ (forall l, In l (task_run_logs db') -> log_taskId l <> id)
  /\ (forall id', id' <> id ->
        getTaskById db' id' = getTaskById db id'
        /\ List.filter (fun l => String.eqb (log_taskId l) id') (task_run_logs db')
           = List.filter (fun l => String.eqb (log_taskId l) id') (task_run_logs db))
  /\ topics db' = topics db /\ messages db' = messages db.
Proof.
  intros db'. subst db'. unfold getTaskById, deleteTask. simpl.
  split; [apply find_filter_neg|].
  split.
  { intros l Hl. apply filter_In in Hl as [_ Hl].
    apply negb_true_iff, String.eqb_neq in Hl. exact Hl. }
  split; [|split; reflexivity].
  intros id' Hne. split; [apply find_id_filter_other, Hne|].
  apply filter_filter_other. intros l Hl.
  apply String.eqb_eq in Hl. apply negb_true_iff, String.eqb_neq. congruence.
Qed.

Lemma unique_id_found (l : list ScheduledTask) id t t' :
  List.NoDup (map task_id l) ->
  List.find (fun t => String.eqb (task_id t) id) l = Some t ->
  In t' l -> task_id t' = id -> t' = t.
Proof.
  intros Hnd Hfind Hin Hid.
  apply find_some in Hfind as [Hint Ht]. apply String.eqb_eq in Ht.
  apply (NoDup_map_inj_on task_id l); auto. congruence.
Qed.

Lemma set_status_same t : set_status (task_status t) t = t.
Proof. destruct t; reflexivity. Qed.

Lemma paused_and_resumed now id db t :
  task_ids_unique db ->
  getTaskById db id = Some t -> task_status t = "active" ->
  (forall t', In t' (getDueTasks now (updateTaskStatus id "paused" db)) ->
              task_id t' <> id)
  /\ updateTaskStatus id "active" (updateTaskStatus id "paused" db) = db.
Proof.
  intros Hnd Hfind Hactive. split.
  - intros t' Hdue Hid.
    apply (Permutation_in _ (sort_by_perm next_run_key _)) in Hdue.
    apply filter_In in Hdue as [Hin Hd].
    simpl in Hin. apply in_map_iff in Hin as (u & Hu & _).
    destruct (String.eqb (task_id u) id) eqn:E.
    + subst t'. unfold is_due in Hd. simpl in Hd. discriminate.
    + subst t'. apply String.eqb_neq in E. contradiction.
  - apply database_ext; try reflexivity.
    simpl. rewrite map_map.
    rewrite <- (map_id (scheduled_tasks db)) at 2.
    apply map_ext_in. intros u Hu.
    destruct (String.eqb (task_id u) id) eqn:E; simpl; rewrite E; [|reflexivity].
    apply String.eqb_eq in E.
    rewrite (unique_id_found _ id t u Hnd Hfind Hu E).
    rewrite <- Hactive. destruct t; reflexivity.
Qed.

(** X7. Pausing an active task takes it out of the due tasks, whatever
    the clock reads, and resuming it gives back the table as it was
    before the pause. *)
Theorem pause_then_resume_restores now id db t :
  task_ids_unique db ->
  getTaskById db id = Some t -> task_status t = "active" ->
  (forall t', In t' (getDueTasks now (updateTaskStatus id "paused" db)) ->
              task_id t' <> id)
  /\ updateTaskStatus id "active" (updateTaskStatus id "paused" db) = db.
Proof. apply paused_and_resumed. Qed.

Lemma pause_then_resume_restores_witness :
  (forall t', In t' (getDueTasks 99000 (updateTaskStatus "task-2" "paused" minutely_db)) ->
              task_id t' <> "task-2")
  /\ updateTaskStatus "task-2" "active" (updateTaskStatus "task-2" "paused" minutely_db)
     = minutely_db.
Proof.
  apply (pause_then_resume_restores 99000 "task-2" minutely_db minutely_task).
  - unfold task_ids_unique. simpl. repeat constructor. simpl. tauto.
  - reflexivity.
  - reflexivity.
Defined.

End TaskTableFacts.
(** ** The scheduler tick (task-scheduler.ts) *)
Section TickFacts.
Import Text Config Db Types SessionManager Worker Scheduler Props Notions.
Variable TIMEZONE : string.
Variable cronNext : string -> string -> instant -> option instant.
Variable pool : ContainerInput -> Awaited.


(** The three ways a run ends: logged only (the chat is not registered),
    logged and thrown (the next run cannot be computed), logged and the
    task updated. *)
Lemma runTask_shape clock task deps db :
  exists log,
    log_taskId log = task_id task
    /\ (Scheduler.runTask TIMEZONE cronNext pool clock task deps db = (logTaskRun log db, Returned)
        \/ (Scheduler.runTask TIMEZONE cronNext pool clock task deps db = (logTaskRun log db, Threw)
            /\ Scheduler.computeNextRun TIMEZONE cronNext task (t_scheduled clock) = None)
        \/ exists nextRun summary,
             Scheduler.runTask TIMEZONE cronNext pool clock task deps db
             = (updateTaskAfterRun (t_updated clock) (task_id task) nextRun summary
                  (logTaskRun log db), Returned)
             /\ Scheduler.computeNextRun TIMEZONE cronNext task (t_scheduled clock) = Some nextRun).
Proof.
  unfold Scheduler.runTask.
  destruct (getRegisteredChat deps (task_chatId task)) as [chat|].
  - destruct (match pool _ with Resolved _ => _ | Thrown _ => _ end) as [result error].
    destruct (Scheduler.computeNextRun TIMEZONE cronNext task (t_scheduled clock)) as [nextRun|] eqn:E.
    + eexists. split; [|right; right; eexists _, _; split; reflexivity]. reflexivity.
    + eexists. split; [|right; left; split; reflexivity]. reflexivity.
  - eexists. split; [|left; reflexivity]. reflexivity.
Qed.

Lemma getTaskById_id db id t : getTaskById db id = Some t -> task_id t = id.
Proof.
  unfold getTaskById. intros H. apply find_some in H as [_ H].
  apply String.eqb_eq, H.
Qed.

Lemma find_other_after_update id id' (g : ScheduledTask -> ScheduledTask) l :
  (forall t, task_id (g t) = task_id t) -> id' <> id ->
  List.find (fun t => String.eqb (task_id t) id')
    (map (fun t => if String.eqb (task_id t) id then g t else t) l)
  = List.find (fun t => String.eqb (task_id t) id') l.
Proof.
  intros Hg Hne. induction l as [|t r IH]; simpl; [reflexivity|].
  destruct (String.eqb (task_id t) id) eqn:E.
  - rewrite Hg. apply String.eqb_eq in E.
    assert (String.eqb (task_id t) id' = false) as ->
      by (apply String.eqb_neq; congruence).
    exact IH.
  - destruct (String.eqb (task_id t) id'); [reflexivity | exact IH].
Qed.

Lemma ids_after_update id (g : ScheduledTask -> ScheduledTask) l :
  (forall t, task_id (g t) = task_id t) ->
  map task_id (map (fun t => if String.eqb (task_id t) id then g t else t) l)
  = map task_id l.
Proof.
  intros Hg. rewrite map_map. apply map_ext. intros t.
  destruct (String.eqb (task_id t) id); [apply Hg | reflexivity].
Qed.

(** What one run may change. *)
Lemma runTask_frame clock task deps db :
  let db' := fst (Scheduler.runTask TIMEZONE cronNext pool clock task deps db) in
  map task_id (scheduled_tasks db') = map task_id (scheduled_tasks db)
  /\ topics db' = topics db /\ messages db' = messages db
  /\ (exists log, task_run_logs db' = task_run_logs db ++ [log]
                  /\ log_taskId log = task_id task)
  /\ forall id, id <> task_id task -> getTaskById db' id = getTaskById db id.
Proof.
  intros db'. subst db'.
  destruct (runTask_shape clock task deps db)
    as (log & Hlog & [H|[[H _]|(nextRun & summary & H & _)]]); rewrite H; simpl.
  - repeat split; auto. exists log. auto.
  - repeat split; auto. exists log. auto.
  - split; [apply ids_after_update; reflexivity|].
    repeat split; auto; [exists log; auto|].
    intros id Hne. unfold getTaskById. simpl.
    apply find_other_after_update; [reflexivity | exact Hne].
Qed.

Lemma runDue_frame clocks deps due : forall db,
  let db' := Scheduler.runDue TIMEZONE cronNext pool clocks deps due db in
  map task_id (scheduled_tasks db') = map task_id (scheduled_tasks db)
  /\ topics db' = topics db /\ messages db' = messages db
  /\ (exists added, task_run_logs db' = task_run_logs db ++ added
                    /\ forall l, In l added -> In (log_taskId l) (map task_id due))
  /\ forall id, ~ In id (map task_id due) -> getTaskById db' id = getTaskById db id.
Proof.
  induction due as [|task rest IH]; intros db; simpl.
  { repeat split; auto. exists []. rewrite app_nil_r. split; [reflexivity|].
    intros l []. }
  assert (Hskip :
    let db' := Scheduler.runDue TIMEZONE cronNext pool clocks deps rest db in
    map task_id (scheduled_tasks db') = map task_id (scheduled_tasks db)
    /\ topics db' = topics db /\ messages db' = messages db
    /\ (exists added, task_run_logs db' = task_run_logs db ++ added
                      /\ forall l, In l added ->
                           task_id task = log_taskId l \/ In (log_taskId l) (map task_id rest))
    /\ forall id, ~ (task_id task = id \/ In id (map task_id rest)) ->
                  getTaskById db' id = getTaskById db id).
  { destruct (IH db) as (H1 & H2 & H3 & (added & H4 & H5) & H6).
    split; [exact H1|]. split; [exact H2|]. split; [exact H3|]. split.
    - exists added. split; [exact H4|]. intros l Hl. right. apply H5, Hl.
    - intros id Hid. apply H6. tauto. }
  destruct (getTaskById db (task_id task)) as [currentTask|] eqn:Hcur; [|exact Hskip].
  destruct (String.eqb (task_status currentTask) "active"); [|exact Hskip].
  clear Hskip.
  pose proof (getTaskById_id _ _ _ Hcur) as Hid.
  destruct (runTask_frame (clocks (task_id task)) currentTask deps db)
    as (H1 & H2 & H3 & (log & H4 & H5) & H6).
  destruct (Scheduler.runTask TIMEZONE cronNext pool (clocks (task_id task)) currentTask deps db) as [db1 [|]];
    simpl in H1, H2, H3, H4, H6.
  - destruct (IH db1) as (I1 & I2 & I3 & (added & I4 & I5) & I6).
    split; [congruence|]. split; [congruence|]. split; [congruence|]. split.
    + exists (log :: added). split.
      * rewrite I4, H4, <- app_assoc. reflexivity.
      * intros l [<-|Hl]; [left; congruence | right; apply I5, Hl].
    + intros id Hn. rewrite I6 by tauto. apply H6. intros ->. apply Hn. left.
      symmetry. exact Hid.
  - split; [exact H1|]. split; [exact H2|]. split; [exact H3|]. split.
    + exists [log]. split; [exact H4|].
      intros l [<-|[]]. left. congruence.
    + intros id Hn. apply H6. intros ->. apply Hn. left. symmetry. exact Hid.
Qed.

(** X8. A scheduler tick neither adds nor removes a task and leaves
    topics and messages alone; the run logs only grow, by runs of tasks
    that were due; a task that was not due is found unchanged. *)
Theorem tick_touches_only_due_tasks now clocks deps db :
  let db' := Scheduler.tick TIMEZONE cronNext pool now clocks deps db in
  map task_id (scheduled_tasks db') = map task_id (scheduled_tasks db)
  /\ topics db' = topics db /\ messages db' = messages db
  /\ (exists added, task_run_logs db' = task_run_logs db ++ added
                    /\ forall l, In l added ->
                         exists t, In t (getDueTasks now db) /\ task_id t = log_taskId l)
  /\ forall id, (forall t, In t (getDueTasks now db) -> task_id t <> id) ->
                getTaskById db' id = getTaskById db id.
Proof.
  intros db'. subst db'. unfold Scheduler.tick.
  destruct (runDue_frame clocks deps (getDueTasks now db) db)
    as (H1 & H2 & H3 & (added & H4 & H5) & H6).
  repeat split; auto.
  - exists added. split; [exact H4|]. intros l Hl.
    apply H5, in_map_iff in Hl. destruct Hl as (t & Ht & Hin). eauto.
  - intros id Hn. apply H6. intros Hin. apply in_map_iff in Hin as (t & Ht & Hin).
    exact (Hn t Hin Ht).
Qed.

Lemma runDue_runs_each_once clocks deps due : forall db,
  List.NoDup (map task_id due) ->
  (forall t, In t due ->
     getTaskById db (task_id t) = Some t /\ task_status t = "active"
     /\ Scheduler.computeNextRun TIMEZONE cronNext t (t_scheduled (clocks (task_id t))) <> None) ->
  exists added,
    task_run_logs (Scheduler.runDue TIMEZONE cronNext pool clocks deps due db) = task_run_logs db ++ added
    /\ map log_taskId added = map task_id due
    /\ Forall2 (fun l t => log_runAt l = t_logged (clocks (task_id t))) added due.
Proof.
  induction due as [|task rest IH]; intros db Hnd Hall; simpl.
  { exists []. rewrite app_nil_r. repeat split. constructor. }
  inversion Hnd as [|? ? Hfresh Hnd']; subst.
  destruct (Hall task (or_introl eq_refl)) as (Hcur & Hact & Hnext).
  rewrite Hcur, Hact. simpl.
  destruct (runTask_frame (clocks (task_id task)) task deps db)
    as (_ & _ & _ & (log & H4 & H5) & H6).
  assert (Hat : log_runAt log = t_logged (clocks (task_id task))).
  { revert H4. unfold Scheduler.runTask.
    destruct (getRegisteredChat deps (task_chatId task)).
    - destruct (match pool _ with Resolved _ => _ | Thrown _ => _ end) as [result error].
      destruct (Scheduler.computeNextRun TIMEZONE cronNext task _); simpl; intros H4;
        apply app_inv_head in H4; injection H4 as <-; reflexivity.
    - simpl. intros H4. apply app_inv_head in H4. injection H4 as <-. reflexivity. }
  destruct (runTask_shape (clocks (task_id task)) task deps db)
    as (log' & _ & [H|[[_ H]|(nextRun & summary & H & _)]]);
    [ | contradiction | ]; rewrite H in H4, H6 |- *; simpl in H4, H6;
    apply app_inv_head in H4; injection H4 as ->.
  - destruct (IH (logTaskRun log db) Hnd') as (added & I1 & I2 & I3).
    { intros t Ht. destruct (Hall t (or_intror Ht)) as (A & B & C).
      repeat split; auto. }
    exists (log :: added). split; [|split].
    + rewrite I1. simpl. rewrite <- app_assoc. reflexivity.
    + simpl. congruence.
    + constructor; assumption.
  - destruct (IH (updateTaskAfterRun (t_updated (clocks (task_id task))) (task_id task)
                    nextRun summary (logTaskRun log db)) Hnd') as (added & I1 & I2 & I3).
    { intros t Ht. destruct (Hall t (or_intror Ht)) as (A & B & C).
      repeat split; auto. rewrite H6; [exact A|].
      intros E. apply Hfresh. rewrite <- E. apply in_map, Ht. }
    exists (log :: added). split; [|split].
    + rewrite I1. simpl. rewrite <- app_assoc. reflexivity.
    + simpl. congruence.
    + constructor; assumption.
Qed.

Lemma NoDup_map_perm {A B} (g : A -> B) l l' :
  Permutation l l' -> List.NoDup (map g l') -> List.NoDup (map g l).
Proof.
  intros Hp Hnd. apply (Permutation_NoDup (l := map g l')); [|exact Hnd].
  apply Permutation_map, Permutation_sym, Hp.
Qed.

Lemma due_task_is_current now db t :
  task_ids_unique db -> In t (getDueTasks now db) ->
  getTaskById db (task_id t) = Some t /\ task_status t = "active".
Proof.
  intros Hnd Ht. unfold getDueTasks in Ht.
  apply (Permutation_in _ (sort_by_perm next_run_key _)) in Ht.
  apply filter_In in Ht as [Hin Hd]. split.
  - unfold getTaskById.
    destruct (List.find (fun u => String.eqb (task_id u) (task_id t))
                (scheduled_tasks db)) as [u|] eqn:F.
    + f_equal. symmetry. apply (unique_id_found _ (task_id t) u t Hnd F Hin eq_refl).
    + exfalso. apply (find_none _ _ F) in Hin. rewrite String.eqb_refl in Hin.
      discriminate.
  - unfold is_due in Hd. apply andb_prop in Hd as [Hs _].
    apply String.eqb_eq, Hs.
Qed.

(** X9. In a tick in which every due task's next run can be computed,
    each due task is run exactly once, in the order of the next runs: the
    run log grows by one entry per due task, in that order. *)
Theorem tick_runs_each_due_task_once now clocks deps db :
  task_ids_unique db ->
  (forall t, In t (getDueTasks now db) ->
             Scheduler.computeNextRun TIMEZONE cronNext t (t_scheduled (clocks (task_id t))) <> None) ->
  exists added,
    task_run_logs (Scheduler.tick TIMEZONE cronNext pool now clocks deps db) = task_run_logs db ++ added
    /\ map log_taskId added = map task_id (getDueTasks now db)
    /\ Forall2 (fun l t => log_runAt l = t_logged (clocks (task_id t)))
         added (getDueTasks now db).
Proof.
  intros Hnd Hnext. unfold Scheduler.tick.
  apply runDue_runs_each_once.
  - apply (NoDup_map_perm task_id _ _ (sort_by_perm next_run_key _)).
    apply NoDup_map_filter, Hnd.
  - intros t Ht. destruct (due_task_is_current now db t Hnd Ht) as [Hcur Hact].
    split; [exact Hcur|]. split; [exact Hact | apply Hnext, Ht].
Qed.

(** X10. A due task of a registered chat whose next run cannot be computed
    (its cron expression does not parse, say) ends the tick when its turn
    comes: if it is the first due task, its run is logged, no task is
    updated and no other due task is run; the due tasks of every later
    clock reading are what they were. *)
Theorem unschedulable_task_blocks_the_tick now clocks deps db task rest chat :
  task_ids_unique db ->
  getDueTasks now db = task :: rest ->
  getRegisteredChat deps (task_chatId task) = Some chat ->
  Scheduler.computeNextRun TIMEZONE cronNext task (t_scheduled (clocks (task_id task)))
  = None ->
  let db' := Scheduler.tick TIMEZONE cronNext pool now clocks deps db in
  scheduled_tasks db' = scheduled_tasks db
  /\ (exists log, task_run_logs db' = task_run_logs db ++ [log]
                  /\ log_taskId log = task_id task)
  /\ forall later, getDueTasks later db' = getDueTasks later db.
Proof.
  intros Hnd Hdue Hreg Hnone db'.
  assert (Hrun : exists log,
             db' = logTaskRun log db /\ log_taskId log = task_id task).
  { subst db'. unfold Scheduler.tick. rewrite Hdue. simpl.
    destruct (due_task_is_current now db task Hnd) as [Hcur Hact];
      [rewrite Hdue; left; reflexivity|].
    rewrite Hcur, Hact. simpl.
    unfold Scheduler.runTask. rewrite Hreg.
    destruct (match pool _ with Resolved _ => _ | Thrown _ => _ end) as [result error].
    rewrite Hnone. eexists. split; reflexivity. }
  destruct Hrun as (log & -> & Hlog).
  split; [reflexivity|]. split; [exists log; split; [reflexivity | exact Hlog]|].
  reflexivity.
Qed.

(** X11. A run of an interval task that reaches the worker schedules the
    next run one interval after the clock reading taken when the run is
    over, not after the run that was due, and leaves the status as it
    is. *)
Theorem interval_task_runs_again_after_interval clock task deps db chat ms :
  getRegisteredChat deps (task_chatId task) = Some chat ->
  task_scheduleType task = "interval" ->
  parseInt (task_scheduleValue task) = Some ms ->
  valid_date (t_scheduled clock + ms) = true ->
  getTaskById db (task_id task) = Some task ->
  exists db' task',
    Scheduler.runTask TIMEZONE cronNext pool clock task deps db = (db', Returned)
    /\ getTaskById db' (task_id task) = Some task'
    /\ task_nextRun task' = Some (t_scheduled clock + ms)
    /\ task_status task' = task_status task
    /\ task_lastRun task' = Some (t_updated clock).
Proof.
  intros Hreg Htype Hms Hvalid Hrow.
  assert (Hnext : Scheduler.computeNextRun TIMEZONE cronNext task (t_scheduled clock)
                  = Some (Some (t_scheduled clock + ms))).
  { unfold Scheduler.computeNextRun. rewrite Htype. simpl. rewrite Hms, Hvalid.
    reflexivity. }
  destruct (runTask_registered TIMEZONE cronNext pool clock task deps db chat _ Hreg Hnext)
    as (log & summary & Hrun & _).
  eexists _, _. split; [exact Hrun|].
  rewrite getTaskById_after_run, getTaskById_logTaskRun, Hrow. simpl.
  repeat split; reflexivity.
Qed.

End TickFacts.

Lemma two_tasks_ids_unique : Notions.task_ids_unique Notions.two_tasks_db.
Proof.
  unfold Notions.task_ids_unique. simpl. repeat constructor; simpl.
  - intros [H|[]]. discriminate H.
  - tauto.
Qed.

Lemma tick_runs_each_due_task_once_witness :
  exists added,
    Db.task_run_logs
      (Scheduler.tick "UTC" minutely answering_pool 60000 (fun _ => clock_at 61000)
         two_chats_deps Notions.two_tasks_db)
    = Db.task_run_logs Notions.two_tasks_db ++ added
    /\ map Db.log_taskId added = ["task-3"; "task-2"]
    /\ Forall2 (fun l t => Db.log_runAt l = 61000) added
         (Db.getDueTasks 60000 Notions.two_tasks_db).
Proof.
  apply (tick_runs_each_due_task_once "UTC" minutely answering_pool 60000
           (fun _ => clock_at 61000) two_chats_deps Notions.two_tasks_db).
  - exact two_tasks_ids_unique.
  - intros t [<-|[<-|[]]]; discriminate.
Defined.

Lemma unschedulable_task_blocks_the_tick_witness :
  let db' := Scheduler.tick "UTC" Notions.no_cron answering_pool 60000
               (fun _ => clock_at 61000) two_chats_deps minutely_db in
  Db.scheduled_tasks db' = Db.scheduled_tasks minutely_db
  /\ (exists log, Db.task_run_logs db' = Db.task_run_logs minutely_db ++ [log]
                  /\ Db.log_taskId log = "task-2")
  /\ forall later, Db.getDueTasks later db' = Db.getDueTasks later minutely_db.
Proof.
  apply (unschedulable_task_blocks_the_tick "UTC" Notions.no_cron answering_pool 60000
           (fun _ => clock_at 61000) two_chats_deps minutely_db minutely_task []
           (group_chat 100 "Family Chat")).
  - unfold Notions.task_ids_unique. simpl. repeat constructor. simpl. tauto.
  - reflexivity.
  - reflexivity.
  - reflexivity.
Defined.

Lemma interval_task_runs_again_after_interval_witness :
  exists db' task',
    Scheduler.runTask "UTC" minutely answering_pool (clock_at 61000)
      Notions.interval_task two_chats_deps Notions.two_tasks_db = (db', Scheduler.Returned)
    /\ Db.getTaskById db' "task-3" = Some task'
    /\ Db.task_nextRun task' = Some 361000
    /\ Db.task_status task' = "active"
    /\ Db.task_lastRun task' = Some 61000.
Proof.
  apply (interval_task_runs_again_after_interval "UTC" minutely answering_pool
           (clock_at 61000) Notions.interval_task two_chats_deps Notions.two_tasks_db
           (group_chat 100 "Family Chat") 300000); reflexivity.
Defined.
(** ** Numbers and session keys as text (types.ts, session-manager.ts) *)
Section KeyTextFacts.
Import Text Config Db Types SessionManager Telegram Scheduler SessionKeys Props Notions.

Ltac ascii_cases c := destruct c as [[] [] [] [] [] [] [] []].


Lemma append_assoc_text (a b c : string) : (a +:+ b) +:+ c = a +:+ (b +:+ c).
Proof.
  induction a as [|x a IH]; [reflexivity|].
  change (String x ((a +:+ b) +:+ c) = String x (a +:+ (b +:+ c))).
  rewrite IH. reflexivity.
Qed.

Lemma pretty_N_go_app (x : N) : forall s,
  pretty_N_go x s = pretty_N_go x EmptyString +:+ s.
Proof.
  induction (N.lt_wf_0 x) as [x _ IH]; intros s.
  destruct (N.eq_dec x 0%N) as [->|Hx].
  - rewrite !pretty_N_go_0. reflexivity.
  - assert (Hpos : (0 < x)%N) by lia.
    rewrite (pretty_N_go_step x s Hpos), (pretty_N_go_step x EmptyString Hpos).
    assert (Hlt : (x `div` 10 < x)%N) by (apply N.div_lt; lia).
    rewrite (IH _ Hlt (String _ s)), (IH _ Hlt (String _ EmptyString)).
    rewrite append_assoc_text. reflexivity.
Qed.

Lemma pretty_N_char_code (n : N) :
  (n < 10)%N ->
  is_digit (pretty_N_char n) = true
  /\ Z.of_nat (code (pretty_N_char n)) - 48 = Z.of_N n.
Proof.
  intros H. destruct n as [|p]; [split; reflexivity|].
  do 4 (try destruct p as [p|p|]); try (exfalso; lia); split; reflexivity.
Qed.

Lemma digits_value_app acc l1 l2 :
  Forall (fun c => is_digit c = true) l1 ->
  digits_value acc (l1 ++ l2) = digits_value (digits_value acc l1) l2.
Proof.
  intros H. revert acc. induction H as [|c l1 Hc _ IH]; intros acc; simpl; [reflexivity|].
  rewrite Hc. apply IH.
Qed.

Lemma pretty_N_go_digits (x : N) :
  Forall (fun c => is_digit c = true) (chars (pretty_N_go x EmptyString))
  /\ digits_value 0 (chars (pretty_N_go x EmptyString)) = Z.of_N x
  /\ ((0 < x)%N -> leading_digit (chars (pretty_N_go x EmptyString)) = true).
Proof.
  induction (N.lt_wf_0 x) as [x _ IH].
  destruct (N.eq_dec x 0%N) as [->|Hx].
  - rewrite pretty_N_go_0. simpl. split; [constructor|]. split; [reflexivity | lia].
  - assert (Hpos : (0 < x)%N) by lia.
    assert (Hlt : (x `div` 10 < x)%N) by (apply N.div_lt; lia).
    destruct (IH _ Hlt) as (Hd & Hv & Hl).
    destruct (pretty_N_char_code (x `mod` 10)) as [Hc Hcode];
      [apply N.mod_lt; lia|].
    rewrite (pretty_N_go_step x EmptyString Hpos), pretty_N_go_app, chars_append.
    change (chars (String (pretty_N_char (x `mod` 10)) EmptyString))
      with [pretty_N_char (x `mod` 10)].
    split; [|split].
    + apply Forall_app. split; [exact Hd | constructor; [exact Hc | constructor]].
    + rewrite digits_value_app by exact Hd. rewrite Hv. simpl. rewrite Hc.
      rewrite Hcode. rewrite N2Z.inj_mod, N2Z.inj_div.
      change (Z.of_N 10) with 10.
      pose proof (Z.div_mod (Z.of_N x) 10). lia.
    + intros _. destruct (chars (pretty_N_go (x `div` 10) EmptyString)) as [|c r] eqn:E.
      * simpl. exact Hc.
      * simpl. inversion Hd; assumption.
Qed.

(** The decimal text of a positive number. *)
Lemma pretty_pos_digits (p : positive) :
  let l := chars (pretty (Npos p)) in
  Forall (fun c => is_digit c = true) l
  /\ digits_value 0 l = Zpos p /\ leading_digit l = true.
Proof.
  unfold pretty, pretty_N. simpl.
  destruct (pretty_N_go_digits (Npos p)) as (Hd & Hv & Hl).
  split; [exact Hd|]. split; [exact Hv | apply Hl; lia].
Qed.

Lemma digit_not_space c : is_digit c = true -> is_space c = false.
Proof. ascii_cases c; intros H; try discriminate H; reflexivity. Qed.

Lemma digit_not_sign c :
  is_digit c = true -> Nat.eqb (code c) 45 = false /\ Nat.eqb (code c) 43 = false.
Proof. ascii_cases c; intros H; try discriminate H; split; reflexivity. Qed.

Lemma pretty_Z_chars (z : Z) :
  chars (pretty z)
  = match z with
    | Z0 => ["0"%char]
    | Zpos p => chars (pretty (Npos p))
    | Zneg p => "-"%char :: chars (pretty (Npos p))
    end.
Proof. destruct z; reflexivity. Qed.

(** A number written by a template literal and read back by [parseInt]
    is the number. *)
Lemma parseInt_pretty (z : Z) : parseInt (pretty z) = Some z.
Proof.
  unfold parseInt. rewrite pretty_Z_chars. destruct z as [|p|p].
  - reflexivity.
  - destruct (pretty_pos_digits p) as (Hd & Hv & Hl). simpl in Hd, Hv, Hl.
    destruct (chars (pretty (Npos p))) as [|c r] eqn:E; [discriminate Hl|].
    simpl in Hl. simpl. rewrite (digit_not_space c Hl).
    destruct (digit_not_sign c Hl) as [-> ->]. rewrite Hl. rewrite Hv. reflexivity.
  - destruct (pretty_pos_digits p) as (Hd & Hv & Hl). simpl in Hd, Hv, Hl.
    simpl. rewrite Hl, Hv. reflexivity.
Qed.

Lemma pretty_Z_key_chars (z : Z) : Forall key_char (chars (pretty z)).
Proof.
  rewrite pretty_Z_chars. destruct z as [|p|p].
  - repeat constructor.
  - destruct (pretty_pos_digits p) as (Hd & _).
    eapply List.Forall_impl; [|exact Hd]. intros c Hc. left. exact Hc.
  - constructor; [right; reflexivity|].
    destruct (pretty_pos_digits p) as (Hd & _).
    eapply List.Forall_impl; [|exact Hd]. intros c Hc. left. exact Hc.
Qed.

Lemma pretty_Z_nonempty (z : Z) : nonempty (pretty z) = true.
Proof.
  destruct z as [|p|p]; try reflexivity.
  destruct (pretty_pos_digits p) as (_ & _ & Hl). simpl in Hl.
  change (pretty (Zpos p)) with (pretty (Npos p)).
  destruct (pretty (Npos p)); [discriminate Hl | reflexivity].
Qed.

Lemma key_char_not_underscore c : key_char c -> Ascii.eqb c "_" = false.
Proof. ascii_cases c; intros [H|H]; try discriminate H; reflexivity. Qed.

Lemma split_from_plain sep cur l :
  Forall (fun c => Ascii.eqb c sep = false) l ->
  split_from sep cur l = [rev cur ++ l].
Proof.
  intros H. revert cur. induction H as [|c l Hc _ IH]; intros cur; simpl.
  - rewrite app_nil_r. reflexivity.
  - rewrite Hc, IH. simpl. rewrite <- app_assoc. reflexivity.
Qed.

Lemma split_from_first sep cur l1 l2 :
  Forall (fun c => Ascii.eqb c sep = false) l1 ->
  split_from sep cur (l1 ++ sep :: l2) = (rev cur ++ l1) :: split_from sep [] l2.
Proof.
  intros H. revert cur. induction H as [|c l Hc _ IH]; intros cur; simpl.
  - rewrite Ascii.eqb_refl, app_nil_r. reflexivity.
  - rewrite Hc, IH. simpl. rewrite <- app_assoc. reflexivity.
Qed.

Lemma text_chars s : text (chars s) = s.
Proof. apply string_of_list_ascii_of_string. Qed.

Lemma split_sessionKeyToString key :
  split "_" (sessionKeyToString key) = [pretty (chatId key); pretty (topicId key)].
Proof.
  unfold split, sessionKeyToString. rewrite !chars_append.
  change (chars "_") with ["_"%char]. simpl app.
  rewrite split_from_first, split_from_plain.
  - simpl. rewrite !text_chars. reflexivity.
  - eapply List.Forall_impl; [|apply pretty_Z_key_chars].
    intros c. apply key_char_not_underscore.
  - eapply List.Forall_impl; [|apply pretty_Z_key_chars].
    intros c. apply key_char_not_underscore.
Qed.

Lemma parse_of_key_text (key : SessionKey) :
  parseSessionKey (sessionKeyToString key) = (Some (chatId key), Some (topicId key)).
Proof.
  unfold parseSessionKey. rewrite split_sessionKeyToString.
  rewrite pretty_Z_nonempty, !parseInt_pretty. reflexivity.
Qed.

(** X12. For chat and topic ids that a JavaScript number holds exactly
    (safe integers, negative chat ids included), the text of a session
    key, as the supervisor writes it, is read back by the parser of the
    worker's tool server as the same chat and topic; so two such sessions
    never share a key text. *)
Theorem session_key_text_round_trip (key : SessionKey) :
  safe_integer (chatId key) -> safe_integer (topicId key) ->
  parseSessionKey (sessionKeyToString key) = (Some (chatId key), Some (topicId key))
  /\ forall key',
       safe_integer (chatId key') -> safe_integer (topicId key') ->
       sessionKeyToString key' = sessionKeyToString key -> key' = key.
Proof.
  intros _ _. split; [apply parse_of_key_text|].
  intros key' _ _ H. apply (f_equal parseSessionKey) in H.
  rewrite !parse_of_key_text in H. destruct key, key'. simpl in H. congruence.
Qed.

Lemma getTopic_of_row db row :
  keys_unique db -> In row (topics db) ->
  getTopic db (topic_chat_id row) (topic_topic_id row) = Some row.
Proof.
  intros Hu Hin. unfold getTopic.
  destruct (List.find (topic_has_key (topic_chat_id row) (topic_topic_id row)) (topics db))
    as [r|] eqn:E.
  - apply List.find_some in E as [Hr Hk]. apply topic_has_key_spec in Hk.
    f_equal. eapply NoDup_map_inj_on; eauto.
  - eapply List.find_none in E; [|exact Hin].
    unfold topic_has_key in E. rewrite !Z.eqb_refl in E. discriminate.
Qed.

(** X13. On a topics table with unique keys and unique folders, the two
    conversions between a folder and the text of its session key are
    inverse to each other. *)
Theorem folder_and_key_text_convert_back db :
  keys_unique db -> folders_unique db ->
  (forall folder s,
     getSessionKeyFromFolder db folder = Some s ->
     getFolderFromSessionKey db s = Some folder)
  /\ (forall key folder,
        getFolderFromSessionKey db (sessionKeyToString key) = Some folder ->
        getSessionKeyFromFolder db folder = Some (sessionKeyToString key)).
Proof.
  intros Hk Hf. split.
  - intros folder s. unfold getSessionKeyFromFolder, getFolderFromSessionKey.
    destruct (getTopicByFolder db folder) as [row|] eqn:E; [|discriminate].
    intros [= <-]. rewrite parse_of_key_text. simpl.
    unfold getTopicByFolder in E. apply List.find_some in E as [Hin Hfolder].
    apply String.eqb_eq in Hfolder.
    rewrite (getTopic_of_row db row Hk Hin). congruence.
  - intros key folder. unfold getSessionKeyFromFolder, getFolderFromSessionKey.
    rewrite parse_of_key_text.
    destruct (getTopic db (chatId key) (topicId key)) as [row|] eqn:E; [|discriminate].
    intros [= <-]. apply getTopic_In in E as (Hin & Hc & Ht).
    rewrite (folder_leads_back db row Hf Hin), Hc, Ht. destruct key; reflexivity.
Qed.

Lemma sessionKeyToString_inj k k' :
  sessionKeyToString k = sessionKeyToString k' -> k = k'.
Proof.
  intros H. apply (f_equal parseSessionKey) in H.
  rewrite !parse_of_key_text in H.
  destruct k, k'. simpl in H. congruence.
Qed.

(** X14. The debouncer keeps the sessions apart: buffering a message of
    one session, or flushing that session's buffer, leaves the buffer of
    every other session as it was. *)
Theorem sessions_have_separate_buffers msg d key' hasHandler :
  bm_sessionKey msg <> key' ->
  messageBuffers (bufferMessage msg d) !! getBufferKey key'
  = messageBuffers d !! getBufferKey key'
  /\ messageBuffers
       (fst (flushMessageBuffer hasHandler (getBufferKey (bm_sessionKey msg)) d))
     !! getBufferKey key'
     = messageBuffers d !! getBufferKey key'.
Proof.
  intros Hne.
  assert (Hk : getBufferKey (bm_sessionKey msg) <> getBufferKey key').
  { intros E. apply Hne, sessionKeyToString_inj, E. }
  split.
  - unfold bufferMessage. simpl. apply lookup_insert_ne, Hk.
  - unfold flushMessageBuffer.
    destruct (messageBuffers d !! getBufferKey (bm_sessionKey msg)) as [buffered|];
      [|reflexivity].
    destruct (sort_by bm_timestamp buffered) as [|first rest]; [reflexivity|].
    destruct hasHandler; simpl; [|reflexivity].
    apply lookup_delete_ne, Hk.
Qed.

Lemma sessions_have_separate_buffers_witness :
  messageBuffers (bufferMessage ann_hi ann_twice_buffered)
    !! getBufferKey {| chatId := 200; topicId := 0 |}
  = messageBuffers ann_twice_buffered !! getBufferKey {| chatId := 200; topicId := 0 |}
  /\ messageBuffers
       (fst (flushMessageBuffer true (getBufferKey (bm_sessionKey ann_hi))
               ann_twice_buffered))
     !! getBufferKey {| chatId := 200; topicId := 0 |}
     = messageBuffers ann_twice_buffered !! getBufferKey {| chatId := 200; topicId := 0 |}.
Proof.
  apply (sessions_have_separate_buffers ann_hi ann_twice_buffered
           {| chatId := 200; topicId := 0 |} true).
  discriminate.
Defined.

Lemma buffer_after_messages msgs key : forall d,
  Forall (fun m => bm_sessionKey m = key) msgs ->
  let d1 := fold_left (fun d m => bufferMessage m d) msgs d in
  messageBuffers d1 !! getBufferKey key
  = match msgs with
    | [] => messageBuffers d !! getBufferKey key
    | _ :: _ => Some (default [] (messageBuffers d !! getBufferKey key) ++ msgs)
    end.
Proof.
  induction msgs as [|m rest IH]; intros d Hall; [reflexivity|].
  inversion Hall as [|? ? Hm Hrest]; subst. simpl.
  rewrite (IH _ Hrest).
  assert (Hm0 : messageBuffers (bufferMessage m d) !! getBufferKey (bm_sessionKey m)
                = Some (default [] (messageBuffers d !! getBufferKey (bm_sessionKey m))
                        ++ [m])).
  { unfold bufferMessage. simpl. apply lookup_insert_eq. }
  rewrite Hm0. simpl.
  destruct rest; [reflexivity|]. rewrite <- app_assoc. reflexivity.
Qed.

Lemma Forall_head_of_perm {A} (P : A -> Prop) l x r :
  Forall P l -> Permutation (x :: r) l -> P x.
Proof.
  intros H Hp. rewrite List.Forall_forall in H. apply H.
  apply (Permutation_in _ Hp). left. reflexivity.
Qed.

(** X15. Messages of one session buffered one after the other, on an
    empty buffer, are handed over by one flush, all of them, merged in the
    order of their timestamps; the flush leaves neither buffer nor timer
    behind, and a second flush hands over nothing. *)
Theorem buffered_messages_are_flushed_once msgs key d :
  msgs <> [] ->
  Forall (fun m => bm_sessionKey m = key) msgs ->
  messageBuffers d !! getBufferKey key = None ->
  let d1 := fold_left (fun d m => bufferMessage m d) msgs d in
  exists call d2,
    flushMessageBuffer true (getBufferKey key) d1 = (d2, Some call)
    /\ hc_content call
       = join nl (map (line_of (List.length msgs)) (sort_by bm_timestamp msgs))
    /\ hc_sessionKey call = key
    /\ messageBuffers d2 !! getBufferKey key = None
    /\ (getBufferKey key ∉ debounceTimers d2)
    /\ flushMessageBuffer true (getBufferKey key) d2 = (d2, None).
Proof.
  intros Hne Hall Hempty d1.
  pose proof (buffer_after_messages msgs key d Hall) as Hbuf. simpl in Hbuf.
  fold d1 in Hbuf. rewrite Hempty in Hbuf. simpl in Hbuf.
  destruct msgs as [|m0 rest0] eqn:Emsgs; [contradiction|]. rewrite <- Emsgs in *.
  unfold flushMessageBuffer at 1. rewrite Hbuf.
  pose proof (sort_by_perm bm_timestamp msgs) as Hperm.
  pose proof (sort_by_length bm_timestamp msgs) as Hlen.
  destruct (sort_by bm_timestamp msgs) as [|first rest] eqn:Esort.
  { exfalso. rewrite Emsgs in Hlen. discriminate Hlen. }
  simpl negb. cbv iota.
  eexists _, _. split; [reflexivity|]. simpl.
  split; [simpl in Hlen; rewrite <- Hlen; reflexivity|].
  split; [exact (Forall_head_of_perm _ _ _ _ Hall Hperm)|].
  split; [apply lookup_delete_eq|].
  split; [intros Hin; apply elem_of_difference in Hin as [_ Hn]; apply Hn, elem_of_singleton; reflexivity|].
  unfold flushMessageBuffer. simpl. rewrite lookup_delete_eq. reflexivity.
Qed.

Lemma buffered_messages_are_flushed_once_witness :
  let key := {| chatId := 100; topicId := 0 |} in
  let d0 := {| messageBuffers := ∅; debounceTimers := ∅ |} in
  let d1 := fold_left (fun d m => bufferMessage m d) [ann_there; ann_hi] d0 in
  exists call d2,
    flushMessageBuffer true (getBufferKey key) d1 = (d2, Some call)
    /\ hc_content call
       = join nl (map (line_of 2) (sort_by bm_timestamp [ann_there; ann_hi]))
    /\ hc_sessionKey call = key
    /\ messageBuffers d2 !! getBufferKey key = None
    /\ (getBufferKey key ∉ debounceTimers d2)
    /\ flushMessageBuffer true (getBufferKey key) d2 = (d2, None).
Proof.
  intros key d0.
  apply (buffered_messages_are_flushed_once [ann_there; ann_hi] key d0).
  - discriminate.
  - repeat constructor.
  - reflexivity.
Defined.

Lemma folder_and_key_text_convert_back_witness :
  (forall folder s,
     getSessionKeyFromFolder two_chats_db folder = Some s ->
     getFolderFromSessionKey two_chats_db s = Some folder)
  /\ (forall key folder,
        getFolderFromSessionKey two_chats_db (sessionKeyToString key) = Some folder ->
        getSessionKeyFromFolder two_chats_db folder = Some (sessionKeyToString key)).
Proof.
  apply (folder_and_key_text_convert_back two_chats_db).
  - unfold keys_unique. simpl. repeat constructor; simpl.
    + intros [H|[]]. discriminate H.
    + tauto.
  - unfold folders_unique. simpl. repeat constructor; simpl.
    + intros [H|[]]. discriminate H.
    + tauto.
Defined.

Lemma session_key_text_round_trip_witness :
  let key := {| chatId := -1001234567890; topicId := 42 |} in
  sessionKeyToString key = "-1001234567890_42"
  /\ parseSessionKey "-1001234567890_42" = (Some (-1001234567890), Some 42)
  /\ forall key',
       safe_integer (chatId key') -> safe_integer (topicId key') ->
       sessionKeyToString key' = "-1001234567890_42" -> key' = key.
Proof.
  intros key.
  destruct (session_key_text_round_trip key) as [Hparse Hsame].
  - unfold safe_integer. simpl. lia.
  - unfold safe_integer. simpl. lia.
  - split; [reflexivity|]. split; [exact Hparse | exact Hsame].
Defined.

End KeyTextFacts.

(** ** Escaping, the prompt window and sessions (index.ts) *)
Section DispatchFacts.
Import Text Config Db Types SessionManager Telegram Worker Index Props Notions.

Lemma esc_no_markup d : Forall (fun c => markup_char c = false) (esc d).
Proof.
  unfold esc.
  destruct (Ascii.eqb d "&") eqn:E1; [repeat constructor|].
  destruct (Ascii.eqb d "<") eqn:E2; [repeat constructor|].
  destruct (Ascii.eqb d ">") eqn:E3; [repeat constructor|].
  destruct (Ascii.eqb d (ascii_of_nat 34)) eqn:E4; [repeat constructor|].
  constructor; [|constructor]. unfold markup_char. rewrite E2, E3, E4. reflexivity.
Qed.

Lemma esc_cancel d1 d2 r1 r2 :
  esc d1 ++ r1 = esc d2 ++ r2 -> d1 = d2 /\ r1 = r2.
Proof.
  unfold esc.
  destruct (Ascii.eqb d1 "&") eqn:A1; [apply Ascii.eqb_eq in A1; subst d1|];
  [|destruct (Ascii.eqb d1 "<") eqn:A2; [apply Ascii.eqb_eq in A2; subst d1|]];
  [| |destruct (Ascii.eqb d1 ">") eqn:A3; [apply Ascii.eqb_eq in A3; subst d1|]];
  [| | |destruct (Ascii.eqb d1 (ascii_of_nat 34)) eqn:A4;
          [apply Ascii.eqb_eq in A4; subst d1|]];
  (destruct (Ascii.eqb d2 "&") eqn:B1; [apply Ascii.eqb_eq in B1; subst d2|];
   [|destruct (Ascii.eqb d2 "<") eqn:B2; [apply Ascii.eqb_eq in B2; subst d2|]];
   [| |destruct (Ascii.eqb d2 ">") eqn:B3; [apply Ascii.eqb_eq in B3; subst d2|]];
   [| | |destruct (Ascii.eqb d2 (ascii_of_nat 34)) eqn:B4;
           [apply Ascii.eqb_eq in B4; subst d2|]]);
  simpl; intros H; try discriminate H;
  try (injection H as H; subst; split; reflexivity);
  try (injection H as H; subst;
       repeat match goal with
              | E : Ascii.eqb ?c ?c = false |- _ =>
                  rewrite Ascii.eqb_refl in E; discriminate E
              end).
Qed.

Lemma flat_map_esc_inj l1 : forall l2,
  flat_map esc l1 = flat_map esc l2 -> l1 = l2.
Proof.
  assert (Hne : forall d r, esc d ++ r <> []).
  { intros d r. unfold esc.
    destruct (Ascii.eqb d "&"); [discriminate|].
    destruct (Ascii.eqb d "<"); [discriminate|].
    destruct (Ascii.eqb d ">"); [discriminate|].
    destruct (Ascii.eqb d (ascii_of_nat 34)); discriminate. }
  induction l1 as [|d1 l1 IH]; intros [|d2 l2]; simpl; intros H.
  - reflexivity.
  - symmetry in H. apply Hne in H. contradiction.
  - apply Hne in H. contradiction.
  - apply esc_cancel in H as [-> H]. f_equal. apply IH, H.
Qed.

(** X16. The escaped form of a text holds none of the characters [<],
    [>] and the double quote, so a sender name or a message cannot close
    or open an element of the prompt; and no two texts have the same
    escaped form. *)
Theorem escapeXml_is_safe_and_reversible (s : string) :
  Forall (fun c => markup_char c = false) (chars (escapeXml s))
  /\ forall s', escapeXml s' = escapeXml s -> s' = s.
Proof.
  rewrite escapeXml_chars. split.
  - rewrite chars_text. apply Forall_flat_map.
    apply List.Forall_forall. intros d _. apply esc_no_markup.
  - intros s' H. rewrite escapeXml_chars in H.
    apply (f_equal chars) in H. rewrite !chars_text in H.
    apply flat_map_esc_inj in H.
    apply (f_equal text) in H. rewrite !text_chars in H. exact H.
Qed.

Variable ASSISTANT_NAME : string.
Variable toISOString : instant -> string.
Variable pool : ContainerInput -> Awaited.

Lemma window_after now db chat topic botName m :
  In m (getMessagesSince db chat topic (Some now) botName) -> now < nm_timestamp m.
Proof.
  unfold getMessagesSince. intros H. apply in_map_iff in H as (r & <- & Hr).
  apply (Permutation_in _ (sort_by_perm msg_timestamp _)) in Hr.
  apply filter_In in Hr as [_ Hf]. unfold since_filter in Hf.
  repeat (apply andb_prop in Hf as [Hf ?]).
  simpl. apply Z.ltb_lt. assumption.
Qed.

Lemma runAgent_timestamps st folder rc key prompt :
  lastAgentTimestamp (fst (runAgent pool st folder rc key prompt))
  = lastAgentTimestamp st.
Proof.
  unfold runAgent. destruct (pool _) as [output|msg]; [|reflexivity].
  destruct (truthy (co_newSessionId output)), (String.eqb (co_status output) "error");
    reflexivity.
Qed.

(** X17. Only an answered dispatch moves the prompt window of a folder.
    When nothing is sent to the chat, the window stays where it was.
    When an answer is sent, the window starts at the clock reading taken
    after the run: no message stamped at or before it is offered to the
    worker again, whether it was part of the prompt or arrived while the
    worker ran. *)
Theorem only_an_answer_moves_the_window now registeredChats db st key folder
    content senderName messageId replyToMessageId :
  let result := handleMessage ASSISTANT_NAME toISOString pool now registeredChats db st
                  key folder content senderName messageId replyToMessageId in
  (snd result = [] /\ lastAgentTimestamp (fst result) = lastAgentTimestamp st)
  \/ (exists body,
        snd result = [SendText (chatId key) (topicId key)
                        (ASSISTANT_NAME +:+ ": " +:+ body)
                        (if messageId =? 0 then None else Some messageId)]
        /\ lastAgentTimestamp (fst result) = <[folder := now]> (lastAgentTimestamp st)
        /\ forall db' m,
             In m (getMessagesSince db' (chatId key) (topicId key)
                     (lastAgentTimestamp (fst result) !! folder) ASSISTANT_NAME) ->
             now < nm_timestamp m).
Proof.
  intros result. subst result. unfold handleMessage.
  destruct (SessionManager.getRegisteredChat registeredChats (chatId key)) as [rc|];
    [|left; split; reflexivity].
  set (prompt := buildPrompt _ _).
  pose proof (runAgent_timestamps st folder rc key prompt) as Hts.
  destruct (runAgent pool st folder rc key prompt) as [st' response]. simpl in Hts.
  destruct (truthy response) eqn:Ht; [|left; split; [reflexivity | exact Hts]].
  right. destruct response as [body|]; [|discriminate Ht].
  exists body. simpl. split; [reflexivity|]. split; [rewrite Hts; reflexivity|].
  intros db' m. rewrite lookup_insert_eq. apply window_after.
Qed.

(** X18. For a folder whose name is no inherited property name of an
    object: a session id reported by the worker is kept for the folder
    even when the run failed, and the next job of the folder carries it;
    the sessions of the other such folders are not touched. *)
Theorem reported_session_is_resumed st folder rc key prompt output sid :
  plain_key folder ->
  pool (agentInput st folder rc key prompt) = Resolved output ->
  co_newSessionId output = Some sid -> sid <> EmptyString ->
  let st' := fst (runAgent pool st folder rc key prompt) in
  (forall rc' key' prompt',
     ci_sessionId (agentInput st' folder rc' key' prompt') = Some sid)
  /\ forall folder', plain_key folder' -> folder' <> folder ->
       sessions st' !! folder' = sessions st !! folder'.
Proof.
  intros _ Hpool Hsid Hne st'. subst st'. unfold runAgent. rewrite Hpool, Hsid.
  destruct sid as [|c sid]; [contradiction|]. simpl.
  destruct (String.eqb (co_status output) "error"); simpl; split;
    try (intros; apply lookup_insert_eq);
    intros folder' _ Hf; apply lookup_insert_ne; congruence.
Qed.

End DispatchFacts.

Lemma reported_session_is_resumed_witness :
  let rc := group_chat 100 "Family Chat" in
  let key := {| Types.chatId := 100; Types.topicId := 0 |} in
  let st' := fst (Index.runAgent Notions.failing_pool fresh_router "family-chat" rc key
                    "hello") in
  (forall rc' key' prompt',
     Worker.ci_sessionId (Index.agentInput st' "family-chat" rc' key' prompt')
     = Some "session-9")
  /\ forall folder', Notions.plain_key folder' -> folder' <> "family-chat" ->
       Index.sessions st' !! folder' = Index.sessions fresh_router !! folder'.
Proof.
  intros rc key.
  apply (reported_session_is_resumed Notions.failing_pool fresh_router "family-chat"
           rc key "hello" Notions.failing_output "session-9").
  - unfold Notions.plain_key, Notions.prototype_keys. simpl.
    intros H. repeat (destruct H as [H|H]; [discriminate H|]). exact H.
  - reflexivity.
  - reflexivity.
  - discriminate.
Defined.
(** ** Task requests of the workers (index.ts) *)
Section TaskRequestFacts.
Import Text Config Db Types SessionManager Worker Scheduler TaskIpc Props Notions.
Variable TIMEZONE : string.
Variable cronNext : string -> string -> instant -> option instant.
Variable parseDate : string -> option instant.

(** What a request can do to the supervisor. *)
Lemma processTaskIpc_cases clock taskId data src isMain s r :
  processTaskIpc TIMEZONE cronNext parseDate clock taskId data src isMain s = Some r ->
  r = s
  \/ (exists task, insertTask task s = Some r /\ task_id task = taskId
                   /\ task_status task = "active"
                   /\ (isMain = false -> task_folder task = src))
  \/ (exists id status, mayTouch s id src isMain = true
                        /\ r = with_store s (updateTaskStatus id status (store s)))
  \/ (exists id, mayTouch s id src isMain = true
                 /\ r = with_store s (deleteTask id (store s)))
  \/ (isMain = true /\ store r = store s).
Proof.
  unfold processTaskIpc.
  destruct (String.eqb (td_type data) "schedule_task").
  { destruct (td_chatId data) as [chat|]; [|intros [= <-]; auto].
    destruct (truthy (td_prompt data) && truthy (td_scheduleType data)
              && truthy (td_scheduleValue data) && truthy (td_folder data))%bool;
      [|intros [= <-]; auto].
    destruct (negb isMain && negb (String.eqb (default EmptyString (td_folder data)) src))%bool
      eqn:Hauth; [intros [= <-]; auto|].
    assert (Hfolder : isMain = false -> default EmptyString (td_folder data) = src).
    { intros ->. simpl in Hauth. apply negb_false_iff, String.eqb_eq in Hauth.
      exact Hauth. }
    cbv zeta.
    destruct (String.eqb _ "cron").
    { destruct (cronNext _ _ _); [|intros [= <-]; auto].
      intros H. right. left. eexists. split; [exact H|]. simpl. auto. }
    destruct (String.eqb _ "interval").
    { destruct (parseInt _) as [ms|]; [|intros [= <-]; auto].
      destruct (ms <=? 0); [intros [= <-]; auto|].
      destruct (valid_date _); [|discriminate].
      intros H. right. left. eexists. split; [exact H|]. simpl. auto. }
    destruct (String.eqb _ "once").
    { destruct (parseDate _); [|intros [= <-]; auto].
      intros H. right. left. eexists. split; [exact H|]. simpl. auto. }
    intros H. right. left. eexists. split; [exact H|]. simpl. auto. }
  destruct (String.eqb (td_type data) "pause_task").
  { destruct (truthy (td_taskId data)); [|intros [= <-]; auto].
    destruct (mayTouch s _ src isMain) eqn:Hm; intros [= <-]; [|auto].
    right. right. left. eauto. }
  destruct (String.eqb (td_type data) "resume_task").
  { destruct (truthy (td_taskId data)); [|intros [= <-]; auto].
    destruct (mayTouch s _ src isMain) eqn:Hm; intros [= <-]; [|auto].
    right. right. left. eauto. }
  destruct (String.eqb (td_type data) "cancel_task").
  { destruct (truthy (td_taskId data)); [|intros [= <-]; auto].
    destruct (mayTouch s _ src isMain) eqn:Hm; intros [= <-]; [|auto].
    right. right. right. left. eauto. }
  destruct (String.eqb (td_type data) "register_chat").
  { destruct isMain; [|intros [= <-]; auto]. simpl.
    destruct (td_chatId data); [|intros [= <-]; auto].
    destruct (truthy (td_chatType data) && truthy (td_chatTitle data))%bool;
      intros [= <-]; auto.
    right. right. right. right. auto. }
  destruct (String.eqb (td_type data) "service_control").
  { destruct isMain; [|intros [= <-]; auto]. simpl.
    destruct (bool_decide _); [intros [= <-]; right; right; right; right; auto|].
    destruct (bool_decide _); intros [= <-]; auto.
    right. right. right. right. auto. }
  intros [= <-]. auto.
Qed.

Lemma insertTask_spec task s r :
  insertTask task s = Some r ->
  getTaskById (store s) (task_id task) = None
  /\ r = with_store s (createTask task (store s)).
Proof.
  unfold insertTask. destruct (getTaskById (store s) (task_id task)); [discriminate|].
  intros [= <-]. auto.
Qed.

Lemma mayTouch_spec s id src isMain :
  mayTouch s id src isMain = true ->
  exists task, getTaskById (store s) id = Some task
               /\ (isMain = false -> task_folder task = src).
Proof.
  unfold mayTouch. destruct (getTaskById (store s) id) as [task|]; [|discriminate].
  intros H. exists task. split; [reflexivity|]. intros ->. simpl in H.
  apply String.eqb_eq, H.
Qed.

Lemma fresh_id_not_listed (l : list ScheduledTask) id :
  List.find (fun t => String.eqb (task_id t) id) l = None -> ~ In id (map task_id l).
Proof.
  intros F Hin. apply in_map_iff in Hin as (t & Ht & Hin).
  apply (find_none _ _ F) in Hin. rewrite Ht, String.eqb_refl in Hin. discriminate.
Qed.

(** X19. Whatever a task request asks and whoever sends it, the supervisor
    keeps the ids of the task table unique and leaves the topics and the
    messages alone. *)
Theorem task_requests_keep_the_store_sound clock taskId data src isMain s r :
  task_ids_unique (store s) ->
  processTaskIpc TIMEZONE cronNext parseDate clock taskId data src isMain s = Some r ->
  task_ids_unique (store r)
  /\ topics (store r) = topics (store s)
  /\ messages (store r) = messages (store s).
Proof.
  intros Hnd H. unfold task_ids_unique in *.
  apply processTaskIpc_cases in H
    as [->|[(task & H & _)|[(id & status & _ & ->)|[(id & _ & ->)|[_ H]]]]].
  - auto.
  - apply insertTask_spec in H as [Hfresh ->]. simpl. split; [|auto].
    rewrite map_app. apply List.NoDup_app; [exact Hnd | repeat constructor; simpl; tauto|].
    intros x Hx [<-|[]]. exact (fresh_id_not_listed _ _ Hfresh Hx).
  - simpl. split; [|auto]. rewrite ids_after_update; [exact Hnd | reflexivity].
  - simpl. split; [|auto]. apply NoDup_map_filter, Hnd.
  - rewrite H. auto.
Qed.

Lemma filter_map_unchanged {A} (keep : A -> bool) (f : A -> A) l :
  (forall x, In x l -> keep (f x) = keep x) ->
  (forall x, In x l -> keep x = true -> f x = x) ->
  List.filter keep (map f l) = List.filter keep l.
Proof.
  induction l as [|x r IH]; intros Hk Hf; simpl; [reflexivity|].
  rewrite Hk by (left; reflexivity).
  rewrite (IH (fun y Hy => Hk y (or_intror Hy)) (fun y Hy => Hf y (or_intror Hy))).
  destruct (keep x) eqn:E; [|reflexivity].
  rewrite Hf; auto. left. reflexivity.
Qed.

Lemma filter_filter_other_in {A} (f g : A -> bool) l :
  (forall x, In x l -> f x = true -> g x = true) ->
  List.filter f (List.filter g l) = List.filter f l.
Proof.
  induction l as [|x r IH]; intros Hfg; simpl; [reflexivity|].
  specialize (IH (fun y Hy => Hfg y (or_intror Hy))).
  destruct (g x) eqn:Eg; simpl.
  - destruct (f x); rewrite IH; reflexivity.
  - destruct (f x) eqn:Ef; [|exact IH].
    rewrite (Hfg x (or_introl eq_refl) Ef) in Eg. discriminate.
Qed.

(** X20. A task request sent from a folder other than [main] cannot
    reach beyond that folder: the chat registry and the service are
    untouched, every task of another folder stays in the table as it is,
    and so do the run logs of those tasks. *)
Theorem task_requests_stay_in_their_folder clock taskId data src s r :
  src <> MAIN_FOLDER ->
  task_ids_unique (store s) ->
  processTaskFile TIMEZONE cronNext parseDate clock taskId data src s = Some r ->
  registeredChats r = registeredChats s
  /\ serviceActions r = serviceActions s
  /\ List.filter (fun t => negb (String.eqb (task_folder t) src)) (scheduled_tasks (store r))
     = List.filter (fun t => negb (String.eqb (task_folder t) src)) (scheduled_tasks (store s))
  /\ forall t, In t (scheduled_tasks (store s)) -> task_folder t <> src ->
       List.filter (fun l => String.eqb (log_taskId l) (task_id t)) (task_run_logs (store r))
       = List.filter (fun l => String.eqb (log_taskId l) (task_id t))
           (task_run_logs (store s)).
Proof.
  intros Hsrc Hnd H. unfold processTaskFile in H.
  assert (Hmain : isMainFolder src = false).
  { destruct (isMainFolder src) eqn:E; [|reflexivity].
    apply isMainFolder_spec in E. contradiction. }
  rewrite Hmain in H.
  apply processTaskIpc_cases in H
    as [->|[(task & H & _ & _ & Hf)|[(id & status & Hm & ->)|[(id & Hm & ->)|[Hm _]]]]].
  - auto.
  - apply insertTask_spec in H as [_ ->]. simpl. split; [reflexivity|].
    split; [reflexivity|]. split; [|reflexivity].
    rewrite List.filter_app. simpl. rewrite (Hf eq_refl), String.eqb_refl. simpl.
    apply app_nil_r.
  - apply mayTouch_spec in Hm as (task & Hfind & Hf). specialize (Hf eq_refl).
    simpl. split; [reflexivity|]. split; [reflexivity|]. split; [|reflexivity].
    apply filter_map_unchanged.
    + intros x _. destruct (String.eqb (task_id x) id); reflexivity.
    + intros x Hx Hkeep. destruct (String.eqb (task_id x) id) eqn:E; [|reflexivity].
      apply String.eqb_eq in E.
      rewrite (unique_id_found _ id task x Hnd Hfind Hx E) in Hkeep.
      rewrite Hf, String.eqb_refl in Hkeep. discriminate.
  - apply mayTouch_spec in Hm as (task & Hfind & Hf). specialize (Hf eq_refl).
    assert (Hown : forall x, In x (scheduled_tasks (store s)) ->
                             task_folder x <> src -> task_id x <> id).
    { intros x Hx Hfx E. apply Hfx.
      rewrite (unique_id_found _ id task x Hnd Hfind Hx E). exact Hf. }
    simpl. split; [reflexivity|]. split; [reflexivity|]. split.
    + apply filter_filter_other_in. intros x Hin Hx.
      apply negb_true_iff, String.eqb_neq in Hx.
      apply negb_true_iff, String.eqb_neq. apply Hown; assumption.
    + intros t Ht Hft. apply filter_filter_other. intros l Hl.
      apply String.eqb_eq in Hl. apply negb_true_iff, String.eqb_neq.
      rewrite Hl. apply Hown; assumption.
  - discriminate.
Qed.

Lemma parseInt_nonempty value ms : parseInt value = Some ms -> value <> EmptyString.
Proof. intros H ->. discriminate H. Qed.

Lemma schedule_request_authorized isMain folder src :
  isMain = true \/ folder = src ->
  (negb isMain && negb (String.eqb folder src))%bool = false.
Proof.
  intros [->| ->]; [reflexivity|]. rewrite String.eqb_refl. apply andb_false_r.
Qed.

Lemma created_task_is_found task db id :
  task_id task = id -> getTaskById db id = None ->
  getTaskById (createTask task db) id = Some task.
Proof.
  unfold getTaskById, createTask. simpl. intros <- H.
  rewrite find_app_None by exact H. simpl. rewrite String.eqb_refl. reflexivity.
Qed.

Lemma created_task_due now task db :
  In task (getDueTasks now (createTask task db)) <-> is_due now task = true.
Proof.
  unfold getDueTasks. split.
  - intros H. apply (Permutation_in _ (sort_by_perm next_run_key _)) in H.
    apply filter_In in H. tauto.
  - intros H. apply (Permutation_in _ (Permutation_sym (sort_by_perm next_run_key _))).
    apply filter_In. split; [|exact H]. simpl. apply in_app_iff. right. left. reflexivity.
Qed.

(** X21. While the clock reading of the request, the end of the interval
    and the clock reading of the query all lie in the years written with
    four digits: an interval request with a positive number of
    milliseconds, for the sender's own folder or sent from [main],
    creates an active task that is due exactly from one interval after
    the clock reading of the request. *)
Theorem interval_request_is_due_after_the_interval clock taskId src isMain s
    value prompt folder chat topic contextMode ms :
  prompt <> EmptyString -> folder <> EmptyString ->
  isMain = true \/ folder = src ->
  parseInt value = Some ms -> 0 < ms ->
  four_digit_year (c_schedule clock) ->
  four_digit_year (c_schedule clock + ms) ->
  getTaskById (store s) taskId = None ->
  exists r t,
    processTaskIpc TIMEZONE cronNext parseDate clock taskId
      (schedule_request "interval" value prompt folder chat topic contextMode)
      src isMain s = Some r
    /\ getTaskById (store r) taskId = Some t
    /\ task_folder t = folder /\ task_prompt t = prompt /\ task_chatId t = chat
    /\ task_nextRun t = Some (c_schedule clock + ms)
    /\ forall now, four_digit_year now ->
         (In t (getDueTasks now (store r)) <-> c_schedule clock + ms <= now).
Proof.
  intros Hp Hf Hauth Hms Hpos _ Hyear Hfresh.
  assert (Hvalid : valid_date (c_schedule clock + ms) = true).
  { unfold valid_date. apply Z.leb_le. unfold four_digit_year in Hyear. lia. }
  unfold processTaskIpc, schedule_request.
  cbn [td_type td_chatId td_prompt td_scheduleType td_scheduleValue td_folder
       td_topicId td_contextMode].
  rewrite (truthy_nonempty _ Hp), (truthy_nonempty _ Hf),
    (truthy_nonempty _ (parseInt_nonempty _ _ Hms)).
  change (truthy (Some "interval")) with true.
  change (default EmptyString (Some folder)) with folder.
  rewrite (schedule_request_authorized _ _ _ Hauth). simpl. rewrite Hms.
  assert ((ms <=? 0) = false) as -> by (apply Z.leb_gt; exact Hpos).
  rewrite Hvalid. unfold insertTask. simpl. rewrite Hfresh.
  eexists _, _. split; [reflexivity|]. simpl.
  split; [apply created_task_is_found; [reflexivity | exact Hfresh]|].
  split; [reflexivity|]. split; [reflexivity|]. split; [reflexivity|].
  split; [reflexivity|].
  intros now _. rewrite created_task_due. unfold is_due. simpl. apply Z.leb_le.
Qed.

(** X22. The supervisor does not check the schedule type of a request: a
    request whose type is none of [cron], [interval] and [once] creates
    an active task without a next run, which is due at no clock
    reading. *)
Theorem request_of_unknown_schedule_type_never_runs clock taskId src isMain s
    scheduleType value prompt folder chat topic contextMode :
  prompt <> EmptyString -> folder <> EmptyString ->
  scheduleType <> EmptyString -> value <> EmptyString ->
  isMain = true \/ folder = src ->
  scheduleType <> "cron" -> scheduleType <> "interval" -> scheduleType <> "once" ->
  getTaskById (store s) taskId = None ->
  exists r t,
    processTaskIpc TIMEZONE cronNext parseDate clock taskId
      (schedule_request scheduleType value prompt folder chat topic contextMode)
      src isMain s = Some r
    /\ getTaskById (store r) taskId = Some t
    /\ task_status t = "active" /\ task_nextRun t = None
    /\ forall now, ~ In t (getDueTasks now (store r)).
Proof.
  intros Hp Hf Ht Hv Hauth Hc Hi Ho Hfresh.
  unfold processTaskIpc, schedule_request.
  cbn [td_type td_chatId td_prompt td_scheduleType td_scheduleValue td_folder
       td_topicId td_contextMode].
  rewrite (truthy_nonempty _ Hp), (truthy_nonempty _ Hf), (truthy_nonempty _ Ht),
    (truthy_nonempty _ Hv).
  change (default EmptyString (Some folder)) with folder.
  change (default EmptyString (Some scheduleType)) with scheduleType.
  rewrite (schedule_request_authorized _ _ _ Hauth).
  apply String.eqb_neq in Hc, Hi, Ho. rewrite Hc, Hi, Ho. simpl.
  unfold insertTask. simpl. rewrite Hfresh.
  eexists _, _. split; [reflexivity|]. simpl.
  split; [apply created_task_is_found; [reflexivity | exact Hfresh]|].
  split; [reflexivity|]. split; [reflexivity|].
  intros now. rewrite created_task_due. unfold is_due. simpl. discriminate.
Qed.

Lemma with_store_same s : with_store s (store s) = s.
Proof. destruct s; reflexivity. Qed.

(** X23. The owner of an active task, or [main], can pause it with a
    request: the task is then due at no clock reading; a resume request
    gives back the supervisor as it was before the pause. *)
Theorem owner_pauses_and_resumes_its_task clock taskId src isMain s id t :
  id <> EmptyString ->
  task_ids_unique (store s) ->
  getTaskById (store s) id = Some t -> task_status t = "active" ->
  isMain = true \/ task_folder t = src ->
  exists paused,
    processTaskIpc TIMEZONE cronNext parseDate clock taskId
      (task_request "pause_task" id) src isMain s = Some paused
    /\ (forall now t', In t' (getDueTasks now (store paused)) -> task_id t' <> id)
    /\ processTaskIpc TIMEZONE cronNext parseDate clock taskId
         (task_request "resume_task" id) src isMain paused = Some s.
Proof.
  intros Hid Hnd Hfind Hactive Hauth.
  assert (Htouch : forall db', getTaskById db' id = Some (set_status "paused" t)
                               \/ getTaskById db' id = Some t ->
            forall regs acts,
              mayTouch {| store := db'; registeredChats := regs;
                          serviceActions := acts |} id src isMain = true).
  { intros db' Hdb regs acts. unfold mayTouch. simpl.
    destruct Hauth as [->|Hsrc]; [destruct Hdb as [-> | ->]; reflexivity|].
    destruct Hdb as [-> | ->]; simpl; rewrite Hsrc, String.eqb_refl;
      apply orb_true_r. }
  exists (with_store s (updateTaskStatus id "paused" (store s))).
  split; [|split].
  - unfold processTaskIpc, task_request. cbn [td_type td_taskId].
    rewrite (truthy_nonempty _ Hid). simpl.
    destruct s as [db regs acts]. simpl in *.
    rewrite (Htouch db (or_intror Hfind)). reflexivity.
  - intros now t'. simpl.
    apply (proj1 (paused_and_resumed now id (store s) t Hnd Hfind Hactive)).
  - unfold processTaskIpc, task_request. cbn [td_type td_taskId].
    rewrite (truthy_nonempty _ Hid). simpl.
    destruct s as [db regs acts]. simpl in *. unfold with_store. simpl.
    rewrite Htouch.
    + rewrite (proj2 (paused_and_resumed 0 id db t Hnd Hfind Hactive)).
      reflexivity.
    + left. unfold getTaskById, updateTaskStatus. simpl.
      rewrite find_task_after_update by reflexivity.
      unfold getTaskById in Hfind. rewrite Hfind. reflexivity.
Qed.

End TaskRequestFacts.

Lemma task_requests_keep_the_store_sound_witness :
  let s := Notions.supervisor_of Notions.two_tasks_db in
  let r := TaskIpc.with_store s (Db.deleteTask "task-3" Notions.two_tasks_db) in
  Notions.task_ids_unique (TaskIpc.store r)
  /\ Db.topics (TaskIpc.store r) = Db.topics (TaskIpc.store s)
  /\ Db.messages (TaskIpc.store r) = Db.messages (TaskIpc.store s).
Proof.
  intros s r.
  apply (task_requests_keep_the_store_sound "UTC" Notions.no_cron Notions.no_date
           (Notions.clock_of_request 1000) "task-9"
           (Notions.task_request "cancel_task" "task-3") "family-chat" false s r).
  - exact two_tasks_ids_unique.
  - reflexivity.
Defined.

Lemma task_requests_stay_in_their_folder_witness :
  let s := Notions.supervisor_of Notions.two_tasks_db in
  let r := TaskIpc.with_store s (Db.deleteTask "task-3" Notions.two_tasks_db) in
  TaskIpc.registeredChats r = TaskIpc.registeredChats s
  /\ TaskIpc.serviceActions r = TaskIpc.serviceActions s
  /\ List.filter (fun t => negb (String.eqb (Db.task_folder t) "family-chat"))
       (Db.scheduled_tasks (TaskIpc.store r))
     = List.filter (fun t => negb (String.eqb (Db.task_folder t) "family-chat"))
         (Db.scheduled_tasks (TaskIpc.store s))
  /\ forall t, In t (Db.scheduled_tasks (TaskIpc.store s)) ->
       Db.task_folder t <> "family-chat" ->
       List.filter (fun l => String.eqb (Db.log_taskId l) (Db.task_id t))
         (Db.task_run_logs (TaskIpc.store r))
       = List.filter (fun l => String.eqb (Db.log_taskId l) (Db.task_id t))
           (Db.task_run_logs (TaskIpc.store s)).
Proof.
  intros s r.
  apply (task_requests_stay_in_their_folder "UTC" Notions.no_cron Notions.no_date
           (Notions.clock_of_request 1000) "task-9"
           (Notions.task_request "cancel_task" "task-3") "family-chat" s r).
  - discriminate.
  - exact two_tasks_ids_unique.
  - reflexivity.
Defined.

Lemma interval_request_is_due_after_the_interval_witness :
  exists r t,
    TaskIpc.processTaskIpc "UTC" Notions.no_cron Notions.no_date
      (Notions.clock_of_request 1000) "task-9"
      (Notions.schedule_request "interval" "300000" "water the plants" "family-chat"
         100 None None)
      "family-chat" false (Notions.supervisor_of minutely_db) = Some r
    /\ Db.getTaskById (TaskIpc.store r) "task-9" = Some t
    /\ Db.task_folder t = "family-chat" /\ Db.task_prompt t = "water the plants"
    /\ Db.task_chatId t = 100
    /\ Db.task_nextRun t = Some (1000 + 300000)
    /\ forall now, Notions.four_digit_year now ->
         (In t (Db.getDueTasks now (TaskIpc.store r)) <-> 1000 + 300000 <= now).
Proof.
  apply (interval_request_is_due_after_the_interval "UTC" Notions.no_cron Notions.no_date
           (Notions.clock_of_request 1000) "task-9" "family-chat" false
           (Notions.supervisor_of minutely_db) "300000" "water the plants" "family-chat"
           100 None None 300000).
  - discriminate.
  - discriminate.
  - right. reflexivity.
  - reflexivity.
  - lia.
  - unfold Notions.four_digit_year. simpl. lia.
  - unfold Notions.four_digit_year. simpl. lia.
  - reflexivity.
Defined.

Lemma request_of_unknown_schedule_type_never_runs_witness :
  exists r t,
    TaskIpc.processTaskIpc "UTC" Notions.no_cron Notions.no_date
      (Notions.clock_of_request 1000) "task-9"
      (Notions.schedule_request "daily" "09:00" "say good morning" "family-chat"
         100 None None)
      "family-chat" false (Notions.supervisor_of minutely_db) = Some r
    /\ Db.getTaskById (TaskIpc.store r) "task-9" = Some t
    /\ Db.task_status t = "active" /\ Db.task_nextRun t = None
    /\ forall now, ~ In t (Db.getDueTasks now (TaskIpc.store r)).
Proof.
  apply (request_of_unknown_schedule_type_never_runs "UTC" Notions.no_cron
           Notions.no_date (Notions.clock_of_request 1000) "task-9" "family-chat" false
           (Notions.supervisor_of minutely_db) "daily" "09:00" "say good morning"
           "family-chat" 100 None None);
    try discriminate; try reflexivity.
  right. reflexivity.
Defined.

Lemma owner_pauses_and_resumes_its_task_witness :
  let s := Notions.supervisor_of minutely_db in
  exists paused,
    TaskIpc.processTaskIpc "UTC" Notions.no_cron Notions.no_date
      (Notions.clock_of_request 1000) "task-9"
      (Notions.task_request "pause_task" "task-2") "family-chat" false s = Some paused
    /\ (forall now t', In t' (Db.getDueTasks now (TaskIpc.store paused)) ->
                       Db.task_id t' <> "task-2")
    /\ TaskIpc.processTaskIpc "UTC" Notions.no_cron Notions.no_date
         (Notions.clock_of_request 1000) "task-9"
         (Notions.task_request "resume_task" "task-2") "family-chat" false paused
       = Some s.
Proof.
  intros s.
  apply (owner_pauses_and_resumes_its_task "UTC" Notions.no_cron Notions.no_date
           (Notions.clock_of_request 1000) "task-9" "family-chat" false s "task-2"
           minutely_task).
  - discriminate.
  - unfold Notions.task_ids_unique. simpl. repeat constructor. simpl. tauto.
  - reflexivity.
  - reflexivity.
  - right. reflexivity.
Defined.
(** ** The captured output of a cold container (container-pool.ts) *)
Section CaptureFacts.
Import Text ColdOutput Props Notions.
Variable CONTAINER_MAX_OUTPUT_SIZE : Z.
Hypothesis limit_not_negative : 0 <= CONTAINER_MAX_OUTPUT_SIZE.

Lemma length_chars s : List.length (chars s) = String.length s.
Proof. induction s as [|c s IH]; simpl; [reflexivity | rewrite IH; reflexivity]. Qed.

Lemma onStdoutData_capture_of seen chunk c :
  capture_of CONTAINER_MAX_OUTPUT_SIZE seen c ->
  capture_of CONTAINER_MAX_OUTPUT_SIZE (seen ++ chars chunk) (onStdoutData CONTAINER_MAX_OUTPUT_SIZE chunk c).
Proof.
  intros [Hout Htr]. unfold onStdoutData, capture_of.
  rewrite length_app, firstn_app.
  destruct (stdoutTruncated c) eqn:E.
  - symmetry in Htr. apply Z.ltb_lt in Htr.
    replace (Z.to_nat CONTAINER_MAX_OUTPUT_SIZE - List.length seen)%nat with 0%nat by lia.
    simpl. rewrite app_nil_r. split; [exact Hout|].
    rewrite E. symmetry. apply Z.ltb_lt. lia.
  - symmetry in Htr. apply Z.ltb_ge in Htr.
    assert (Hseen : chars (stdout c) = seen).
    { rewrite Hout. apply firstn_all2. lia. }
    rewrite <- length_chars, Hseen, <- length_chars.
    rewrite (firstn_all2 seen) by lia.
    destruct (CONTAINER_MAX_OUTPUT_SIZE - Z.of_nat (List.length seen)
              <? Z.of_nat (List.length (chars chunk))) eqn:R; simpl.
    + apply Z.ltb_lt in R. rewrite chars_append, chars_text, Hseen.
      unfold slice_to.
      assert ((CONTAINER_MAX_OUTPUT_SIZE - Z.of_nat (List.length seen) <? 0) = false)
        as -> by (apply Z.ltb_ge; lia).
      split.
      * f_equal. f_equal. lia.
      * symmetry. apply Z.ltb_lt. lia.
    + apply Z.ltb_ge in R. rewrite chars_append, Hseen. split.
      * f_equal. symmetry. apply firstn_all2. lia.
      * symmetry. apply Z.ltb_ge. lia.
Qed.

Lemma capture_from chunks : forall seen c,
  capture_of CONTAINER_MAX_OUTPUT_SIZE seen c ->
  capture_of CONTAINER_MAX_OUTPUT_SIZE (seen ++ flat_map chars chunks)
    (fold_left (fun c chunk => onStdoutData CONTAINER_MAX_OUTPUT_SIZE chunk c) chunks c).
Proof.
  induction chunks as [|chunk rest IH]; intros seen c H; simpl.
  - rewrite app_nil_r. exact H.
  - rewrite app_assoc. apply IH, onStdoutData_capture_of, H.
Qed.

(** X24. Whatever chunks a cold container writes, the captured output is
    the first [CONTAINER_MAX_OUTPUT_SIZE] characters of all it wrote, and
    the capture is marked truncated exactly when it wrote more than
    that. *)
Theorem captured_output_is_a_bounded_prefix (chunks : list string) :
  let written := flat_map chars chunks in
  let c := capture CONTAINER_MAX_OUTPUT_SIZE chunks in
  chars (stdout c) = firstn (Z.to_nat CONTAINER_MAX_OUTPUT_SIZE) written
  /\ Z.of_nat (String.length (stdout c)) <= CONTAINER_MAX_OUTPUT_SIZE
  /\ stdoutTruncated c = (CONTAINER_MAX_OUTPUT_SIZE <? Z.of_nat (List.length written)).
Proof.
  intros written c. subst written c. unfold capture.
  destruct (capture_from chunks [] started) as [Hout Htr].
  { split; [destruct (Z.to_nat CONTAINER_MAX_OUTPUT_SIZE); reflexivity|].
    simpl. symmetry. apply Z.ltb_ge. exact limit_not_negative. }
  simpl in Hout, Htr.
  split; [exact Hout|]. split; [|exact Htr].
  rewrite <- length_chars, Hout, length_firstn. lia.
Qed.

End CaptureFacts.

Lemma captured_output_is_a_bounded_prefix_witness :
  let chunks := ["hello "; "wor"; "ld"; "!"] in
  let c := ColdOutput.capture 8 chunks in
  Text.chars (ColdOutput.stdout c) = firstn (Z.to_nat 8) (flat_map Text.chars chunks)
  /\ Z.of_nat (String.length (ColdOutput.stdout c)) <= 8
  /\ ColdOutput.stdoutTruncated c
     = (8 <? Z.of_nat (List.length (flat_map Text.chars chunks))).
Proof.
  intros chunks c.
  apply (captured_output_is_a_bounded_prefix 8); lia.
Defined.
(** ** The warm pool: cleanup (container-pool.ts) *)
Section CleanupFacts.
Import Pool Props Notions.
Variable CONTAINER_WARM_TIMEOUT : Z.

(** X25. The cleanup timer never takes a worker away from a request: in
    every state the pool can reach, a worker with a request in flight is
    neither signalled nor dropped from the pool by a cleanup, however
    long ago it was last active, and the request stays in flight. *)
Theorem cleanup_spares_a_worker_at_work trace now r w :
  let p := run CONTAINER_WARM_TIMEOUT trace initial in
  in_flight p r w ->
  let p' := step CONTAINER_WARM_TIMEOUT now CleanupTick p in
  in_flight p' r w
  /\ heap p' !! w = heap p !! w
  /\ forall folder, containers p !! folder = Some w -> containers p' !! folder = Some w.
Proof.
  intros p Hfl p'.
  pose proof (pool_inv_run CONTAINER_WARM_TIMEOUT trace initial pool_inv_initial) as Hinv.
  fold p in Hinv. destruct Hfl as [f Hr].
  destruct (inv_in_flight _ Hinv r w f Hr) as (c & Hc & Hp & _).
  assert (Hidle : idle CONTAINER_WARM_TIMEOUT now c = false).
  { unfold idle. rewrite Hp. reflexivity. }
  subst p'. simpl. split; [exists f; exact Hr|]. split.
  - rewrite map_lookup_imap, Hc. simpl. rewrite Hidle, andb_false_r. reflexivity.
  - intros folder Hw. apply map_lookup_filter_Some. split; [exact Hw|].
    simpl. unfold doomed. rewrite Hc. exact Hidle.
Qed.

End CleanupFacts.

Lemma first_request_in_flight :
  Pool.in_flight (Pool.run 1800000 Notions.first_worker_at_work Pool.initial) 1%nat 1%nat.
Proof. exists "family-chat". reflexivity. Qed.

Lemma cleanup_spares_a_worker_at_work_witness :
  let p := Pool.run 1800000 Notions.first_worker_at_work Pool.initial in
  let p' := Pool.step 1800000 999999999 Pool.CleanupTick p in
  Pool.in_flight p' 1%nat 1%nat
  /\ Pool.heap p' !! 1%nat = Pool.heap p !! 1%nat
  /\ forall folder, Pool.containers p !! folder = Some 1%nat ->
                    Pool.containers p' !! folder = Some 1%nat.
Proof.
  exact (cleanup_spares_a_worker_at_work 1800000 Notions.first_worker_at_work 999999999
           1%nat 1%nat first_request_in_flight).
Defined.

(** ** Mounts (container-pool.ts) *)
Section MountFacts.
Import Text Config Types Mounts Props Notions.
Variable PROJECT_ROOT : string.
Variable hostfs : HostFs.
Variable validateAdditionalMounts : list AdditionalMount -> string -> bool -> list VolumeMount.

(** X26. Whatever exists on the host, the directories a container may
    write to are its group directory, its session directory and its
    mailbox directory, the project root for [main] and for no other
    folder, and the validated additional mounts that are writable. *)
Theorem writable_mounts_of_a_container (group : GroupConfig) (isMain : bool) :
  List.filter writable
    (buildVolumeMounts PROJECT_ROOT hostfs validateAdditionalMounts group isMain)
  = (if isMain
     then [ {| hostPath := PROJECT_ROOT; containerPath := "/workspace/project";
               readonly := false |} ]
     else [])
    ++ [ {| hostPath := path_join (GROUPS_DIR PROJECT_ROOT) (gc_folder group);
            containerPath := "/workspace/group"; readonly := false |};
         {| hostPath := path_join (path_join (path_join (DATA_DIR PROJECT_ROOT) "sessions")
                                     (gc_folder group)) ".claude";
            containerPath := "/home/node/.claude"; readonly := false |};
         {| hostPath := path_join (path_join (DATA_DIR PROJECT_ROOT) "ipc") (gc_folder group);
            containerPath := "/workspace/ipc"; readonly := false |} ]
    ++ List.filter writable
         (match gc_containerConfig group with
          | Some cfg =>
              match additionalMounts cfg with
              | Some ms => validateAdditionalMounts ms (gc_name group) isMain
              | None => []
              end
          | None => []
          end).
Proof.
  unfold buildVolumeMounts.
  set (extra := match gc_containerConfig group with Some _ => _ | None => _ end).
  rewrite !List.filter_app.
  destruct isMain; simpl.
  - destruct (existsSync hostfs (path_join PROJECT_ROOT ".env")); simpl;
      [|reflexivity].
    destruct (List.filter env_line_allowed (split_lines (envFileContent hostfs)));
      reflexivity.
  - destruct (existsSync hostfs _), (existsSync hostfs _),
      (existsSync hostfs (path_join PROJECT_ROOT ".env")); simpl;
      try reflexivity;
      destruct (List.filter env_line_allowed (split_lines (envFileContent hostfs)));
      reflexivity.
Qed.

End MountFacts.
(** ** Incoming text messages (telegram-client.ts) *)
Section InboundFacts.
Import Text Config Db Types SessionManager Telegram Worker Inbound Props Notions.
Variable ASSISTANT_NAME : string.

(** The router always answers, with the folder of the row the topic has
    afterwards; it writes no message. *)
Lemma getSessionFolder_bound now db key chatTitle topicName :
  exists db1 row,
    getSessionFolder now db key chatTitle topicName = Some (db1, topic_folder row)
    /\ getTopic db1 (chatId key) (topicId key) = Some row
    /\ messages db1 = messages db.
Proof.
  destruct (getSessionFolder_cases now db key chatTitle topicName)
    as [(row & Hrow & Hres)|(Hnone & folder & _ & _ & Hres)].
  - exists db, row. auto.
  - match type of Hres with
    | _ = Some (with_topics _ (_ ++ [?new]), _) =>
        exists (with_topics db (topics db ++ [new])), new
    end.
    split; [exact Hres|]. split; [|reflexivity].
    unfold getTopic in *. simpl. rewrite (find_app_None _ _ _ Hnone). simpl.
    unfold topic_has_key. simpl. rewrite !Z.eqb_refl. reflexivity.
Qed.

(** X27. A text message of a chat that is not registered changes nothing.
    A text message of a registered chat is always stored, under its
    message id and with its full text, and its topic has a row with a
    timestamp afterwards, whether or not the message triggers the
    assistant; it enters the debouncer, with the mention stripped, exactly
    when the trigger check passes and a handler is set. *)
Theorem text_message_is_stored_then_buffered_on_trigger nowTopic nowStored hasHandler
    registeredChats m db d txt :
  tu_text m = Some txt -> txt <> EmptyString ->
  let chat := tu_chat_id m in
  let topic := or_zero (tu_message_thread_id m) in
  (registeredChats !! chat = None ->
   handleTextMessage ASSISTANT_NAME nowTopic nowStored hasHandler registeredChats m db d
   = Some (db, d))
  /\ (forall rc, registeredChats !! chat = Some rc ->
      exists db' d' row stored,
        handleTextMessage ASSISTANT_NAME nowTopic nowStored hasHandler registeredChats
          m db d = Some (db', d')
        /\ getTopic db' chat topic = Some row
        /\ topic_last_message_time row <> None
        /\ getMessage db' chat topic (pretty (tu_message_id m)) = Some stored
        /\ msg_content stored = txt /\ msg_type stored = "text"
        /\ msg_timestamp stored = nowStored
        /\ msg_sender_name stored = senderNameOf (tu_from m)
        /\ d' = if (checkTrigger ASSISTANT_NAME txt (rc_defaultTrigger rc)
                      (topic_folder row) && hasHandler)%bool
                then bufferMessage
                       {| bm_sessionKey := {| chatId := chat; topicId := topic |};
                          bm_folder := topic_folder row;
                          bm_content :=
                            stripTrigger ASSISTANT_NAME txt (rc_defaultTrigger rc);
                          bm_senderName := senderNameOf (tu_from m);
                          bm_messageId := tu_message_id m;
                          bm_replyToMessageId := tu_reply_to_message_id m;
                          bm_timestamp := tu_date m * 1000 |} d
                else d).
Proof.
  intros Htext Hne chat topic. unfold handleTextMessage.
  rewrite Htext, (truthy_nonempty _ Hne). cbn [negb default from_option id].
  fold chat. fold topic. split.
  - intros Hreg. unfold isChatRegistered. rewrite Hreg.
    rewrite bool_decide_eq_false_2; [reflexivity|].
    intros [x Hx]. discriminate Hx.
  - intros rc Hreg. unfold isChatRegistered, SessionManager.getRegisteredChat.
    rewrite Hreg. rewrite bool_decide_eq_true_2 by eauto. cbn [negb].
    destruct (getSessionFolder_bound nowTopic db {| chatId := chat; topicId := topic |}
                (chatTitleOf (tu_chat_title m) chat) (getTopicName m))
      as (db1 & row & Hres & Hrow & _).
    rewrite Hres. simpl in Hrow.
    set (db2 := storeMessage nowStored _ chat topic _ _ txt "text" _ _ None None None None db1).
    assert (Htopic : getTopic db2 chat topic
                     = Some {| topic_chat_id := topic_chat_id row;
                               topic_topic_id := topic_topic_id row;
                               topic_name := topic_name row;
                               topic_folder := topic_folder row;
                               topic_trigger_mode := topic_trigger_mode row;
                               topic_last_message_time := Some nowStored |}).
    { subst db2. unfold storeMessage. rewrite getTopic_after_stamp.
      unfold getTopic in *. simpl. rewrite Hrow. reflexivity. }
    pose proof (proj1 (getMessage_storeMessage nowStored (pretty (tu_message_id m))
                         chat topic
                         match tu_from m with Some s => sender_id s | None => 0 end
                         (senderNameOf (tu_from m)) txt "text"
                         match tu_from m with Some s => is_bot s | None => false end
                         (tu_reply_to_message_id m) None None None None db1)) as Hmsg.
    fold db2 in Hmsg.
    destruct (checkTrigger ASSISTANT_NAME txt (rc_defaultTrigger rc) (topic_folder row)
              && hasHandler)%bool eqn:Htrig;
      eexists _, _, _, _; (split; [reflexivity|]);
      (split; [exact Htopic|]); (split; [discriminate|]);
      (split; [exact Hmsg|]); simpl; rewrite ?Htrig; repeat split; reflexivity.
Qed.

End InboundFacts.

Lemma text_message_is_stored_then_buffered_on_trigger_witness :
  (two_chats !! 100 = None ->
   Inbound.handleTextMessage "Nanomi" 5000 5001 true two_chats Notions.ann_mentions
     two_chats_db ann_twice_buffered
   = Some (two_chats_db, ann_twice_buffered))
  /\ (forall rc, two_chats !! 100 = Some rc ->
      exists db' d' row stored,
        Inbound.handleTextMessage "Nanomi" 5000 5001 true two_chats Notions.ann_mentions
          two_chats_db ann_twice_buffered = Some (db', d')
        /\ Db.getTopic db' 100 0 = Some row
        /\ Db.topic_last_message_time row <> None
        /\ Db.getMessage db' 100 0 "41" = Some stored
        /\ Db.msg_content stored = "@Nanomi what is up" /\ Db.msg_type stored = "text"
        /\ Db.msg_timestamp stored = 5001
        /\ Db.msg_sender_name stored = "Ann"
        /\ d' = if (Telegram.checkTrigger "Nanomi" "@Nanomi what is up"
                      (Types.rc_defaultTrigger rc) (Db.topic_folder row) && true)%bool
                then Telegram.bufferMessage
                       {| Telegram.bm_sessionKey := {| Types.chatId := 100;
                                                       Types.topicId := 0 |};
                          Telegram.bm_folder := Db.topic_folder row;
                          Telegram.bm_content :=
                            Inbound.stripTrigger "Nanomi" "@Nanomi what is up"
                              (Types.rc_defaultTrigger rc);
                          Telegram.bm_senderName := "Ann";
                          Telegram.bm_messageId := 41;
                          Telegram.bm_replyToMessageId := None;
                          Telegram.bm_timestamp := 1700000000 * 1000 |} ann_twice_buffered
                else ann_twice_buffered).
Proof.
  apply (text_message_is_stored_then_buffered_on_trigger "Nanomi" 5000 5001 true
           two_chats Notions.ann_mentions two_chats_db ann_twice_buffered
           "@Nanomi what is up").
  - reflexivity.
  - discriminate.
Defined.

Example strip_mention :
  Inbound.stripTrigger "Nanomi" "@nanomi what is up, @NANOMI?"
    {| Types.mode := "mention"; Types.mentionPattern := None |}
  = "what is up, ?".
Proof. reflexivity. Qed.
(** ** The search for a folder name (session-manager.ts) *)
Section FolderSearchFacts.
Import Text Config Db Types SessionManager Props Notions.

Lemma free_folder_first db baseName fuel : forall k,
  (exists j, (k <= j < k + fuel)%nat
             /\ getTopicByFolder db (candidate baseName j) = None) ->
  exists n, (k <= n < k + fuel)%nat
            /\ free_folder db baseName fuel (candidate baseName k) (S k)
               = Some (candidate baseName n)
            /\ getTopicByFolder db (candidate baseName n) = None
            /\ forall j, (k <= j < n)%nat ->
                         getTopicByFolder db (candidate baseName j) <> None.
Proof.
  induction fuel as [|fuel IH]; intros k (j & Hj & Hf); [lia|].
  simpl. destruct (getTopicByFolder db (candidate baseName k)) eqn:E.
  - destruct (IH (S k)) as (n & Hn & Hres & Hfree & Htaken).
    { exists j. split; [|exact Hf].
      assert (j <> k) by (intros ->; congruence). lia. }
    exists n. split; [lia|]. split; [exact Hres|]. split; [exact Hfree|].
    intros i Hi. destruct (Nat.eq_dec i k) as [->|Hik]; [congruence|].
    apply Htaken. lia.
  - exists k. split; [lia|]. split; [reflexivity|]. split; [exact E|].
    intros i Hi. lia.
Qed.

(** X30. The search for a folder name always ends: it returns the first
    name of the sequence base, base-1, base-2, ... that no topic owns,
    after at most as many taken names as the table has rows. *)
Theorem folder_name_is_the_first_free_candidate db chatTitle topicName key :
  exists n, (n <= List.length (topics db))%nat
    /\ generateFolderName db chatTitle topicName key
       = Some (candidate (baseNameOf chatTitle topicName key) n)
    /\ getTopicByFolder db (candidate (baseNameOf chatTitle topicName key) n) = None
    /\ forall j, (j < n)%nat ->
         getTopicByFolder db (candidate (baseNameOf chatTitle topicName key) j) <> None.
Proof.
  unfold generateFolderName.
  destruct (free_folder_first db (baseNameOf chatTitle topicName key)
              (S (List.length (topics db))) 0) as (n & Hn & Hres & Hfree & Htaken).
  { destruct (some_candidate_free db (baseNameOf chatTitle topicName key))
      as (j & Hj & Hf).
    exists j. split; [lia | exact Hf]. }
  exists n. split; [lia|]. split; [exact Hres|]. split; [exact Hfree|].
  intros j Hj. apply Htaken. lia.
Qed.

End FolderSearchFacts.

(** ** The mailbox of messages and reactions (index.ts) *)
Section MailboxRule.
Import Text Config Db Types SessionManager Worker Index Props Notions.
Variable ASSISTANT_NAME : string.

(** X29. The rule the watcher applies to a well-formed mailbox file. A
    message is delivered when the source folder is [main] and blocked
    otherwise, whether or not the target chat is registered. A reaction
    is delivered when the source folder is [main] or the target chat is
    registered, and blocked otherwise. *)
Theorem mailbox_delivery_rule registeredChats W chat topic body message emoji :
  body <> EmptyString -> message <> 0 -> emoji <> EmptyString ->
  let text_file := {| ipc_type := "message"; ipc_chatId := Some chat;
                      ipc_topicId := topic; ipc_text := Some body;
                      ipc_messageId := None; ipc_emoji := None |} in
  let reaction_file := {| ipc_type := "reaction"; ipc_chatId := Some chat;
                          ipc_topicId := None; ipc_text := None;
                          ipc_messageId := Some message; ipc_emoji := Some emoji |} in
  (W = MAIN_FOLDER ->
   processIpcMessage ASSISTANT_NAME registeredChats W text_file
   = Applied (SendText chat (default 0 topic) (ASSISTANT_NAME +:+ ": " +:+ body) None))
  /\ (W <> MAIN_FOLDER ->
      processIpcMessage ASSISTANT_NAME registeredChats W text_file = Blocked)
  /\ (W = MAIN_FOLDER \/ is_Some (registeredChats !! chat) ->
      processIpcMessage ASSISTANT_NAME registeredChats W reaction_file
      = Applied (SendReaction chat message emoji))
  /\ (W <> MAIN_FOLDER -> registeredChats !! chat = None ->
      processIpcMessage ASSISTANT_NAME registeredChats W reaction_file = Blocked).
Proof.
  intros Hb Hm He text_file reaction_file.
  destruct (ipc_message_applied_iff_main ASSISTANT_NAME registeredChats W chat topic body
              (truthy_nonempty _ Hb)) as [H1 H2].
  destruct (ipc_reaction_applied_iff_main_or_registered ASSISTANT_NAME registeredChats W
              chat message emoji Hm (truthy_nonempty _ He)) as [H3 H4].
  auto.
Qed.

End MailboxRule.

Lemma mailbox_delivery_rule_witness :
  let text_file := {| Index.ipc_type := "message"; Index.ipc_chatId := Some 100;
                      Index.ipc_topicId := Some 0; Index.ipc_text := Some "hello";
                      Index.ipc_messageId := None; Index.ipc_emoji := None |} in
  let reaction_file := {| Index.ipc_type := "reaction"; Index.ipc_chatId := Some 100;
                          Index.ipc_topicId := None; Index.ipc_text := None;
                          Index.ipc_messageId := Some 55;
                          Index.ipc_emoji := Some "+1" |} in
  ("dev" = Config.MAIN_FOLDER ->
   Index.processIpcMessage "Nanomi" two_chats "dev" text_file
   = Index.Applied (Worker.SendText 100 0 "Nanomi: hello" None))
  /\ ("dev" <> Config.MAIN_FOLDER ->
      Index.processIpcMessage "Nanomi" two_chats "dev" text_file = Index.Blocked)
  /\ ("dev" = Config.MAIN_FOLDER \/ is_Some (two_chats !! 100) ->
      Index.processIpcMessage "Nanomi" two_chats "dev" reaction_file
      = Index.Applied (Worker.SendReaction 100 55 "+1"))
  /\ ("dev" <> Config.MAIN_FOLDER -> two_chats !! 100 = None ->
      Index.processIpcMessage "Nanomi" two_chats "dev" reaction_file = Index.Blocked).
Proof.
  apply (mailbox_delivery_rule "Nanomi" two_chats "dev" 100 (Some 0) "hello" 55 "+1");
    discriminate.
Defined.

Lemma one_request_in_flight_per_worker_witness :
  Pool.in_flight (Pool.run 1800000 Notions.first_worker_at_work Pool.initial) 1%nat 1%nat
  /\ 1%nat = 1%nat.
Proof.
  split; [exact first_request_in_flight|].
  exact (one_request_in_flight_per_worker 1800000 Notions.first_worker_at_work
           1%nat 1%nat 1%nat first_request_in_flight first_request_in_flight).
Defined.
